(** * PDM telemetry: frame codec, scenario engine and channel store

  A shallow embedding of the firmware side of the PDM repository:

  - [src/backend/firmware/test_cases.py]  (module [TestCases]),
  - [src/backend/firmware/stm32_sim.py]   (module [Sim], the producer),
  - [src/backend/firmware/usb_reader.py]  (module [Reader], the consumer).

  Python [float] is IEEE-754 binary64, which is exactly Rocq's primitive
  [float]; every float operation of the source is the same operation on
  [PrimFloat].  Python [int] is [Z], [bytes] is [list byte], exceptions
  are an explicit result type, the module globals of the consumer and the
  attributes of the simulator object are explicit state records. *)

From Stdlib Require Import ZArith NArith List String Ascii Strings.Byte Floats QArith Qabs Lia Bool.
From Stdlib Require Import DecimalString Sorted.
From stdpp Require Import base list.
Import ListNotations.

Set Warnings "-inexact-float,-register-all".
Local Open Scope Z_scope.

(** ** Python primitives *)

Module Py.

(** The exceptions the modelled code can raise. *)
Inductive exn : Type :=
| IndexError
| ValueError
| OverflowError
| StructError
| AttributeError
| NotImplementedError.

(** Outcome of a call: a value or a raised exception. *)
Inductive res (A : Type) : Type :=
| Ok (a : A)
| Raise (e : exn).
Arguments Ok {A} a.
Arguments Raise {A} e.

Definition bind {A B} (r : res A) (k : A -> res B) : res B :=
  match r with
  | Ok a => k a
  | Raise e => Raise e
  end.

(** [l[i]] on a Python list with a non-negative index. *)
Definition getitem {A} (l : list A) (i : nat) : res A :=
  match l !! i with
  | Some x => Ok x
  | None => Raise IndexError
  end.

(** [float(z)] for a Python int: the nearest binary64 (ties to even).
    CPython raises OverflowError beyond the binary64 range; the integers
    converted in this development are 16-bit. *)
Definition float_of_int (z : Z) : float :=
  SF2Prim (binary_normalize prec emax z 0 false).

(** [int(x)] for a Python float: truncation toward zero; NaN raises
    ValueError, an infinity raises OverflowError. *)
Definition int_of_float (x : float) : res Z :=
  match Prim2SF x with
  | S754_nan => Raise ValueError
  | S754_infinity _ => Raise OverflowError
  | S754_zero _ => Ok 0
  | S754_finite s m e =>
      let a := if 0 <=? e then Z.shiftl (Z.pos m) e
               else Z.shiftr (Z.pos m) (- e) in
      Ok (if s then - a else a)
  end.

(** Nearest integer to [num / 2^k] ([num >= 0], [k > 0]), ties to even:
    the quotient is a right shift, the remainder the [k] low bits. *)
Definition shift_half_even (num k : Z) : Z :=
  let q := Z.shiftr num k in
  let r := Z.land num (Z.ones k) in
  match r ?= Z.shiftl 1 (k - 1) with
  | Lt => q
  | Gt => q + 1
  | Eq => if Z.even q then q else q + 1
  end.

(** [round(x, ndigits)] for a Python float and [ndigits >= 0].  CPython
    converts [x] to the correctly rounded decimal with [ndigits] places
    (ties of the exact binary value go to even) and reads that decimal
    back as the nearest binary64; the sign is kept, zeros, infinities
    and NaN are returned unchanged.  A float with a non-negative binary
    exponent is an integer and is its own rounding.  Otherwise the decimal
    [n / 10^ndigits] is read back by one correctly rounded division: the
    float division while [n < 2^53] (both operands are then exact), the
    division of the two integers themselves beyond. *)
Definition round (x : float) (ndigits : nat) : float :=
  match Prim2SF x with
  | S754_finite s m e =>
      if 0 <=? e then x else
      let p := 10 ^ Z.of_nat ndigits in
      let n := shift_half_even (Z.pos m * p) (- e) in
      let r := if n <? 9007199254740992
               then (float_of_int n / float_of_int p)%float
               else SF2Prim (SFdiv prec emax
                               (S754_finite false (Z.to_pos n) 0)
                               (S754_finite false (Z.to_pos p) 0)) in
      if s then (- r)%float else r
  | _ => x
  end.

(** [max(a, b)] and [min(a, b)] on floats: the first argument unless the
    second is strictly greater (smaller). *)
Definition max (a b : float) : float := if (a <? b)%float then b else a.
Definition min (a b : float) : float := if (b <? a)%float then b else a.

(** [x >= y] and [x > y] on floats. *)
Definition ge (x y : float) : bool := (y <=? x)%float.
Definition gt (x y : float) : bool := (y <? x)%float.

(** [sum(xs)] over floats, accumulated left to right from [0] by float
    additions (CPython 3.12 and later compensate the rounding error of the
    partial sums). *)
Definition sum (xs : list float) : float :=
  fold_left (fun acc x => (acc + x)%float) xs 0%float.

(** The exact value of a finite float as a rational. *)
Definition to_Q (x : float) : option Q :=
  match Prim2SF x with
  | S754_zero _ => Some (0 # 1)
  | S754_finite s m e =>
      let a := if 0 <=? e then (Z.pos m * 2 ^ e) # 1
               else Z.pos m # Z.to_pos (2 ^ (- e)) in
      Some (if s then Qopp a else a)
  | _ => None
  end.

End Py.

(** ** [struct] with the format [<HHhB] *)

Module Struct.

Definition byte_of_Z (z : Z) : byte :=
  match Byte.of_N (Z.to_N (z mod 256)) with
  | Some b => b
  | None => x00
  end.

Definition Z_of_byte (b : byte) : Z := Z.of_N (Byte.to_N b).

(** Little-endian unsigned 16-bit field [H]. *)
Definition pack_H (v : Z) : Py.res (list byte) :=
  if (0 <=? v) && (v <=? 65535)
  then Py.Ok [byte_of_Z (Z.land v 255); byte_of_Z (Z.shiftr v 8)]
  else Py.Raise Py.StructError.

(** Little-endian signed 16-bit field [h], two's complement. *)
Definition pack_h (v : Z) : Py.res (list byte) :=
  if (-32768 <=? v) && (v <=? 32767)
  then let u := v mod 65536 in
       Py.Ok [byte_of_Z (Z.land u 255); byte_of_Z (Z.shiftr u 8)]
  else Py.Raise Py.StructError.

(** Unsigned byte field [B]. *)
Definition pack_B (v : Z) : Py.res (list byte) :=
  if (0 <=? v) && (v <=? 255)
  then Py.Ok [byte_of_Z v]
  else Py.Raise Py.StructError.

(** [struct.pack("<HHhB", a, b, c, d)]: 7 bytes, no padding. *)
Definition pack_HHhB (a b c d : Z) : Py.res (list byte) :=
  Py.bind (pack_H a) (fun ba =>
  Py.bind (pack_H b) (fun bb =>
  Py.bind (pack_h c) (fun bc =>
  Py.bind (pack_B d) (fun bd =>
  Py.Ok (ba ++ bb ++ bc ++ bd))))).

Definition unpack_H (lo hi : byte) : Z :=
  Z.lor (Z_of_byte lo) (Z.shiftl (Z_of_byte hi) 8).

Definition unpack_h (lo hi : byte) : Z :=
  let u := unpack_H lo hi in
  if u <? 32768 then u else u - 65536.

(** [struct.unpack_from("<HHhB", buf, offset)]: needs 7 bytes from
    [offset], struct.error otherwise. *)
Definition unpack_from_HHhB (buf : list byte) (offset : nat)
  : Py.res (Z * Z * Z * Z) :=
  match take 7 (drop offset buf) with
  | [v0; v1; c0; c1; t0; t1; s] =>
      Py.Ok (unpack_H v0 v1, unpack_H c0 c1, unpack_h t0 t1, Z_of_byte s)
  | _ => Py.Raise Py.StructError
  end.

End Struct.

(** ** [test_cases.py]: the scenario engine *)

Module TestCases.

(** One channel state dict: [{"voltage", "current", "temp", "status"}]. *)
Record ChannelState : Type := mkState {
  voltage : float;
  current : float;
  temp : float;
  status : Z
}.

Definition set_voltage (v : float) (ch : ChannelState) : ChannelState :=
  mkState v (current ch) (temp ch) (status ch).
Definition set_current (c : float) (ch : ChannelState) : ChannelState :=
  mkState (voltage ch) c (temp ch) (status ch).
Definition set_temp (t : float) (ch : ChannelState) : ChannelState :=
  mkState (voltage ch) (current ch) t (status ch).
Definition set_status (s : Z) (ch : ChannelState) : ChannelState :=
  mkState (voltage ch) (current ch) (temp ch) s.

(** [class TestScenario]: the attributes set by [__init__] and the
    overridable method [get_channel_states]. *)
Record TestScenario : Type := mkScenario {
  name : string;
  description : string;
  duration : float;
  events : list (float * string);
  get_channel_states : float -> Py.res (list ChannelState)
}.

(** [TestScenario.get_event_at_time]. *)
Definition get_event_at_time (self : TestScenario) (elapsed_time : float)
  : string :=
  fold_left
    (fun current_event ev =>
       let '(event_time, message) := ev in
       if Py.ge elapsed_time event_time then message else current_event)
    (events self) "Normal operation"%string.

(** The base class: [duration = 5.0], no events, the method raises. *)
Definition base_scenario (name description : string) : TestScenario :=
  mkScenario name description 5.0 []
    (fun _ => Py.Raise Py.NotImplementedError).

Local Open Scope float_scope.

(** [CoolingFanFailure.get_channel_states].  [states[i][k] = v] on the
    literal 8-element list is [alter] at a constant index below 8. *)
Definition cooling_fan_states (elapsed_time : float) : list ChannelState :=
  let states :=
    [ mkState 13.8 5.2 45.0 1;
      mkState 13.8 3.5 38.0 1;
      mkState 13.8 4.8 42.0 1;
      mkState 13.7 8.0 35.0 1;
      mkState 13.8 1.2 32.0 1;
      mkState 13.8 0.8 30.0 1;
      mkState 13.8 2.1 35.0 1;
      mkState 13.7 0.0 28.0 0 ] in
  let states :=
    if Py.ge elapsed_time 2.0 then
      if elapsed_time <? 2.5 then
        alter (set_current (8.0 * (1 - (elapsed_time - 2.0) / 0.5))) 3%nat states
      else if elapsed_time <? 3.0 then
        alter (set_current (4.0 * (1 - (elapsed_time - 2.5) / 0.5))) 3%nat states
      else
        alter (set_status 2) 3%nat (alter (set_current 0.0) 3%nat states)
    else states in
  if Py.ge elapsed_time 3.0 then
    let temp_increase := (elapsed_time - 3.0) * 5.0 in
    fold_left
      (fun states i =>
         alter (fun ch => set_temp (temp ch + temp_increase) ch) i states)
      (seq 0 7) states
  else states.

Definition CoolingFanFailure : TestScenario :=
  mkScenario "Cooling Fan Failure" "Fan disconnects at 2s, temperature rises"
    5.0
    [ (0.0, "Normal operation - all systems healthy"%string);
      (2.0, "Bump! Fan connector loosened"%string);
      (2.5, "Fan power dropping..."%string);
      (3.0, "Fan stopped - fault detected"%string);
      (3.5, "Temperature rising rapidly"%string);
      (4.0, "Warning: High temperature detected"%string);
      (4.5, "System continues running on reduced cooling"%string) ]
    (fun t => Py.Ok (cooling_fan_states t)).

(** [EngineStartSequence.get_channel_states]. *)
Definition engine_start_states (elapsed_time : float) : list ChannelState :=
  let states :=
    [ mkState 13.8 0.0 25.0 0;
      mkState 13.8 0.0 25.0 0;
      mkState 13.8 0.0 25.0 0;
      mkState 13.8 0.0 25.0 0;
      mkState 13.8 1.2 25.0 1;
      mkState 13.8 0.8 25.0 1;
      mkState 13.8 2.1 25.0 1;
      mkState 13.8 0.0 25.0 0 ] in
  let base_voltage := 13.8 in
  let states :=
    if (1.0 <=? elapsed_time) && (elapsed_time <? 3.0) then
      let states := alter (set_status 1) 7%nat states in
      let states :=
        alter (set_current (150.0 + (elapsed_time - 1.0) * 10.0)) 7%nat states in
      let voltage_drop := 2.5 in
      fold_left
        (fun states i => alter (set_voltage (base_voltage - voltage_drop)) i states)
        (seq 0 8) states
    else states in
  if Py.ge elapsed_time 3.0 then
    let states := alter (set_status 0) 7%nat states in
    let states := alter (set_current 0.0) 7%nat states in
    let states := <[0%nat := mkState 13.8 5.2 30.0 1]> states in
    let states := <[1%nat := mkState 13.8 3.5 28.0 1]> states in
    let states := <[2%nat := mkState 13.8 4.8 32.0 1]> states in
    let recovery := Py.min 1.0 ((elapsed_time - 3.0) / 0.5) in
    fold_left
      (fun states i => alter (set_voltage base_voltage) i states)
      (seq 0 8) states
  else states.

Definition EngineStartSequence : TestScenario :=
  mkScenario "Engine Start Sequence"
    "Starter engages at 1s, engine starts at 3s"
    5.0
    [ (0.0, "Pre-start: Dashboard and sensors only"%string);
      (1.0, "Starter motor engaged - cranking"%string);
      (1.5, "High current draw - voltage dropping"%string);
      (2.0, "Cranking continues..."%string);
      (2.5, "Engine almost started..."%string);
      (3.0, "Engine started! All systems online"%string);
      (3.5, "Systems stabilizing"%string);
      (4.0, "Normal operation restored"%string) ]
    (fun t => Py.Ok (engine_start_states t)).

(** [SCENARIOS] and [get_scenario]: [SCENARIOS.get(scenario_id, None)]. *)
Definition SCENARIOS : list (Z * TestScenario) :=
  [ (1%Z, CoolingFanFailure); (2%Z, EngineStartSequence) ].

Definition get_scenario (scenario_id : Z) : option TestScenario :=
  snd <$> find (fun e => Z.eqb (fst e) scenario_id) SCENARIOS.

Definition list_scenarios : list (Z * string * string) :=
  map (fun e => (fst e, name (snd e), description (snd e))) SCENARIOS.

End TestCases.

(** ** [stm32_sim.py]: the producer *)

Module Sim.
Import TestCases.

(** [@dataclass ScenarioInfo]. *)
Record ScenarioInfo : Type := mkInfo {
  info_name : string;
  info_description : string;
  elapsed : float;
  info_status : string;
  current_event : string
}.

Definition default_info : ScenarioInfo :=
  mkInfo "Normal Operation" "All systems running normally" 0.0 "idle"
    "Normal operation".

(** The attributes of a [STM32Simulator] object the loop reads and writes
    (the serial port is outside the model). *)
Record STM32Simulator : Type := mkSim {
  sim_voltage : float;
  channels_state : list ChannelState;
  active_scenario : option TestScenario;
  scenario_started_at : float;
  scenario_info : ScenarioInfo
}.

(** [STM32Simulator.__init__]. *)
Definition init : STM32Simulator :=
  mkSim 13.8
    [ mkState 13.8 5.2 45.0 1;
      mkState 13.8 3.5 38.0 1;
      mkState 13.8 4.8 42.0 1;
      mkState 13.7 8.0 35.0 1;
      mkState 13.8 1.2 32.0 1;
      mkState 13.8 0.8 30.0 1;
      mkState 13.8 2.1 35.0 1;
      mkState 13.7 0.0 28.0 0 ]
    None 0.0 default_info.

(** A parsed JSON document, as [json.load] returns it. *)
Inductive json : Type :=
| JNull
| JBool (b : bool)
| JInt (z : Z)
| JFloat (f : float)
| JStr (s : string)
| JList (l : list json)
| JDict (kv : list (string * json)).

(** Python truthiness, [bool(v)]. *)
Definition truthy (v : json) : bool :=
  match v with
  | JNull => false
  | JBool b => b
  | JInt z => negb (z =? 0)
  | JFloat f => negb (f =? 0)%float
  | JStr s => negb (String.eqb s "")
  | JList l => match l with [] => false | _ => true end
  | JDict kv => match kv with [] => false | _ => true end
  end.

(** [d.get(key)] on a decoded JSON object; a repeated key keeps its last
    value. *)
Definition dict_get (kv : list (string * json)) (key : string) : json :=
  match find (fun e => String.eqb (fst e) key) (rev kv) with
  | Some e => snd e
  | None => JNull
  end.

(** What [_apply_channel_controls] finds at [CTRL_FILE]. *)
Inductive ctrl_file : Type :=
| CtrlAbsent
| CtrlUnreadable
| CtrlJson (data : json).

(** What one iteration of [run] reads from its environment: the value
    [_load_trigger] returns, the two [time.time()] readings, the control
    file, and the successive values of [random.random()]. *)
Record tick_input : Type := mkInput {
  trigger : option Z;
  t_start : float;
  t_update : float;
  ctrl : ctrl_file;
  rand : nat -> float
}.

(** [_maybe_start_scenario], with [scenario_id = self._load_trigger()]
    and [now = time.time()]. *)
Definition _maybe_start_scenario (self : STM32Simulator)
    (scenario_id : option Z) (now : float) : STM32Simulator :=
  match scenario_id with
  | None => self
  | Some scenario_id =>
      match get_scenario scenario_id with
      | None => self
      | Some scenario =>
          mkSim (sim_voltage self) (channels_state self) (Some scenario) now
            (mkInfo (name scenario) (description scenario) 0.0 "active"
               "Starting…")
      end
  end.

Definition set_info (self : STM32Simulator) (i : ScenarioInfo)
  : STM32Simulator :=
  mkSim (sim_voltage self) (channels_state self) (active_scenario self)
    (scenario_started_at self) i.

(** [_update_scenario_state], with [now = time.time()]. *)
Definition _update_scenario_state (self : STM32Simulator) (now : float)
  : STM32Simulator :=
  match active_scenario self with
  | None =>
      let i := scenario_info self in
      set_info self
        (mkInfo (info_name i) (info_description i) 0.0 "idle"
           "Normal operation")
  | Some scenario =>
      let elapsed := (now - scenario_started_at self)%float in
      let i := scenario_info self in
      let i := mkInfo (info_name i) (info_description i) elapsed "active"
                 (current_event i) in
      if Py.ge elapsed (duration scenario) then
        mkSim (sim_voltage self) (channels_state self) None
          (scenario_started_at self)
          (mkInfo (info_name i) (info_description i) elapsed "complete"
             "Scenario complete")
      else
        match get_channel_states scenario elapsed with
        | Py.Ok states =>
            mkSim (sim_voltage self) states (Some scenario)
              (scenario_started_at self)
              (mkInfo (info_name i) (info_description i) elapsed "active"
                 (get_event_at_time scenario elapsed))
        | Py.Raise _ =>
            mkSim (sim_voltage self) (channels_state self) None
              (scenario_started_at self)
              (mkInfo (info_name i) (info_description i) elapsed "idle"
                 (current_event i))
        end
  end.

(** The loop of [_apply_channel_controls] over [enumerate(mask)]: an
    index beyond [channels_state] raises, which the caller's [except]
    swallows, keeping the entries already written. *)
Fixpoint apply_mask (states : list ChannelState) (i : nat)
    (mask : list json) : list ChannelState :=
  match mask with
  | [] => states
  | on :: mask' =>
      match states !! i with
      | None => states
      | Some ch =>
          let ch := if truthy on then set_status 1 ch else set_status 0 ch in
          apply_mask (<[i := ch]> states) (S i) mask'
      end
  end.

(** [_apply_channel_controls]. *)
Definition _apply_channel_controls (self : STM32Simulator) (f : ctrl_file)
  : STM32Simulator :=
  match f with
  | CtrlAbsent => self
  | CtrlUnreadable => self
  | CtrlJson (JDict kv) =>
      match dict_get kv "channels" with
      | JList mask =>
          if (length mask =? 8)%nat then
            mkSim (sim_voltage self) (apply_mask (channels_state self) 0 mask)
              (active_scenario self) (scenario_started_at self)
              (scenario_info self)
          else self
      | _ => self
      end
  | CtrlJson _ => self
  end.

Local Open Scope float_scope.

(** [random.uniform(a, b)] is [a + (b - a) * random.random()]. *)
Definition uniform (r : float) (a b : float) : float := a + (b - a) * r.

Definition is_on (ch : ChannelState) : bool :=
  negb (Z.land (status ch) 1 =? 0)%Z.

(** One iteration of the [for i, ch in enumerate(...)] loop of
    [_update_sensors]; [k] counts the random draws taken so far. *)
Definition sensor_step (v : float) (rand : nat -> float)
    (states : list ChannelState) (k : nat) (i : nat) (ch : ChannelState)
  : Py.res (list ChannelState * nat) :=
  let on := is_on ch in
  let ch := set_voltage (v + uniform (rand k) (-0.1) 0.1) ch in
  let k := S k in
  Py.bind
    (if on then
       if (i =? 7)%nat then
         Py.Ok (set_current (uniform (rand k) 80.0 120.0) ch, S k)
       else
         Py.bind (Py.getitem [5.2; 3.5; 4.8; 8.0; 1.2; 0.8; 2.1; 100.0] i)
           (fun base =>
              Py.Ok (set_current
                       (Py.max 0.5 (base + uniform (rand k) (-0.3) 0.3)) ch,
                     S k))
     else Py.Ok (set_current 0.0 ch, k))
    (fun '(ch, k) =>
       let target := if on then 25 + (current ch / 10.0) * 15 else 25.0 in
       let alpha := if on then 0.05 else 0.02 in
       let ch := set_temp (temp ch + (target - temp ch) * alpha) ch in
       let ch := set_temp (Py.max 20.0 (Py.min 100.0 (temp ch))) ch in
       let states := <[i := ch]> states in
       if (i =? 3)%nat then
         let avg_temp := Py.sum (map temp states) / 8 in
         let ch :=
           if Py.gt avg_temp 40.0 && negb on then set_status 1 ch
           else if (avg_temp <? 35.0) && on then set_status 0 ch
           else ch in
         Py.Ok (<[i := ch]> states, k)
       else Py.Ok (states, k)).

Fixpoint sensor_loop (v : float) (rand : nat -> float)
    (states : list ChannelState) (k : nat) (idx : list nat)
  : Py.res (list ChannelState) :=
  match idx with
  | [] => Py.Ok states
  | i :: idx' =>
      match states !! i with
      | None => Py.Ok states
      | Some ch =>
          Py.bind (sensor_step v rand states k i ch)
            (fun '(states, k) => sensor_loop v rand states k idx')
      end
  end.

(** [_update_sensors]. *)
Definition _update_sensors (self : STM32Simulator) (rand : nat -> float)
  : Py.res STM32Simulator :=
  match active_scenario self with
  | Some _ => Py.Ok self
  | None =>
      let v := sim_voltage self + uniform (rand 0%nat) (-0.05) 0.05 in
      let v := Py.max 12.5 (Py.min 14.5 v) in
      Py.bind
        (sensor_loop v rand (channels_state self) 1
           (seq 0 (length (channels_state self))))
        (fun states =>
           Py.Ok (mkSim v states None (scenario_started_at self)
                    (scenario_info self)))
  end.

(** The per-channel body of [_make_packet]: the three [int(...)] calls in
    order, then [struct.pack]. *)
Definition pack_channel (ch : ChannelState) : Py.res (list byte) :=
  Py.bind (Py.int_of_float (voltage ch * 1000)) (fun voltage_mv =>
  Py.bind (Py.int_of_float (current ch * 1000)) (fun current_ma =>
  Py.bind (Py.int_of_float (temp ch * 10)) (fun temp_dec =>
  Struct.pack_HHhB voltage_mv current_ma temp_dec (status ch)))).

Fixpoint pack_channels (packet : list byte) (chs : list ChannelState)
  : Py.res (list byte) :=
  match chs with
  | [] => Py.Ok packet
  | ch :: chs' =>
      Py.bind (pack_channel ch) (fun b => pack_channels (packet ++ b) chs')
  end.

(** The running XOR [checksum ^= b] from [0]. *)
Definition xor_bytes (bs : list byte) : Z :=
  fold_left (fun checksum b => Z.lxor checksum (Struct.Z_of_byte b)) bs 0%Z.

(** [_make_packet]. *)
Definition _make_packet (self : STM32Simulator) : Py.res (list byte) :=
  Py.bind (pack_channels [xaa] (channels_state self)) (fun packet =>
  Py.Ok (packet ++ [Struct.byte_of_Z (xor_bytes packet)])).

(** The JSON object [_write_status_file] dumps to [STATUS_FILE]. *)
Record StatusMessage : Type := mkStatus {
  msg_name : string;
  msg_description : string;
  msg_elapsed : float;
  msg_status : string;
  msg_current_event : string;
  msg_system_voltage : float;
  msg_total_current : float
}.

(** [_write_status_file]: [None] when the body raises (an empty
    [channels_state]), which the function's own [except] swallows. *)
Definition _write_status_file (self : STM32Simulator)
  : option StatusMessage :=
  let total_current := Py.sum (map current (channels_state self)) in
  match channels_state self !! 0%nat with
  | None => None
  | Some ch0 =>
      let i := scenario_info self in
      Some (mkStatus (info_name i) (info_description i)
              (Py.round (elapsed i) 2) (info_status i) (current_event i)
              (Py.round (voltage ch0) 2) (Py.round total_current 2))
  end.

(** One iteration of the [while True] loop of [run]: the new object
    state, the frame written to the serial port and the status published.
    An exception leaves the loop. *)
Definition tick (self : STM32Simulator) (inp : tick_input)
  : Py.res (STM32Simulator * list byte * option StatusMessage) :=
  let self := _maybe_start_scenario self (trigger inp) (t_start inp) in
  let self := _update_scenario_state self (t_update inp) in
  let self := _apply_channel_controls self (ctrl inp) in
  Py.bind (_update_sensors self (rand inp)) (fun self =>
  Py.bind (_make_packet self) (fun pkt =>
  Py.Ok (self, pkt, _write_status_file self))).

(** The frames and statuses of successive iterations, up to the first
    exception. *)
Fixpoint run (self : STM32Simulator) (inputs : list tick_input)
  : list (list byte * option StatusMessage) :=
  match inputs with
  | [] => []
  | inp :: inputs' =>
      match tick self inp with
      | Py.Ok (self', pkt, msg) => (pkt, msg) :: run self' inputs'
      | Py.Raise _ => []
      end
  end.

End Sim.

(** ** [usb_reader.py]: the consumer *)

Module Reader.

Record StatusFlags : Type := mkFlags {
  on : bool;
  fault : bool;
  over_current : bool;
  over_temp : bool
}.

(** One entry of [pdm_data["channels"]]. *)
Record Channel : Type := mkChannel {
  id : Z;
  name : string;
  voltage : float;
  current : float;
  temperature : float;
  status : StatusFlags
}.

(** The dict [pdm_data]. *)
Record PdmData : Type := mkPdm {
  timestamp : option string;
  system_voltage : float;
  total_current : float;
  channels : list Channel
}.

(** The module globals [parse_packet] touches, and the console. *)
Record World : Type := mkWorld {
  pdm_data : PdmData;
  channel_enabled : list bool;
  stdout : list string
}.

Definition CHANNEL_NAMES : list string :=
  [ "ECU"; "Fuel Pump"; "Ignition Coil"; "Radiator Fan"; "Data Logger";
    "Dashboard"; "Sensors"; "Starter Motor" ]%string.

(** The globals as the module initialises them. *)
Definition init : World :=
  mkWorld
    (mkPdm None 0.0 0.0
       (imap (fun i n => mkChannel (Z.of_nat i) n 0.0 0.0 0.0
                           (mkFlags false false false false))
          CHANNEL_NAMES))
    (repeat true 8)
    [].

Definition print (w : World) (line : string) : World :=
  mkWorld (pdm_data w) (channel_enabled w) (stdout w ++ [line]).

Definition str (z : Z) : string :=
  NilZero.string_of_int (Z.to_int z).

Definition xor_bytes (bs : list byte) : Z :=
  fold_left (fun checksum b => Z.lxor checksum (Struct.Z_of_byte b)) bs 0%Z.

(** [bool(status_byte & m)]. *)
Definition bit_set (status_byte m : Z) : bool :=
  negb (Z.land status_byte m =? 0).

(** One iteration of [for i in range(8)] in [parse_packet]; the loop
    carries [offset] and [total_current]. *)
Definition parse_channel (packet : list byte) (i : nat)
    (offset : nat) (total_current : float) (w : World)
  : Py.res (nat * float) * World :=
  match Struct.unpack_from_HHhB packet offset with
  | Py.Raise e => (Py.Raise e, w)
  | Py.Ok (voltage_mv, current_ma, temp_dec, status_byte) =>
      let offset := (offset + 7)%nat in
      let voltage := (Py.float_of_int voltage_mv / 1000.0)%float in
      let current := (Py.float_of_int current_ma / 1000.0)%float in
      let temperature := (Py.float_of_int temp_dec / 10.0)%float in
      match Py.getitem (channel_enabled w) i with
      | Py.Raise e => (Py.Raise e, w)
      | Py.Ok enabled =>
          let '(on_flag, current) :=
            if negb enabled then (false, 0.0%float)
            else (bit_set status_byte 0x01, current) in
          let total_current := (total_current + current)%float in
          match Py.getitem (channels (pdm_data w)) i with
          | Py.Raise e => (Py.Raise e, w)
          | Py.Ok ch =>
              let ch :=
                mkChannel (id ch) (name ch)
                  (Py.round voltage 2) (Py.round current 2)
                  (Py.round temperature 1)
                  (mkFlags on_flag (bit_set status_byte 0x02)
                     (bit_set status_byte 0x04) (bit_set status_byte 0x08)) in
              let d := pdm_data w in
              (Py.Ok (offset, total_current),
               mkWorld
                 (mkPdm (timestamp d) (system_voltage d) (Reader.total_current d)
                    (<[i := ch]> (channels d)))
                 (channel_enabled w) (stdout w))
          end
      end
  end.

Fixpoint parse_channels (packet : list byte) (idx : list nat)
    (offset : nat) (total_current : float) (w : World)
  : Py.res float * World :=
  match idx with
  | [] => (Py.Ok total_current, w)
  | i :: idx' =>
      match parse_channel packet i offset total_current w with
      | (Py.Raise e, w) => (Py.Raise e, w)
      | (Py.Ok (offset, total_current), w) =>
          parse_channels packet idx' offset total_current w
      end
  end.

(** [USBReader.parse_packet], with [now = datetime.now().isoformat()]. *)
Definition parse_packet (packet : list byte) (now : string) (w : World)
  : Py.res bool * World :=
  if negb (length packet =? 58)%nat then (Py.Ok false, w) else
  match Py.getitem packet 0 with
  | Py.Raise e => (Py.Raise e, w)
  | Py.Ok header =>
      if negb (Struct.Z_of_byte header =? 0xAA) then (Py.Ok false, w) else
      let checksum := xor_bytes (removelast packet) in
      match last packet with
      | None => (Py.Raise Py.IndexError, w)
      | Some trailer =>
          if negb (checksum =? Struct.Z_of_byte trailer) then
            (Py.Ok false,
             print w ("Checksum mismatch: expected " ++ str checksum
                      ++ ", got " ++ str (Struct.Z_of_byte trailer)))
          else
            match parse_channels packet (seq 0 8) 1 0.0%float w with
            | (Py.Raise e, w) => (Py.Raise e, w)
            | (Py.Ok total, w) =>
                match Py.getitem (channels (pdm_data w)) 0 with
                | Py.Raise e => (Py.Raise e, w)
                | Py.Ok ch0 =>
                    (Py.Ok true,
                     mkWorld
                       (mkPdm (Some now) (Py.round (voltage ch0) 2)
                          (Py.round total 2) (channels (pdm_data w)))
                       (channel_enabled w) (stdout w))
                end
            end
      end
  end.

End Reader.

(** ** [stm32_sim.py]: the trigger file *)

Module SimFiles.
Import Sim.

Section WithIntOfStr.

(** [int(s)] on a Python string, [None] when it raises: the builtin's
    parser is not part of the repository. *)
Variable int_of_str : string -> option Z.

(** [int(v)] on a decoded JSON value, [None] when it raises (TypeError on
    null, lists and objects, ValueError or OverflowError on NaN and
    infinities). *)
Definition int_of_json (v : json) : option Z :=
  match v with
  | JInt z => Some z
  | JBool b => Some (Z.b2z b)
  | JFloat f =>
      match Py.int_of_float f with
      | Py.Ok z => Some z
      | Py.Raise _ => None
      end
  | JStr s => int_of_str s
  | JNull | JList _ | JDict _ => None
  end.

(** [_load_trigger]: the scenario id read from [TRIGGER_FILE] and the file
    afterwards.  A file that exists is removed in the [finally] clause
    whatever it held; every exception of the body gives [None]. *)
Definition _load_trigger (file : ctrl_file) : option Z * ctrl_file :=
  match file with
  | CtrlAbsent => (None, CtrlAbsent)
  | CtrlUnreadable => (None, CtrlAbsent)
  | CtrlJson (JDict kv) => (int_of_json (dict_get kv "scenario_id"), CtrlAbsent)
  | CtrlJson _ => (None, CtrlAbsent)
  end.

End WithIntOfStr.

End SimFiles.

(** ** [usb_reader.py]: the read loop and the REST handlers *)

Module Server.
Import Reader.

(** [f"{n:05d}"]: the decimal digits padded with zeros to width 5, the
    sign counting for one place. *)
Definition format_05d (n : Z) : string :=
  let digits := str (Z.abs n) in
  let sign := if n <? 0 then "-"%string else ""%string in
  let width := (5 - String.length sign - String.length digits)%nat in
  (sign ++ String.concat "" (repeat "0"%string width) ++ digits)%string.

(** [f"{x:.1f}"]: the correctly rounded decimal with one place (ties of the
    exact binary value to even), the sign kept. *)
Definition format_1f (x : float) : string :=
  match Prim2SF x with
  | S754_nan => "nan"%string
  | S754_infinity s => if s then "-inf"%string else "inf"%string
  | S754_zero s => if s then "-0.0"%string else "0.0"%string
  | S754_finite s m e =>
      let n := if 0 <=? e then Z.shiftl (Z.pos m) e * 10
               else Py.shift_half_even (Z.pos m * 10) (- e) in
      ((if s then "-" else "") ++ str (n / 10) ++ "." ++ str (n mod 10))%string
  end.

(** [sum(1 for ch in pdm_data['channels'] if ch['status']['on'])]. *)
Definition active_channels (d : PdmData) : Z :=
  Z.of_nat (length (filter (fun ch => on (status ch) = true) (channels d))).

(** The line [read_loop] prints after every tenth accepted frame. *)
Definition received_line (packet_count : Z) (d : PdmData) : string :=
  ("[" ++ format_05d packet_count ++ "] Received | V:"
   ++ format_1f (system_voltage d) ++ "V | I:"
   ++ format_1f (total_current d) ++ "A | Active:"
   ++ str (active_channels d) ++ "/8")%string.

(** One iteration of the [while self.running] loop of [read_loop], for the
    bytes [serial.read(58)] returned and the time of the call. *)
Definition read_iteration (packet : list byte) (now : string)
    (packet_count : Z) (w : World) : Py.res Z * World :=
  if (length packet =? 58)%nat then
    match parse_packet packet now w with
    | (Py.Raise e, w) => (Py.Raise e, w)
    | (Py.Ok true, w) =>
        let packet_count := packet_count + 1 in
        if packet_count mod 10 =? 0
        then (Py.Ok packet_count,
              print w (received_line packet_count (pdm_data w)))
        else (Py.Ok packet_count, w)
    | (Py.Ok false, w) => (Py.Ok packet_count, print w "Invalid packet received")
    end
  else (Py.Ok packet_count, w).

Fixpoint read_frames (reads : list (list byte * string)) (packet_count : Z)
    (w : World) : Py.res Z * World :=
  match reads with
  | [] => (Py.Ok packet_count, w)
  | (packet, now) :: reads' =>
      match read_iteration packet now packet_count w with
      | (Py.Raise e, w) => (Py.Raise e, w)
      | (Py.Ok packet_count, w) => read_frames reads' packet_count w
      end
  end.

(** The loop of [read_loop] from [packet_count = 0], over the successive
    reads made while [self.running] holds (opening and closing the port
    are outside the model). *)
Definition read_loop (reads : list (list byte * string)) (w : World)
  : Py.res Z * World :=
  read_frames reads 0 w.

(** The dict [mock_scenario_status]. *)
Record MockStatus : Type := mkMock {
  mock_name : string;
  mock_description : string;
  mock_elapsed : float;
  mock_status : string;
  mock_current_event : string
}.

(** The module globals and the two files the handlers write. *)
Record State : Type := mkServer {
  globals : World;
  mock_current_scenario : option TestCases.TestScenario;
  mock_scenario_started_at : float;
  mock_scenario_status : MockStatus;
  CTRL_FILE : Sim.ctrl_file;
  TRIGGER_FILE : Sim.ctrl_file
}.

(** The module as loaded. *)
Definition init : State :=
  mkServer Reader.init None 0.0
    (mkMock "Normal Operation" "All systems running normally" 0.0 "idle"
       "Normal operation")
    Sim.CtrlAbsent Sim.CtrlAbsent.

(** What a handler returns: the JSON body by shape, with the status code
    when it is not 200; [ServerError] is the 500 answer of an
    [except Exception] clause. *)
Inductive response : Type :=
| StatusJson (d : PdmData)
| ChannelsJson (timestamp : option string) (channels : list Channel)
| ChannelJson (timestamp : option string) (channel : Channel)
| SystemJson (timestamp : option string) (system_voltage total_current : float)
    (active : Z)
| SetJson (channel : Z) (enabled in_use : bool)
| TriggeredJson (scenario_id : Sim.json)
| ErrorJson (code : Z) (error : string)
| ServerError.

(** [get_pdm_status], [get_all_channels], [get_system]. *)
Definition get_pdm_status (s : State) : response :=
  StatusJson (pdm_data (globals s)).

Definition get_all_channels (s : State) : response :=
  let d := pdm_data (globals s) in ChannelsJson (timestamp d) (channels d).

Definition get_system (s : State) : response :=
  let d := pdm_data (globals s) in
  SystemJson (timestamp d) (system_voltage d) (total_current d)
    (active_channels d).

(** [get_channel]: an index outside the list raises out of the handler. *)
Definition get_channel (channel_id : Z) (s : State) : Py.res response :=
  if (0 <=? channel_id) && (channel_id <? 8) then
    let d := pdm_data (globals s) in
    Py.bind (Py.getitem (channels d) (Z.to_nat channel_id)) (fun ch =>
    Py.Ok (ChannelJson (timestamp d) ch))
  else Py.Ok (ErrorJson 400 "Invalid channel ID. Must be 0-7").

Definition set_globals (s : State) (w : World) : State :=
  mkServer w (mock_current_scenario s) (mock_scenario_started_at s)
    (mock_scenario_status s) (CTRL_FILE s) (TRIGGER_FILE s).

(** The JSON object [set_channel] dumps to [CTRL_FILE]. *)
Definition control_document (now : string) (enabled : list bool) : Sim.json :=
  Sim.JDict [ ("timestamp"%string, Sim.JStr now);
              ("channels"%string, Sim.JList (map Sim.JBool enabled)) ].

(** [set_channel], with [MOCK_ENABLED], the decoded request body ([None]
    when [get_json] gives none) and [datetime.now().isoformat()].  The
    write of the file is taken to succeed. *)
Definition set_channel (MOCK_ENABLED : bool) (channel_id : Z)
    (body : option Sim.json) (now : string) (s : State) : response * State :=
  if negb ((0 <=? channel_id) && (channel_id <? 8)) then
    (ErrorJson 400 "Invalid channel ID. Must be 0-7", s)
  else
    match body with
    | Some (Sim.JDict kv) =>
        let enabled := Sim.truthy (Sim.dict_get kv "enabled") in
        let w := globals s in
        let d := pdm_data w in
        let i := Z.to_nat channel_id in
        match channels d !! i with
        | None => (ServerError, s)
        | Some ch =>
            let f := status ch in
            let ch := mkChannel (id ch) (name ch) (voltage ch) (current ch)
                        (temperature ch)
                        (mkFlags enabled (fault f) (over_current f)
                           (over_temp f)) in
            let ch := if negb enabled
                      then mkChannel (id ch) (name ch) (voltage ch) 0.0
                             (temperature ch) (status ch)
                      else ch in
            let in_use := on (status ch) && (0 <? current ch)%float in
            let d := mkPdm (timestamp d) (system_voltage d) (total_current d)
                       (<[i := ch]> (channels d)) in
            if (i <? length (channel_enabled w))%nat then
              let mask := <[i := enabled]> (channel_enabled w) in
              let s := set_globals s (mkWorld d mask (stdout w)) in
              if MOCK_ENABLED then (SetJson channel_id enabled in_use, s)
              else
                (SetJson channel_id enabled in_use,
                 mkServer (globals s) (mock_current_scenario s)
                   (mock_scenario_started_at s) (mock_scenario_status s)
                   (Sim.CtrlJson (control_document now mask))
                   (TRIGGER_FILE s))
            else
              (ServerError,
               set_globals s (mkWorld d (channel_enabled w) (stdout w)))
        end
    | _ => (ServerError, s)
    end.

(** [v == n] for a decoded JSON value and a small Python int: ints, floats
    and booleans compare by value. *)
Definition eq_int (v : Sim.json) (n : Z) : bool :=
  match v with
  | Sim.JInt z => z =? n
  | Sim.JFloat f => (f =? Py.float_of_int n)%float
  | Sim.JBool b => Z.b2z b =? n
  | _ => false
  end.

(** The JSON object [trigger_scenario] dumps to [TRIGGER_FILE]. *)
Definition trigger_document (scenario_id : Sim.json) (now : string)
  : Sim.json :=
  Sim.JDict [ ("command"%string, Sim.JStr "scenario");
              ("scenario_id"%string, scenario_id);
              ("timestamp"%string, Sim.JStr now) ].

Section WithIntOfStr.

Variable int_of_str : string -> option Z.

(** [trigger_scenario], with [MOCK_ENABLED], the decoded request body,
    [time.time()] and [datetime.now().isoformat()]. *)
Definition trigger_scenario (MOCK_ENABLED : bool) (body : option Sim.json)
    (time_now : float) (now : string) (s : State) : response * State :=
  match body with
  | Some (Sim.JDict kv) =>
      let scenario_id := Sim.dict_get kv "scenario_id" in
      if negb (eq_int scenario_id 1 || eq_int scenario_id 2) then
        (ErrorJson 400 "Invalid scenario ID. Must be 1 or 2", s)
      else if MOCK_ENABLED then
        match SimFiles.int_of_json int_of_str scenario_id with
        | None => (ServerError, s)
        | Some n =>
            let found := TestCases.get_scenario n in
            let s := mkServer (globals s) found (mock_scenario_started_at s)
                       (mock_scenario_status s) (CTRL_FILE s)
                       (TRIGGER_FILE s) in
            match found with
            | None => (ErrorJson 404 "Scenario not found", s)
            | Some scenario =>
                (TriggeredJson scenario_id,
                 mkServer (globals s) found time_now
                   (mkMock (TestCases.name scenario)
                      (TestCases.description scenario) 0.0 "active"
                      "Starting…")
                   (CTRL_FILE s) (TRIGGER_FILE s))
            end
        end
      else
        (TriggeredJson scenario_id,
         mkServer (globals s) (mock_current_scenario s)
           (mock_scenario_started_at s) (mock_scenario_status s)
           (CTRL_FILE s) (Sim.CtrlJson (trigger_document scenario_id now)))
  | _ => (ServerError, s)
  end.

End WithIntOfStr.

End Server.

(** * Statements: the vocabulary of the properties *)

(** ** Vocabulary: event-label lookup *)

Section EventLookupSpec.
Import TestCases.

(** The loop body of [get_event_at_time]. *)
Definition pick (t : float) (current_event : string) (ev : float * string)
  : string :=
  let '(event_time, message) := ev in
  if Py.ge t event_time then message else current_event.

(** Thresholds in nondecreasing order. *)
Definition event_le (a b : float * string) : Prop :=
  (fst a <=? fst b)%float = true.

Definition ordered_events (evs : list (float * string)) : Prop :=
  Sorted event_le evs.

(** A scenario with two events at the same threshold. *)
Definition tie_scenario : TestScenario :=
  mkScenario "tie" "" 5.0%float
    [(1.0%float, "first"%string); (1.0%float, "second"%string)]
    (fun _ => Py.Raise Py.NotImplementedError).

End EventLookupSpec.

(** ** Vocabulary: the fan-failure ramp *)

Section FanRampSpec.
Import TestCases.
Local Open Scope float_scope.

(** The current the scenario reports for the fan (channel 3). *)
Definition fan_current (sc : TestScenario) (t : float) : option float :=
  match get_channel_states sc t with
  | Py.Ok states => current <$> states !! 3%nat
  | Py.Raise _ => None
  end.

End FanRampSpec.

(** ** Vocabulary: the producer's channel controls *)

Section ChannelControlsSpec.
Import TestCases Sim.

(** The status byte the override writes for a mask entry. *)
Definition forced_status (on : json) : Z := if truthy on then 1 else 0.

(** The initial simulator with the fan reporting fault, over-current
    and over-temperature, and a control file enabling every channel. *)
Definition faulted_sim : STM32Simulator :=
  mkSim 13.8%float
    (<[3%nat := mkState 13.7%float 0.0%float 35.0%float 0x0E]>
       (channels_state init))
    None 0.0%float default_info.

Definition all_enabled : list (string * json) :=
  [("channels"%string, JList (repeat (JBool true) 8))].

End ChannelControlsSpec.

(** ** Vocabulary: frame validation in the consumer *)

Section FrameValidationSpec.
Import Reader.

(** Length 58, sync marker [0xAA] first, and the trailing byte equal to
    the XOR of the 57 bytes before it. *)
Definition valid_frame (b : list byte) : Prop :=
  length b = 58%nat /\
  b !! 0%nat = Some xaa /\
  exists t, b !! 57%nat = Some t /\
            Struct.Z_of_byte t = xor_bytes (take 57 b).

(** The globals keep the shape the module gives them: 8 enable flags and
    8 channel records. *)
Definition wf (w : World) : Prop :=
  length (channel_enabled w) = 8%nat /\
  length (channels (pdm_data w)) = 8%nat.

(** What [parse_packet] does once the three checks have passed. *)
Definition store_channels (packet : list byte) (now : string) (w : World)
  : Py.res bool * World :=
  match parse_channels packet (seq 0 8) 1 0.0%float w with
  | (Py.Raise e, w) => (Py.Raise e, w)
  | (Py.Ok total, w) =>
      match Py.getitem (channels (pdm_data w)) 0 with
      | Py.Raise e => (Py.Raise e, w)
      | Py.Ok ch0 =>
          (Py.Ok true,
           mkWorld
             (mkPdm (Some now) (Py.round (voltage ch0) 2)
                (Py.round total 2) (channels (pdm_data w)))
             (channel_enabled w) (stdout w))
      end
  end.

Definition mismatch_line (checksum trailer : Z) : string :=
  ("Checksum mismatch: expected " ++ str checksum
   ++ ", got " ++ str trailer)%string.

(** The record [parse_packet] writes for one channel from the four
    unpacked fields, the channel's enable flag and the previous record
    (whose [id] and [name] the [update] keeps). *)
Definition decode_record (fields : Z * Z * Z * Z) (enabled : bool)
    (old : Channel) : Channel :=
  let '(voltage_mv, current_ma, temp_dec, status_byte) := fields in
  let '(on_flag, current) :=
    if negb enabled then (false, 0.0%float)
    else (bit_set status_byte 1,
          (Py.float_of_int current_ma / 1000.0)%float) in
  mkChannel (id old) (name old)
    (Py.round (Py.float_of_int voltage_mv / 1000.0)%float 2)
    (Py.round current 2)
    (Py.round (Py.float_of_int temp_dec / 10.0)%float 1)
    (mkFlags on_flag (bit_set status_byte 2) (bit_set status_byte 4)
       (bit_set status_byte 8)).

(** The record channel [i] receives from [packet] in world [w]. *)
Definition expected_channel (packet : list byte) (w : World) (i : nat)
  : option Channel :=
  match Struct.unpack_from_HHhB packet (1 + 7 * i),
        channel_enabled w !! i, channels (pdm_data w) !! i with
  | Py.Ok fields, Some enabled, Some old =>
      Some (decode_record fields enabled old)
  | _, _, _ => None
  end.

Definition with_channels (w : World) (chs : list Channel) : World :=
  mkWorld
    (mkPdm (timestamp (pdm_data w)) (system_voltage (pdm_data w))
       (total_current (pdm_data w)) chs)
    (channel_enabled w) (stdout w).

(** The frame the simulator emits in its initial state. *)
Definition nominal_frame : list byte :=
  match Sim._make_packet Sim.init with
  | Py.Ok p => p
  | Py.Raise _ => []
  end.

(** A frame with a corrupted checksum byte. *)
Definition corrupt_frame : list byte := removelast nominal_frame ++ [x00].

(** The claim of C4 as stated: no call changes [pdm_data]. *)
Definition decode_is_pure : Prop :=
  forall (b : list byte) (now : string) (w : World),
    pdm_data (snd (parse_packet b now w)) = pdm_data w.

End FrameValidationSpec.

#[global] Instance byte_eq_decision : EqDecision byte := Byte.byte_eq_dec.

(** ** Vocabulary: the wire format: bytes and fields *)

Section WireFormatSpec.

(** The four fields fit their formats. *)
Definition fields_in_range (a b c d : Z) : Prop :=
  0 <= a <= 65535 /\ 0 <= b <= 65535 /\ -32768 <= c <= 32767 /\
  0 <= d <= 255.

End WireFormatSpec.

(** ** Vocabulary: the encoder *)

Section EncoderSpec.
Import TestCases Sim.

(** The four integers [_make_packet] hands to [struct.pack] for a channel:
    the scaled values truncated toward zero, and the status as it is. *)
Definition wire_fields (ch : ChannelState) : Py.res (Z * Z * Z * Z) :=
  Py.bind (Py.int_of_float (voltage ch * 1000)%float) (fun voltage_mv =>
  Py.bind (Py.int_of_float (current ch * 1000)%float) (fun current_ma =>
  Py.bind (Py.int_of_float (temp ch * 10)%float) (fun temp_dec =>
  Py.Ok (voltage_mv, current_ma, temp_dec, status ch)))).

(** A channel is encodable when the three conversions succeed and the four
    integers fit their fields. *)
Definition encodable (ch : ChannelState) : Prop :=
  exists mv ma td,
    wire_fields ch = Py.Ok (mv, ma, td, status ch) /\
    fields_in_range mv ma td (status ch).

(** [n] is [x] with its fraction dropped: less than 1 away from the exact
    value of [x] and not larger in magnitude. *)
Definition truncation_of (x : float) (n : Z) : Prop :=
  exists q, Py.to_Q x = Some q /\
            (Qabs (q - inject_Z n) < 1)%Q /\
            (Qabs (inject_Z n) <= Qabs q)%Q.

(** The three wire integers of a channel are the truncations of its scaled
    values, as the float products give them. *)
Definition scaled_truncations (ch : ChannelState) (mv ma td : Z) : Prop :=
  truncation_of (voltage ch * 1000)%float mv /\
  truncation_of (current ch * 1000)%float ma /\
  truncation_of (temp ch * 10)%float td.

(** The simulator in the middle of the engine-start scenario, 1.0 s after
    the trigger: the starter draws 150 A. *)
Definition cranking_sim : STM32Simulator :=
  mkSim 13.8 (engine_start_states 1.0) (Some EngineStartSequence) 0.0
    (mkInfo "Engine Start Sequence"
       "Starter engages at 1s, engine starts at 3s" 1.0 "active"
       "Starter motor engaged - cranking").

(** The claim of C5 as stated: every list of 8 samples is encoded. *)
Definition encode_is_total : Prop :=
  forall self : STM32Simulator,
    length (channels_state self) = 8%nat ->
    exists pkt, _make_packet self = Py.Ok pkt /\ length pkt = 58%nat.

End EncoderSpec.

(** ** Vocabulary: encoder and decoder together *)

Section RoundTripSpec.
Import TestCases.

(** What the store holds for a channel after a round trip, written out
    field by field from the truncated wire integers. *)
Definition stored_after_roundtrip (mv ma td st : Z) (enabled : bool)
    (old d : Reader.Channel) : Prop :=
  Reader.id d = Reader.id old /\
  Reader.name d = Reader.name old /\
  Reader.voltage d = Py.round (Py.float_of_int mv / 1000.0)%float 2 /\
  Reader.current d
  = (if enabled then Py.round (Py.float_of_int ma / 1000.0)%float 2
     else 0.0%float) /\
  Reader.temperature d = Py.round (Py.float_of_int td / 10.0)%float 1 /\
  Reader.on (Reader.status d) = enabled && Z.testbit st 0 /\
  Reader.fault (Reader.status d) = Z.testbit st 1 /\
  Reader.over_current (Reader.status d) = Z.testbit st 2 /\
  Reader.over_temp (Reader.status d) = Z.testbit st 3.

(** [|x - q| <= tol] for the exact value of a float and a rational. *)
Definition close_to (x : float) (q tol : Q) : bool :=
  match Py.to_Q x with
  | Some a => Qle_bool (Qabs (a - q)) tol
  | None => false
  end.

(** What [parse_packet] stores for a millivolt or milliamp count, and for
    a decidegree count. *)
Definition decoded_thousandths (n : Z) : float :=
  Py.round (Py.float_of_int n / 1000.0)%float 2.
Definition decoded_tenths (n : Z) : float :=
  Py.round (Py.float_of_int n / 10.0)%float 1.

(** Half a hundredth plus a millionth, and a millionth: the slack covers
    the last binary64 digit of the stored value. *)
Definition half_step : Q := 5001 # 1000000.
Definition last_digit : Q := 1 # 1000000.

(** [f] holds on [lo, lo + 1, ..., lo + n - 1]. *)
Fixpoint all_from (f : Z -> bool) (lo : Z) (n : nat) : bool :=
  match n with
  | O => true
  | S n' => f lo && all_from f (lo + 1) n'
  end.

(** The stored values against the wire integers: voltage and current
    within half of 10 mV and 10 mA, temperature within a millionth of a
    degree. *)
Definition stored_resolution (mv ma td : Z) (enabled : bool)
    (d : Reader.Channel) : Prop :=
  close_to (Reader.voltage d) (mv # 1000) half_step = true /\
  (enabled = true ->
   close_to (Reader.current d) (ma # 1000) half_step = true) /\
  close_to (Reader.temperature d) (td # 10) last_digit = true.

(** [|x - y| <= tol] on the exact values of two finite floats. *)
Definition within (tol : Q) (x y : float) : Prop :=
  match Py.to_Q x, Py.to_Q y with
  | Some a, Some b => (Qabs (a - b) <= tol)%Q
  | _, _ => False
  end.

(** The status byte a set of decoded flags stands for. *)
Definition flags_byte (f : Reader.StatusFlags) : Z :=
  Z.b2z (Reader.on f) + 2 * Z.b2z (Reader.fault f)
  + 4 * Z.b2z (Reader.over_current f) + 8 * Z.b2z (Reader.over_temp f).

(** A property of every sample and the channel record the store holds for
    it after encoding and decoding. *)
Definition after_roundtrip (P : ChannelState -> Reader.Channel -> Prop)
  : Prop :=
  forall (self : Sim.STM32Simulator) (pkt : list byte) (now : string)
         (w : Reader.World),
    length (Sim.channels_state self) = 8%nat ->
    wf w ->
    Sim._make_packet self = Py.Ok pkt ->
    forall i sample d,
      Sim.channels_state self !! i = Some sample ->
      Reader.channels (Reader.pdm_data (snd (Reader.parse_packet pkt now w)))
        !! i = Some d ->
      P sample d.

(** The claim of C2 as stated, part by part. *)
Definition voltage_within_1mV : Prop :=
  after_roundtrip (fun s d => within (1 # 1000) (Reader.voltage d) (voltage s)).
Definition current_within_1mA : Prop :=
  after_roundtrip (fun s d => within (1 # 1000) (Reader.current d) (current s)).
Definition temperature_within_tenth : Prop :=
  after_roundtrip (fun s d => within (1 # 10) (Reader.temperature d) (temp s)).
Definition status_identical : Prop :=
  after_roundtrip (fun s d => flags_byte (Reader.status d) = status s).

Definition roundtrip_within_resolution : Prop :=
  voltage_within_1mV /\ current_within_1mA /\ temperature_within_tenth /\
  status_identical.

(** The initial simulator with channel 0 at 13.5078125 V, 5.2078125 A and
    status [0x11]; every value is exactly representable. *)
Definition offgrid_sim : Sim.STM32Simulator :=
  Sim.mkSim 13.8
    (<[0%nat := mkState 13.5078125 5.2078125 45.0 0x11]>
       (Sim.channels_state Sim.init))
    None 0.0 Sim.default_info.

Definition offgrid_frame : list byte :=
  match Sim._make_packet offgrid_sim with
  | Py.Ok p => p
  | Py.Raise _ => []
  end.

End RoundTripSpec.

(** ** Vocabulary: the scenario lifecycle of the producer *)

Section LifecycleSpec.
Import TestCases Sim.

(** The two steps of an iteration that write the scenario fields. *)
Definition advance (self : STM32Simulator) (inp : tick_input)
  : STM32Simulator :=
  _update_scenario_state
    (_maybe_start_scenario self (trigger inp) (t_start inp)) (t_update inp).

(** The status string an iteration publishes. *)
Definition published (r : list byte * option StatusMessage) : option string :=
  msg_status <$> snd r.

(** Elapsed time of an iteration for a scenario started at [t0]. *)
Definition elapsed_at (t0 : float) (inp : tick_input) : float :=
  (t_update inp - t0)%float.

(** Elapsed time in [[0, D)], and elapsed time [>= D]. *)
Definition before_end (D t0 : float) (inp : tick_input) : Prop :=
  (0 <=? elapsed_at t0 inp)%float = true /\
  (elapsed_at t0 inp <? D)%float = true.
Definition at_end (D t0 : float) (inp : tick_input) : Prop :=
  Py.ge (elapsed_at t0 inp) D = true.

Definition trigger_free (inp : tick_input) : Prop := trigger inp = None.

Definition statuses (self : STM32Simulator) (inputs : list tick_input)
  : list (option string) :=
  map published (run self inputs).

(** The statuses a trigger followed by [n] more iterations before the end,
    one at the end and [m] after it must publish. *)
Definition lifecycle (n m : nat) : list (option string) :=
  repeat (Some "active"%string) (S n)
  ++ Some "complete"%string :: repeat (Some "idle"%string) m.

(** An iteration reading the clock at [t], with or without a trigger, no
    control file, and every random draw at 0.5. *)
Definition quiet_tick (trig : option Z) (t : float) : tick_input :=
  mkInput trig t t CtrlAbsent (fun _ => 0.5%float).

End LifecycleSpec.

(** ** Vocabulary: enable-mask enforcement *)

Section MaskEnforcementSpec.
Import TestCases.



Definition state_after (self : Sim.STM32Simulator)
    (inputs : list Sim.tick_input) : option Sim.STM32Simulator :=
  fold_left
    (fun s inp =>
       match s with
       | Some s =>
           match Sim.tick s inp with
           | Py.Ok (s', _, _) => Some s'
           | Py.Raise _ => None
           end
       | None => None
       end)
    inputs (Some self).






End MaskEnforcementSpec.

(** ** Vocabulary: the registered scenarios *)

Section ScenarioStatesSpec.
Import TestCases.

(** A channel whose "on" bit is clear draws exactly 0.0 A. *)
Definition off_draws_nothing (ch : ChannelState) : Prop :=
  Sim.is_on ch = false -> current ch = 0.0%float.

(** The cranking phase of the engine start: [1.0 <= t < 3.0]. *)
Definition cranking (t : float) : bool :=
  ((1.0 <=? t) && (t <? 3.0))%float.

(** An iteration's inputs with another value read from the trigger file. *)
Definition with_trigger (inp : Sim.tick_input) (trig : option Z)
  : Sim.tick_input :=
  Sim.mkInput trig (Sim.t_start inp) (Sim.t_update inp) (Sim.ctrl inp)
    (Sim.rand inp).

End ScenarioStatesSpec.

(** ** Vocabulary: invariants of the simulator loop *)

Section ProducerInvariantSpec.
Import TestCases Sim.

(** The active scenario, when there is one, comes from the registry. *)
Definition registered (self : STM32Simulator) : Prop :=
  match active_scenario self with
  | None => True
  | Some sc => exists id, get_scenario id = Some sc
  end.

(** Eight channels, and an active scenario only from the registry. *)
Definition sim_inv (self : STM32Simulator) : Prop :=
  length (channels_state self) = 8%nat /\ registered self.

(** What an iteration hands out: a frame the consumer's three tests pass,
    and a status document. *)
Definition well_formed_output (r : list byte * option StatusMessage)
  : Prop :=
  valid_frame (fst r) /\ is_Some (snd r).

Definition known_status (s : string) : Prop :=
  s = "idle"%string \/ s = "active"%string \/ s = "complete"%string.

Definition within_range (lo hi x : float) : Prop :=
  (lo <=? x)%float = true /\ (x <=? hi)%float = true.

(** What one pass of the sensor loop leaves in channel [i], from the
    record [ch] it found there. *)
Definition sensed (i : nat) (ch ch' : ChannelState) : Prop :=
  within_range 20.0 100.0 (temp ch') /\
  (is_on ch = false -> current ch' = 0.0%float) /\
  (is_on ch = true -> i <> 7%nat ->
   (0.5 <=? current ch')%float = true) /\
  (i <> 3%nat -> status ch' = status ch).

(** A control file [_apply_channel_controls] acts on: a JSON object whose
    ["channels"] entry is a list of 8. *)
Definition usable_controls (f : ctrl_file) : Prop :=
  exists kv mask,
    f = CtrlJson (JDict kv) /\ dict_get kv "channels" = JList mask /\
    length mask = 8%nat.

End ProducerInvariantSpec.

(** ** Vocabulary: the aggregates of the store *)

Section StoreAggregatesSpec.
Import Reader.

(** The current [parse_packet] adds to its running total for channel [i]:
    the unrounded wire current, or [0.0] when the channel is disabled. *)
Definition masked_current (b : list byte) (mask : list bool) (i : nat)
  : float :=
  match Struct.unpack_from_HHhB b (1 + 7 * i), (mask !! i : option bool) with
  | Py.Ok (_, current_ma, _, _), Some enabled =>
      if enabled then (Py.float_of_int current_ma / 1000.0)%float
      else 0.0%float
  | _, _ => 0.0%float
  end.

(** The total before rounding: the eight currents added from [0.0] in
    channel order. *)
Definition frame_total (b : list byte) (mask : list bool) : float :=
  fold_left (fun total i => (total + masked_current b mask i)%float)
    (seq 0 8) 0.0%float.

End StoreAggregatesSpec.

(** ** Vocabulary: invariants of the store *)

Section ConsumerInvariantSpec.
Import Reader.

(** Two states of the globals with the same enable mask and, channel by
    channel, the same [id] and [name]. *)
Definition same_identity (w1 w2 : World) : Prop :=
  channel_enabled w1 = channel_enabled w2 /\
  Forall2 (fun a b => id a = id b /\ name a = name b)
    (channels (pdm_data w1)) (channels (pdm_data w2)).

(** The three tests of [parse_packet] as one boolean. *)
Definition valid_frameb (b : list byte) : bool :=
  (length b =? 58)%nat &&
  match b !! 0%nat, b !! 57%nat with
  | Some h, Some t =>
      (Struct.Z_of_byte h =? 0xAA) &&
      (Struct.Z_of_byte t =? xor_bytes (take 57 b))
  | _, _ => false
  end.

(** The reads that carry a frame passing the three tests. *)
Definition valid_reads (reads : list (list byte * string))
  : list (list byte * string) :=
  List.filter (fun r => valid_frameb (fst r)) reads.

(** The store as one call of [parse_packet] on the last such read leaves
    it; the store as it was when there is none. *)
Definition store_after_reads (reads : list (list byte * string))
    (w : World) : PdmData :=
  match last (valid_reads reads) with
  | None => pdm_data w
  | Some (b, now) => pdm_data (snd (parse_packet b now w))
  end.

End ConsumerInvariantSpec.

(** ** Vocabulary: the REST handlers *)

Section ServerSpec.
Import Reader.

(** Every channel record sits at the index its [id] names and carries the
    name the module gives that index. *)
Definition channel_ids_ok (w : World) : Prop :=
  forall i ch, channels (pdm_data w) !! i = Some ch ->
    id ch = Z.of_nat i /\ CHANNEL_NAMES !! i = Some (name ch).

(** A channel disabled in the enable mask is stored off and drawing no
    current. *)
Definition mask_respected (w : World) : Prop :=
  forall i ch, channel_enabled w !! i = Some false ->
    channels (pdm_data w) !! i = Some ch ->
    on (status ch) = false /\ current ch = 0.0%float.

(** The record [set_channel] leaves for a channel. *)
Definition switched (enabled : bool) (ch : Channel) : Channel :=
  mkChannel (id ch) (name ch) (voltage ch)
    (if enabled then current ch else 0.0%float) (temperature ch)
    (mkFlags enabled (fault (status ch)) (over_current (status ch))
       (over_temp (status ch))).

(** The calls that touch the module globals, each taken as a whole: one
    call does not overlap another. *)
Inductive event : Type :=
| Parse (packet : list byte) (now : string)
| SetChannel (MOCK_ENABLED : bool) (channel_id : Z)
    (body : option Sim.json) (now : string)
| TriggerScenario (MOCK_ENABLED : bool) (body : option Sim.json)
    (time_now : float) (now : string).

Variable int_of_str : string -> option Z.

Definition handle (s : Server.State) (e : event) : Server.State :=
  match e with
  | Parse packet now =>
      Server.set_globals s
        (snd (parse_packet packet now (Server.globals s)))
  | SetChannel m c body now => snd (Server.set_channel m c body now s)
  | TriggerScenario m body t now =>
      snd (Server.trigger_scenario int_of_str m body t now s)
  end.

(** The state after a sequence of calls on the freshly loaded module. *)
Definition serve (events : list event) : Server.State :=
  fold_left handle events Server.init.

End ServerSpec.

(** ** Vocabulary: the system summary *)

Section SummarySpec.
Import Reader.

(** The number of channels the enable mask leaves enabled. *)
Definition enabled_count (w : World) : Z :=
  Z.of_nat (length (filter (fun b => b = true) (channel_enabled w))).

End SummarySpec.

(** * Verification *)

(** ** Order facts on binary64 comparisons *)

Section FloatOrder.

Local Ltac cmp_cases :=
  change (Pos.compare_cont Eq ?x ?y) with (Pos.compare x y);
  repeat match goal with
    | |- context [(?a ?= ?b)%Z] => destruct (Z.compare_spec a b)
    end; simpl; try lia; try congruence;
  repeat match goal with
    | |- context [(?a ?= ?b)%positive] => destruct (Pos.compare_spec a b)
    end; simpl; try lia; try congruence.

Lemma SFltb_not_SFleb (a b : spec_float) :
  SFltb a b = true -> SFleb b a = false.
Proof.
  unfold SFltb, SFleb.
  destruct a as [sa| sa| |sa ma ea], b as [sb| sb| |sb mb eb]; simpl;
    try destruct sa; try destruct sb; simpl; try congruence; cmp_cases.
Qed.

Lemma ltb_not_ge (x y : float) :
  (x <? y)%float = true -> Py.ge x y = false.
Proof.
  unfold Py.ge. rewrite ltb_spec, leb_spec. apply SFltb_not_SFleb.
Qed.

Lemma SFleb_trans (a b c : spec_float) :
  SFleb a b = true -> SFleb b c = true -> SFleb a c = true.
Proof.
  unfold SFleb.
  destruct a as [sa| sa| |sa ma ea], b as [sb| sb| |sb mb eb],
    c as [sc| sc| |sc mc ec]; simpl;
    try destruct sa; try destruct sb; try destruct sc; simpl;
    try congruence; cmp_cases.
Qed.

Lemma leb_trans (x y z : float) :
  (x <=? y)%float = true -> (y <=? z)%float = true ->
  (x <=? z)%float = true.
Proof. rewrite !leb_spec. apply SFleb_trans. Qed.

(** [z >= y] and [y >= x] give [z >= x]. *)
Lemma ge_trans (z y x : float) :
  Py.ge z y = true -> Py.ge y x = true -> Py.ge z x = true.
Proof. unfold Py.ge. intros H1 H2. exact (leb_trans x y z H2 H1). Qed.

End FloatOrder.

(** ** Truncation of floats to integers *)

Section Truncation.

Lemma shiftr_floor (m : positive) (k : Z) :
  0 < k ->
  let d := 2 ^ k in
  0 <= Z.pos m - Z.shiftr (Z.pos m) k * d < d /\ 0 < d /\ 0 <= Z.shiftr (Z.pos m) k.
Proof.
  intros Hk d. subst d.
  rewrite Z.shiftr_div_pow2 by lia.
  assert (Hd : 0 < 2 ^ k) by (apply Z.pow_pos_nonneg; lia).
  pose proof (Z.div_mod (Z.pos m) (2 ^ k) ltac:(lia)) as E.
  pose proof (Z.mod_pos_bound (Z.pos m) (2 ^ k) Hd) as B.
  split; [|split; [exact Hd|apply Z.div_pos; lia]].
  lia.
Qed.

(** [int(x)] drops the fraction of [x]: the result differs from [x] by less
    than 1 and is not larger in magnitude. *)
Lemma int_of_float_truncates (x : float) (n : Z) :
  Py.int_of_float x = Py.Ok n -> truncation_of x n.
Proof.
  unfold truncation_of, Py.int_of_float, Py.to_Q.
  destruct (Prim2SF x) as [s| s| |s m e]; try discriminate.
  - intros [= <-]. eexists. split; [reflexivity|].
    split; [reflexivity|discriminate].
  - destruct (Z.leb_spec 0 e) as [He|He].
    + intros [= <-]. eexists. split; [reflexivity|].
      rewrite Z.shiftl_mul_pow2 by lia.
      assert (0 < Z.pos m * 2 ^ e) by (apply Z.mul_pos_pos; [lia|apply Z.pow_pos_nonneg; lia]).
      destruct s; unfold Qlt, Qle, Qabs, Qminus, Qplus, Qopp, inject_Z; simpl;
        rewrite ?Z.mul_1_r; split; try lia.
    + intros E. eexists. split; [reflexivity|].
      destruct (shiftr_floor m (- e) ltac:(lia)) as (B & Hd & Hf).
      set (f := Z.shiftr (Z.pos m) (- e)) in *.
      assert (HD : Z.pos (Z.to_pos (2 ^ (- e))) = 2 ^ (- e))
        by (apply Z2Pos.id; exact Hd).
      set (D := Z.to_pos (2 ^ (- e))) in *.
      destruct s; injection E as <-;
        unfold Qlt, Qle, Qabs, Qminus, Qplus, Qopp, inject_Z;
        cbn [Qnum Qden]; rewrite ?Pos.mul_1_r, ?Z.mul_1_r, ?Z.mul_1_l;
        rewrite ?HD.
      all: rewrite ?Z.abs_opp, ?Z.opp_involutive, ?Z.mul_opp_l,
             ?(Z.abs_eq f) by exact Hf;
           clearbody f D; remember (2 ^ (- e)) as d;
           remember (f * d) as P; lia.
Qed.
End Truncation.

(** ** Event-label lookup *)

Section EventLookup.
Import TestCases.

Lemma get_event_at_time_fold (self : TestScenario) (t : float) :
  get_event_at_time self t
  = fold_left (pick t) (events self) "Normal operation"%string.
Proof. reflexivity. Qed.

Lemma pick_fold_skip (t : float) (evs : list (float * string)) :
  Forall (fun ev => Py.ge t (fst ev) = false) evs ->
  forall acc, fold_left (pick t) evs acc = acc.
Proof.
  induction 1 as [|[th msg] evs Hx _ IH]; intros acc; simpl.
  - reflexivity.
  - simpl in Hx. rewrite Hx. apply IH.
Qed.

Lemma event_le_trans : Relations_1.Transitive event_le.
Proof. intros a b c. unfold event_le. apply leb_trans. Qed.

Lemma before_first_all_later (t th0 : float) (msg0 : string)
    (rest : list (float * string)) :
  ordered_events ((th0, msg0) :: rest) ->
  (t <? th0)%float = true ->
  Forall (fun ev => Py.ge t (fst ev) = false) ((th0, msg0) :: rest).
Proof.
  intros Hs Hlt.
  pose proof (ltb_not_ge _ _ Hlt) as Hth0.
  constructor; [exact Hth0|].
  pose proof (Sorted_extends event_le_trans Hs) as Hall.
  eapply Forall_impl; [exact Hall|].
  intros [th msg] Hle. unfold event_le in Hle. simpl in *.
  destruct (Py.ge t th) eqn:E; [|reflexivity].
  unfold Py.ge in *.
  rewrite (leb_trans th0 th t Hle E) in Hth0. discriminate.
Qed.

Lemma get_scenario_cases (id : Z) (sc : TestScenario) :
  get_scenario id = Some sc ->
  sc = CoolingFanFailure \/ sc = EngineStartSequence.
Proof.
  unfold get_scenario, SCENARIOS. cbn [find fst].
  destruct (1 =? id)%Z; [cbn; intros [= <-]; now left|].
  destruct (2 =? id)%Z; [cbn; intros [= <-]; now right|].
  discriminate.
Qed.

Lemma registered_events_ordered (id : Z) (sc : TestScenario) :
  get_scenario id = Some sc -> ordered_events (events sc).
Proof.
  intros H. destruct (get_scenario_cases _ _ H) as [-> | ->];
    unfold ordered_events; simpl; repeat constructor.
Qed.

(** C7.  [get_event_at_time(t)] returns the label of the last event, in
    list order, whose threshold is [<= t]: an event followed only by
    events with later thresholds wins, whatever precedes it (so among
    equal thresholds the latest in the list wins); with no threshold
    [<= t] the result is "Normal operation", which on an ordered event
    list is the case as soon as [t] is before the first threshold. *)
Theorem get_event_at_time_last_threshold (self : TestScenario) (t : float) :
  (forall pre th msg post,
      events self = pre ++ (th, msg) :: post ->
      Py.ge t th = true ->
      Forall (fun ev => Py.ge t (fst ev) = false) post ->
      get_event_at_time self t = msg) /\
  (Forall (fun ev => Py.ge t (fst ev) = false) (events self) ->
      get_event_at_time self t = "Normal operation"%string) /\
  (forall th0 msg0 rest,
      events self = (th0, msg0) :: rest ->
      ordered_events (events self) ->
      (t <? th0)%float = true ->
      get_event_at_time self t = "Normal operation"%string).
Proof.
  rewrite get_event_at_time_fold. repeat split.
  - intros pre th msg post -> Hge Hpost.
    rewrite fold_left_app. simpl. rewrite Hge.
    apply pick_fold_skip, Hpost.
  - intros Hall. apply pick_fold_skip, Hall.
  - intros th0 msg0 rest E Hs Hlt.
    apply pick_fold_skip. rewrite E in *.
    eapply before_first_all_later; eauto.
Qed.

Lemma get_event_at_time_last_threshold_witness :
  get_event_at_time CoolingFanFailure 2.5%float
  = "Fan power dropping..."%string
  /\ get_event_at_time CoolingFanFailure (-1)%float
     = "Normal operation"%string
  /\ get_event_at_time tie_scenario 1.0%float = "second"%string.
Proof.
  split; [|split].
  - refine (proj1 (get_event_at_time_last_threshold CoolingFanFailure
                     2.5%float)
              (firstn 2 (events CoolingFanFailure)) 2.5%float _
              (skipn 3 (events CoolingFanFailure)) eq_refl _ _).
    + vm_compute. reflexivity.
    + simpl. repeat constructor.
  - refine (proj2 (proj2 (get_event_at_time_last_threshold
                            CoolingFanFailure (-1)%float))
              _ _ _ eq_refl _ _).
    + apply (registered_events_ordered 1). reflexivity.
    + vm_compute. reflexivity.
  - refine (proj1 (get_event_at_time_last_threshold tie_scenario 1.0%float)
              [(1.0%float, "first"%string)] 1.0%float "second"%string []
              eq_refl _ _).
    + vm_compute. reflexivity.
    + constructor.
Defined.

End EventLookup.

(** ** The fan-failure ramp *)

Section FanRamp.
Import TestCases.
Local Open Scope float_scope.

(** C8.  Between 2.0 s and 3.0 s the fan current of CoolingFanFailure is
    not monotone: the first segment runs from 8.0 A down to 0 A at 2.5 s
    (its comment says "Drop to 50%"), where the second segment restarts
    at 4.0 A.  At 2.375 s the current is 2.0 A, at 2.5 s it is 4.0 A. *)
Theorem cooling_fan_current_rises_at_2_5 :
  Py.ge 2.375 2.0 = true /\ (2.375 <? 2.5) = true /\ (2.5 <? 3.0) = true /\
  fan_current CoolingFanFailure 2.375 = Some 2.0 /\
  fan_current CoolingFanFailure 2.5 = Some 4.0 /\
  (4.0 <=? 2.0) = false.
Proof. vm_compute. repeat split; reflexivity. Qed.

Lemma ge_3_cases (t : float) :
  Py.ge t 3.0 = true ->
  Py.ge t 2.0 = true /\ (t <? 2.5) = false /\ (t <? 3.0) = false.
Proof.
  intros H. repeat split.
  - apply (ge_trans t 3.0 2.0 H). reflexivity.
  - destruct (t <? 2.5) eqn:E; [|reflexivity].
    apply ltb_not_ge in E.
    rewrite (ge_trans t 3.0 2.5 H) in E by reflexivity. discriminate.
  - destruct (t <? 3.0) eqn:E; [|reflexivity].
    apply ltb_not_ge in E. congruence.
Qed.

(** The part of the ramp that holds: from 3.0 s on the fan current is
    exactly 0.0 and the status byte has bit 1, the fault bit, set. *)
Lemma cooling_fan_off_with_fault (t : float) :
  Py.ge t 3.0 = true ->
  exists ch, get_channel_states CoolingFanFailure t
             = Py.Ok (cooling_fan_states t) /\
             cooling_fan_states t !! 3%nat = Some ch /\
             current ch = 0.0 /\ Z.testbit (status ch) 1 = true.
Proof.
  intros H. destruct (ge_3_cases t H) as (H2 & H25 & H3).
  eexists. split; [reflexivity|].
  unfold cooling_fan_states. rewrite H2, H25, H3, H. cbn.
  repeat split.
Qed.

End FanRamp.

(** ** The producer's channel controls *)

Section ChannelControls.
Import TestCases Sim.

Lemma apply_mask_length (mask : list json) :
  forall states k, length (apply_mask states k mask) = length states.
Proof.
  induction mask as [|on mask IH]; intros states k; simpl; [reflexivity|].
  destruct (states !! k); [|reflexivity].
  rewrite IH. apply length_insert.
Qed.

Lemma apply_mask_before (mask : list json) :
  forall states k j, (j < k)%nat ->
    apply_mask states k mask !! j = states !! j.
Proof.
  induction mask as [|on mask IH]; intros states k j Hj; simpl;
    [reflexivity|].
  destruct (states !! k) eqn:E; [|reflexivity].
  rewrite IH by lia. apply list_lookup_insert_ne. lia.
Qed.

Lemma apply_mask_at (mask : list json) :
  forall states k i on ch,
    mask !! i = Some on ->
    states !! (k + i)%nat = Some ch ->
    apply_mask states k mask !! (k + i)%nat
    = Some (set_status (forced_status on) ch).
Proof.
  induction mask as [|on0 mask IH]; intros states k i on ch Hm Hs;
    [discriminate|].
  simpl.
  destruct (states !! k) as [chk|] eqn:Ek.
  2:{ apply lookup_ge_None in Ek. apply lookup_lt_Some in Hs. lia. }
  destruct i as [|i]; simpl in Hm.
  - injection Hm as ->. rewrite Nat.add_0_r in *.
    rewrite apply_mask_before by lia.
    rewrite list_lookup_insert_eq by (apply lookup_lt_Some in Ek; lia).
    rewrite Ek in Hs. injection Hs as ->.
    unfold forced_status. destruct (truthy on); reflexivity.
  - replace (k + S i)%nat with (S k + i)%nat in * by lia.
    apply IH; [exact Hm|].
    rewrite list_lookup_insert_ne by lia. exact Hs.
Qed.

(** C10.  When the control file holds an 8-entry mask, every channel's
    status byte becomes exactly [0x01] (entry truthy) or [0x00] (entry
    falsy), whatever bits it held before; voltage, current and
    temperature are left as they were. *)
Theorem apply_channel_controls_overwrites_status
    (self : STM32Simulator) (kv : list (string * json)) (mask : list json)
    (i : nat) (on : json) (ch : ChannelState) :
  dict_get kv "channels" = JList mask ->
  length mask = 8%nat ->
  mask !! i = Some on ->
  channels_state self !! i = Some ch ->
  channels_state (_apply_channel_controls self (CtrlJson (JDict kv))) !! i
  = Some (mkState (voltage ch) (current ch) (temp ch)
            (if truthy on then 1 else 0)).
Proof.
  intros Hget Hm Hon Hch.
  unfold _apply_channel_controls. rewrite Hget, Hm. cbn.
  apply (apply_mask_at mask (channels_state self) 0 i on ch);
    [exact Hon|exact Hch].
Qed.

Lemma apply_channel_controls_overwrites_status_witness :
  channels_state
    (_apply_channel_controls faulted_sim (CtrlJson (JDict all_enabled)))
    !! 3%nat
  = Some (mkState 13.7%float 0.0%float 35.0%float 1).
Proof.
  refine (apply_channel_controls_overwrites_status faulted_sim all_enabled
            (repeat (JBool true) 8) 3 (JBool true)
            (mkState 13.7%float 0.0%float 35.0%float 0x0E)
            eq_refl eq_refl eq_refl eq_refl).
Defined.

End ChannelControls.

(** ** Frame validation in the consumer *)

Section FrameValidation.
Import Reader.

Lemma Z_of_byte_inj (a b : byte) :
  Struct.Z_of_byte a = Struct.Z_of_byte b -> a = b.
Proof.
  unfold Struct.Z_of_byte. intros H. apply N2Z.inj in H.
  pose proof (Byte.of_to_N a) as Ha. rewrite H, Byte.of_to_N in Ha.
  congruence.
Qed.

Lemma sync_test (h : byte) :
  (Struct.Z_of_byte h =? 170) = true <-> h = xaa.
Proof.
  rewrite Z.eqb_eq. split.
  - intros H. apply Z_of_byte_inj. rewrite H. reflexivity.
  - intros ->. reflexivity.
Qed.

Lemma frame_58_ends (b : list byte) :
  length b = 58%nat ->
  removelast b = take 57 b /\ last b = b !! 57%nat.
Proof.
  intros H. split.
  - rewrite removelast_firstn_len, H. reflexivity.
  - rewrite last_lookup, H. reflexivity.
Qed.

(** The four ways through [parse_packet], in the order of its tests. *)
Lemma parse_packet_paths (b : list byte) (now : string) (w : World) :
  (length b <> 58%nat -> parse_packet b now w = (Py.Ok false, w)) /\
  (length b = 58%nat -> b !! 0%nat <> Some xaa ->
     parse_packet b now w = (Py.Ok false, w)) /\
  (length b = 58%nat -> b !! 0%nat = Some xaa ->
     forall t, b !! 57%nat = Some t ->
       Struct.Z_of_byte t <> xor_bytes (take 57 b) ->
       parse_packet b now w
       = (Py.Ok false,
          print w (mismatch_line (xor_bytes (take 57 b))
                     (Struct.Z_of_byte t)))) /\
  (valid_frame b -> parse_packet b now w = store_channels b now w).
Proof.
  unfold parse_packet. repeat split.
  - intros H. apply Nat.eqb_neq in H. rewrite H. reflexivity.
  - intros H H0. rewrite H, Nat.eqb_refl. cbn [negb].
    unfold Py.getitem. destruct (b !! 0%nat) as [h|] eqn:E.
    + destruct (Struct.Z_of_byte h =? 170) eqn:T; [|reflexivity].
      apply sync_test in T. congruence.
    + apply lookup_ge_None in E. lia.
  - intros H H0 t Ht Hx. rewrite H, Nat.eqb_refl. cbn [negb].
    unfold Py.getitem. rewrite H0.
    destruct (frame_58_ends b H) as [-> ->]. rewrite Ht.
    replace (Struct.Z_of_byte xaa =? 170) with true by reflexivity.
    cbn [negb].
    destruct (xor_bytes (take 57 b) =? Struct.Z_of_byte t) eqn:T.
    + apply Z.eqb_eq in T. congruence.
    + reflexivity.
  - intros (H & H0 & t & Ht & Hx). rewrite H, Nat.eqb_refl. cbn [negb].
    unfold Py.getitem at 1. rewrite H0.
    destruct (frame_58_ends b H) as [-> ->]. rewrite Ht.
    replace (Struct.Z_of_byte xaa =? 170) with true by reflexivity.
    cbn [negb]. rewrite Hx, Z.eqb_refl. reflexivity.
Qed.

Lemma valid_frame_dec (b : list byte) : valid_frame b \/ ~ valid_frame b.
Proof.
  unfold valid_frame.
  destruct (decide (length b = 58%nat)) as [H|H]; [|right; tauto].
  destruct (decide (b !! 0%nat = Some xaa)) as [H0|H0]; [|right; tauto].
  destruct (b !! 57%nat) as [t|] eqn:Ht.
  - destruct (decide (Struct.Z_of_byte t = xor_bytes (take 57 b)))
      as [Hx|Hx].
    + left. eauto.
    + right. intros (_ & _ & t' & [= <-] & Hx'). contradiction.
  - right. intros (_ & _ & t' & [=] & _).
Qed.

(** A frame is rejected by one of the three tests, tried in order. *)
Lemma invalid_frame_rejected (b : list byte) (now : string) (w : World) :
  ~ valid_frame b ->
  exists lines, parse_packet b now w
                = (Py.Ok false,
                   mkWorld (pdm_data w) (channel_enabled w)
                     (stdout w ++ lines)).
Proof.
  intros Hn.
  destruct (parse_packet_paths b now w) as (P1 & P2 & P3 & _).
  assert (Hw : w = mkWorld (pdm_data w) (channel_enabled w) (stdout w ++ [])).
  { rewrite app_nil_r. destruct w; reflexivity. }
  destruct (decide (length b = 58%nat)) as [H|H].
  2:{ exists []. rewrite <- Hw. auto. }
  destruct (decide (b !! 0%nat = Some xaa)) as [H0|H0].
  2:{ exists []. rewrite <- Hw. auto. }
  destruct (b !! 57%nat) as [t|] eqn:Ht.
  2:{ apply lookup_ge_None in Ht. lia. }
  destruct (decide (Struct.Z_of_byte t = xor_bytes (take 57 b))) as [Hx|Hx].
  { exfalso. apply Hn. repeat split; eauto. }
  eexists [_]. rewrite (P3 H H0 t eq_refl Hx). reflexivity.
Qed.

Lemma with_channels_self (w : World) :
  with_channels w (channels (pdm_data w)) = w.
Proof. destruct w as [[? ? ? ?] ? ?]. reflexivity. Qed.

Lemma unpack_from_ok (packet : list byte) (offset : nat) :
  (offset + 7 <= length packet)%nat ->
  exists fields, Struct.unpack_from_HHhB packet offset = Py.Ok fields.
Proof.
  intros H. unfold Struct.unpack_from_HHhB.
  assert (L : length (take 7 (drop offset packet)) = 7%nat).
  { rewrite length_take, length_drop. lia. }
  destruct (take 7 (drop offset packet))
    as [|a0 [|a1 [|a2 [|a3 [|a4 [|a5 [|a6 [|a7 l]]]]]]]];
    simpl in L; try lia.
  eauto.
Qed.

Lemma parse_channel_step (packet : list byte) (i offset : nat)
    (total : float) (w : World) fields enabled old :
  Struct.unpack_from_HHhB packet offset = Py.Ok fields ->
  channel_enabled w !! i = Some enabled ->
  channels (pdm_data w) !! i = Some old ->
  exists total',
    parse_channel packet i offset total w
    = (Py.Ok ((offset + 7)%nat, total'),
       with_channels w
         (<[i := decode_record fields enabled old]> (channels (pdm_data w)))).
Proof.
  intros Hu He Hc. unfold parse_channel, Py.getitem.
  rewrite Hu, He, Hc. destruct fields as [[[v c] t] st].
  unfold decode_record. destruct (negb enabled); eexists; reflexivity.
Qed.

Lemma in_range_false (k i : nat) :
  ((k <=? i) && (i <? k + 0))%nat = false.
Proof.
  destruct (k <=? i)%nat eqn:A; [|reflexivity].
  apply Nat.leb_le in A. apply Nat.ltb_ge. lia.
Qed.

(** The loop over [range(8)] on a 58-byte packet: it completes, and
    rewrites exactly the channel entries, each from its own 7 bytes. *)
Lemma parse_channels_spec (packet : list byte) :
  length packet = 58%nat ->
  forall n k total w,
    (k + n <= 8)%nat -> wf w ->
    exists total' chs',
      parse_channels packet (seq k n) (1 + 7 * k) total w
      = (Py.Ok total', with_channels w chs')
      /\ length chs' = 8%nat
      /\ forall i,
           chs' !! i
           = if ((k <=? i) && (i <? k + n))%nat
             then expected_channel packet w i
             else channels (pdm_data w) !! i.
Proof.
  intros Hlen. induction n as [|n IH]; intros k total w Hk [He Hc].
  - exists total, (channels (pdm_data w)). simpl.
    rewrite with_channels_self. repeat split; [exact Hc|].
    intros i. rewrite in_range_false. reflexivity.
  - cbn [seq parse_channels].
    destruct (unpack_from_ok packet (1 + 7 * k)) as [fields Hu]; [lia|].
    destruct (lookup_lt_is_Some_2 (channel_enabled w) k) as [en Hen];
      [lia|].
    destruct (lookup_lt_is_Some_2 (channels (pdm_data w)) k) as [old Hold];
      [lia|].
    destruct (parse_channel_step packet k _ total w _ _ _ Hu Hen Hold)
      as [total1 ->].
    set (w1 := with_channels w _).
    replace (1 + 7 * k + 7)%nat with (1 + 7 * S k)%nat by lia.
    destruct (IH (S k) total1 w1) as (total' & chs' & -> & L & Hspec).
    { lia. }
    { split; [exact He|]. unfold w1. simpl. rewrite length_insert.
      exact Hc. }
    exists total', chs'. repeat split; [exact L|].
    intros i. rewrite Hspec. unfold expected_channel. subst w1.
    cbn [with_channels pdm_data channels channel_enabled].
    destruct (decide (i = k)) as [->|Hne].
    + replace ((S k <=? k) && (k <? S k + n))%nat with false
        by (symmetry; apply andb_false_iff; left; apply Nat.leb_gt; lia).
      replace ((k <=? k) && (k <? k + S n))%nat with true
        by (symmetry; apply andb_true_iff; split;
            [apply Nat.leb_le|apply Nat.ltb_lt]; lia).
      rewrite list_lookup_insert_eq by lia.
      rewrite Hu, Hen, Hold. reflexivity.
    + rewrite list_lookup_insert_ne by congruence.
      replace ((k <=? i) && (i <? k + S n))%nat
        with ((S k <=? i) && (i <? S k + n))%nat; [reflexivity|].
      destruct (S k <=? i)%nat eqn:A, (k <=? i)%nat eqn:B,
        (i <? S k + n)%nat eqn:C, (i <? k + S n)%nat eqn:D;
        try reflexivity;
        repeat match goal with
          | H : (_ <=? _)%nat = true |- _ => apply Nat.leb_le in H
          | H : (_ <=? _)%nat = false |- _ => apply Nat.leb_gt in H
          | H : (_ <? _)%nat = true |- _ => apply Nat.ltb_lt in H
          | H : (_ <? _)%nat = false |- _ => apply Nat.ltb_ge in H
          end; lia.
Qed.

(** Past the three tests [parse_packet] always returns [True], having
    rewritten all eight records, both aggregates and the timestamp. *)
Lemma store_channels_ok (packet : list byte) (now : string) (w : World) :
  length packet = 58%nat -> wf w ->
  exists total chs' ch0,
    store_channels packet now w
    = (Py.Ok true,
       mkWorld
         (mkPdm (Some now) (Py.round (voltage ch0) 2) (Py.round total 2)
            chs')
         (channel_enabled w) (stdout w))
    /\ length chs' = 8%nat
    /\ chs' !! 0%nat = Some ch0
    /\ forall i, (i < 8)%nat -> chs' !! i = expected_channel packet w i.
Proof.
  intros Hlen Hw.
  destruct (parse_channels_spec packet Hlen 8 0 0.0%float w)
    as (total & chs' & E & L & Hspec); [lia|exact Hw|].
  unfold store_channels. change (1 + 7 * 0)%nat with 1%nat in E.
  rewrite E. unfold Py.getitem. cbn [with_channels pdm_data channels].
  destruct (lookup_lt_is_Some_2 chs' 0) as [ch0 H0]; [lia|].
  rewrite H0. exists total, chs', ch0. repeat split; auto.
  intros i Hi. rewrite Hspec.
  replace ((0 <=? i) && (i <? 0 + 8))%nat with true; [reflexivity|].
  symmetry. apply andb_true_iff. split;
    [apply Nat.leb_le|apply Nat.ltb_lt]; lia.
Qed.

Lemma store_channels_not_false (packet : list byte) (now : string)
    (w : World) :
  fst (store_channels packet now w) <> Py.Ok false.
Proof.
  unfold store_channels.
  destruct (parse_channels packet (seq 0 8) 1 0.0%float w) as [[total|e] w'];
    [|discriminate].
  destruct (Py.getitem (channels (pdm_data w')) 0); discriminate.
Qed.

Lemma nominal_frame_valid : valid_frame nominal_frame.
Proof.
  unfold valid_frame.
  split; [vm_compute; reflexivity|].
  split; [vm_compute; reflexivity|].
  exists "006"%byte. split; vm_compute; reflexivity.
Qed.

Lemma nominal_frame_made : Sim._make_packet Sim.init = Py.Ok nominal_frame.
Proof. vm_compute. reflexivity. Qed.

Lemma wf_init : wf init.
Proof. split; reflexivity. Qed.

(** C1.  With the globals in their 8-channel shape, [parse_packet]
    returns [True] exactly on the valid frames and [False] on every other
    byte string.  The tests run in the order length, sync byte, checksum:
    a wrong length returns before any byte is read, a wrong sync byte
    returns before the checksum is computed, and only a checksum mismatch
    prints its diagnostic. *)
Theorem parse_packet_accepts_exactly_valid_frames
    (b : list byte) (now : string) (w : World) :
  wf w ->
  (fst (parse_packet b now w) = Py.Ok true <-> valid_frame b) /\
  (fst (parse_packet b now w) = Py.Ok false <-> ~ valid_frame b) /\
  (length b <> 58%nat -> parse_packet b now w = (Py.Ok false, w)) /\
  (length b = 58%nat -> b !! 0%nat <> Some xaa ->
     parse_packet b now w = (Py.Ok false, w)) /\
  (length b = 58%nat -> b !! 0%nat = Some xaa ->
     forall t, b !! 57%nat = Some t ->
       Struct.Z_of_byte t <> xor_bytes (take 57 b) ->
       parse_packet b now w
       = (Py.Ok false,
          print w (mismatch_line (xor_bytes (take 57 b))
                     (Struct.Z_of_byte t)))).
Proof.
  intros Hw.
  destruct (parse_packet_paths b now w) as (P1 & P2 & P3 & P4).
  assert (Hacc : valid_frame b -> fst (parse_packet b now w) = Py.Ok true).
  { intros Hv. rewrite (P4 Hv).
    destruct (store_channels_ok b now w (proj1 Hv) Hw)
      as (total & chs' & ch0 & -> & _). reflexivity. }
  assert (Hrej : ~ valid_frame b -> fst (parse_packet b now w) = Py.Ok false).
  { intros Hn. destruct (invalid_frame_rejected b now w Hn) as [l ->].
    reflexivity. }
  split; [split; [|exact Hacc]|split; [split; [|exact Hrej]|]].
  - intros E. destruct (valid_frame_dec b) as [Hv|Hn]; [exact Hv|].
    rewrite (Hrej Hn) in E. discriminate.
  - intros E Hv. rewrite (Hacc Hv) in E. discriminate.
  - split; [exact P1|split; [exact P2|exact P3]].
Qed.

Lemma parse_packet_accepts_exactly_valid_frames_witness :
  fst (parse_packet nominal_frame "2026-01-01T00:00:00" init) = Py.Ok true.
Proof.
  apply (proj1 (parse_packet_accepts_exactly_valid_frames
                  nominal_frame "2026-01-01T00:00:00" init wf_init)).
  apply nominal_frame_valid.
Defined.

(** C9.  A byte string that fails validation makes [parse_packet] return
    [False] with [pdm_data] (channels, system_voltage, total_current,
    timestamp) and the enable mask exactly as they were; more generally,
    whenever [parse_packet] returns [False] nothing was written. *)
Theorem rejected_frame_leaves_store_untouched
    (b : list byte) (now : string) (w : World) :
  (~ valid_frame b ->
     fst (parse_packet b now w) = Py.Ok false /\
     pdm_data (snd (parse_packet b now w)) = pdm_data w /\
     channel_enabled (snd (parse_packet b now w)) = channel_enabled w) /\
  (fst (parse_packet b now w) = Py.Ok false ->
     pdm_data (snd (parse_packet b now w)) = pdm_data w).
Proof.
  assert (R : ~ valid_frame b ->
              fst (parse_packet b now w) = Py.Ok false /\
              pdm_data (snd (parse_packet b now w)) = pdm_data w /\
              channel_enabled (snd (parse_packet b now w))
              = channel_enabled w).
  { intros Hn. destruct (invalid_frame_rejected b now w Hn) as [l ->].
    repeat split. }
  split; [exact R|].
  intros E. destruct (valid_frame_dec b) as [Hv|Hn].
  - destruct (parse_packet_paths b now w) as (_ & _ & _ & P4).
    rewrite (P4 Hv) in E. now apply store_channels_not_false in E.
  - apply R, Hn.
Qed.

Lemma rejected_frame_leaves_store_untouched_witness :
  fst (parse_packet corrupt_frame "2026-01-01T00:00:00" init) = Py.Ok false
  /\ pdm_data (snd (parse_packet corrupt_frame "2026-01-01T00:00:00" init))
     = pdm_data init
  /\ channel_enabled
       (snd (parse_packet corrupt_frame "2026-01-01T00:00:00" init))
     = channel_enabled init.
Proof.
  apply (proj1 (rejected_frame_leaves_store_untouched corrupt_frame
                  "2026-01-01T00:00:00" init)).
  intros (_ & _ & t & Ht & Hx). vm_compute in Ht. injection Ht as <-.
  vm_compute in Hx. discriminate.
Defined.

(** C4, counterexample.  On the nominal frame [parse_packet] itself
    rewrites the snapshot: the initial store has no timestamp, the store
    after the call has one. *)
Lemma parse_packet_writes_store : ~ decode_is_pure.
Proof.
  intros H.
  specialize (H nominal_frame "2026-01-01T00:00:00"%string init).
  apply (f_equal timestamp) in H. vm_compute in H. discriminate.
Qed.

(** One iteration of the loop, with the total it hands on. *)
Lemma parse_channel_step_total (packet : list byte) (i offset : nat)
    (total : float) (w : World) (mv ma td st : Z) (enabled : bool)
    (old : Channel) :
  Struct.unpack_from_HHhB packet offset = Py.Ok (mv, ma, td, st) ->
  channel_enabled w !! i = Some enabled ->
  channels (pdm_data w) !! i = Some old ->
  parse_channel packet i offset total w
  = (Py.Ok ((offset + 7)%nat,
            (total + (if enabled then Py.float_of_int ma / 1000.0
                      else 0.0))%float),
     with_channels w
       (<[i := decode_record (mv, ma, td, st) enabled old]>
          (channels (pdm_data w)))).
Proof.
  intros Hu He Hc. unfold parse_channel, Py.getitem.
  rewrite Hu, He, Hc. unfold decode_record.
  destruct enabled; reflexivity.
Qed.

(** The total the loop over [range(8)] accumulates. *)
Lemma parse_channels_sum (packet : list byte) :
  length packet = 58%nat ->
  forall n k total w,
    (k + n <= 8)%nat -> wf w ->
    exists w',
      parse_channels packet (seq k n) (1 + 7 * k) total w
      = (Py.Ok (fold_left
                  (fun t i =>
                     (t + masked_current packet (channel_enabled w) i)%float)
                  (seq k n) total), w').
Proof.
  intros Hlen. induction n as [|n IH]; intros k total w Hk [He Hc].
  - exists w. reflexivity.
  - cbn [seq parse_channels fold_left].
    destruct (unpack_from_ok packet (1 + 7 * k)) as [[[[mv ma] td] st] Hu];
      [lia|].
    destruct (lookup_lt_is_Some_2 (channel_enabled w) k) as [en Hen];
      [lia|].
    destruct (lookup_lt_is_Some_2 (channels (pdm_data w)) k) as [old Hold];
      [lia|].
    rewrite (parse_channel_step_total packet k _ total w _ _ _ _ _ _
               Hu Hen Hold).
    unfold masked_current at 2. rewrite Hu, Hen.
    replace (1 + 7 * k + 7)%nat with (1 + 7 * S k)%nat by lia.
    set (w1 := with_channels w _).
    destruct (IH (S k)
                (total + (if en then Py.float_of_int ma / 1000.0
                          else 0.0))%float w1) as [w' E].
    { lia. }
    { split; [exact He|]. unfold w1. simpl. rewrite length_insert.
      exact Hc. }
    exists w'. exact E.
Qed.

(** Past the three tests: the two aggregates [parse_packet] stores. *)
Lemma store_channels_aggregates (packet : list byte) (now : string)
    (w : World) :
  length packet = 58%nat -> wf w ->
  exists ch0,
    expected_channel packet w 0 = Some ch0 /\
    system_voltage (pdm_data (snd (store_channels packet now w)))
    = Py.round (voltage ch0) 2 /\
    total_current (pdm_data (snd (store_channels packet now w)))
    = Py.round (frame_total packet (channel_enabled w)) 2.
Proof.
  intros Hlen Hw.
  destruct (parse_channels_spec packet Hlen 8 0 0.0%float w)
    as (total & chs' & E & L & Hspec); [lia|exact Hw|].
  destruct (parse_channels_sum packet Hlen 8 0 0.0%float w)
    as [w' E']; [lia|exact Hw|].
  rewrite E in E'. injection E' as -> _.
  unfold store_channels. change (1 + 7 * 0)%nat with 1%nat in E.
  rewrite E. unfold Py.getitem. cbn [with_channels pdm_data channels].
  destruct (lookup_lt_is_Some_2 chs' 0) as [ch0 H0]; [lia|].
  rewrite H0. exists ch0. cbn [snd pdm_data system_voltage total_current].
  split; [|split; reflexivity].
  rewrite <- H0, Hspec. reflexivity.
Qed.

(** C4, amended.  [parse_packet] never touches the enable mask; it leaves
    [pdm_data] identical on every frame that fails validation; on a
    valid frame it performs the store update itself: it returns [True]
    with the new timestamp, all eight channel records rewritten from the
    frame, [system_voltage] set to the stored voltage of channel 0 rounded
    to 2 places, and [total_current] set to the sum of the eight currents
    (unrounded, [0.0] for a disabled channel) rounded to 2 places. *)
Theorem parse_packet_store_effect
    (b : list byte) (now : string) (w : World) :
  wf w ->
  channel_enabled (snd (parse_packet b now w)) = channel_enabled w /\
  (~ valid_frame b -> pdm_data (snd (parse_packet b now w)) = pdm_data w) /\
  (valid_frame b ->
     fst (parse_packet b now w) = Py.Ok true /\
     timestamp (pdm_data (snd (parse_packet b now w))) = Some now /\
     (forall i, (i < 8)%nat ->
        channels (pdm_data (snd (parse_packet b now w))) !! i
        = expected_channel b w i) /\
     (exists ch0,
        expected_channel b w 0 = Some ch0 /\
        system_voltage (pdm_data (snd (parse_packet b now w)))
        = Py.round (voltage ch0) 2) /\
     total_current (pdm_data (snd (parse_packet b now w)))
     = Py.round (frame_total b (channel_enabled w)) 2).
Proof.
  intros Hw.
  assert (A : valid_frame b ->
              channel_enabled (snd (parse_packet b now w))
              = channel_enabled w /\
              fst (parse_packet b now w) = Py.Ok true /\
              timestamp (pdm_data (snd (parse_packet b now w))) = Some now /\
              (forall i, (i < 8)%nat ->
                 channels (pdm_data (snd (parse_packet b now w))) !! i
                 = expected_channel b w i) /\
              (exists ch0,
                 expected_channel b w 0 = Some ch0 /\
                 system_voltage (pdm_data (snd (parse_packet b now w)))
                 = Py.round (voltage ch0) 2) /\
              total_current (pdm_data (snd (parse_packet b now w)))
              = Py.round (frame_total b (channel_enabled w)) 2).
  { intros Hv.
    destruct (parse_packet_paths b now w) as (_ & _ & _ & P4).
    rewrite (P4 Hv).
    destruct (store_channels_aggregates b now w (proj1 Hv) Hw)
      as (c0 & X0 & SV & TC).
    destruct (store_channels_ok b now w (proj1 Hv) Hw)
      as (total & chs' & ch0 & E & _ & _ & Hspec).
    rewrite E in SV, TC |- *.
    split; [reflexivity|]. split; [reflexivity|]. split; [reflexivity|].
    split; [exact Hspec|]. split; [|exact TC].
    exists c0. split; [exact X0|exact SV]. }
  assert (R : ~ valid_frame b ->
              channel_enabled (snd (parse_packet b now w))
              = channel_enabled w /\
              pdm_data (snd (parse_packet b now w)) = pdm_data w).
  { intros Hn. destruct (invalid_frame_rejected b now w Hn) as [l ->].
    split; reflexivity. }
  split; [|split].
  - destruct (valid_frame_dec b) as [Hv|Hn]; [apply A, Hv|apply R, Hn].
  - intros Hn. apply R, Hn.
  - intros Hv. apply A, Hv.
Qed.

Lemma parse_packet_store_effect_witness :
  fst (parse_packet nominal_frame "2026-01-01T00:00:00" init) = Py.Ok true
  /\ timestamp
       (pdm_data (snd (parse_packet nominal_frame "2026-01-01T00:00:00" init)))
     = Some "2026-01-01T00:00:00"%string
  /\ system_voltage
       (pdm_data (snd (parse_packet nominal_frame "2026-01-01T00:00:00" init)))
     = 13.8%float
  /\ total_current
       (pdm_data (snd (parse_packet nominal_frame "2026-01-01T00:00:00" init)))
     = 25.6%float.
Proof.
  destruct (parse_packet_store_effect nominal_frame "2026-01-01T00:00:00"
              init wf_init) as (_ & _ & H).
  destruct (H nominal_frame_valid) as (H1 & H2 & _ & (c0 & X0 & SV) & TC).
  split; [exact H1|]. split; [exact H2|]. split.
  - rewrite SV. vm_compute in X0. injection X0 as <-.
    vm_compute. reflexivity.
  - rewrite TC. vm_compute. reflexivity.
Defined.

End FrameValidation.

(** ** The wire format: bytes and fields *)

Section WireFormat.

Lemma Z_of_byte_range (b : byte) : 0 <= Struct.Z_of_byte b < 256.
Proof.
  unfold Struct.Z_of_byte. pose proof (Byte.to_N_bounded b). lia.
Qed.

Lemma Z_of_byte_of_Z (z : Z) :
  Struct.Z_of_byte (Struct.byte_of_Z z) = z mod 256.
Proof.
  unfold Struct.Z_of_byte, Struct.byte_of_Z.
  pose proof (Z.mod_pos_bound z 256 ltac:(lia)) as Hr.
  destruct (Byte.of_N (Z.to_N (z mod 256))) as [b|] eqn:E.
  - apply Byte.to_of_N in E. rewrite E. lia.
  - apply Byte.of_N_None_iff in E. lia.
Qed.

Lemma Z_of_byte_of_Z_small (z : Z) :
  0 <= z < 256 -> Struct.Z_of_byte (Struct.byte_of_Z z) = z.
Proof. intros H. rewrite Z_of_byte_of_Z. apply Z.mod_small, H. Qed.

(** Low byte and high byte put back together. *)
Lemma lor_bytes (u : Z) :
  0 <= u < 65536 ->
  Z.lor (Z.land u 255 mod 256) (Z.shiftl (Z.shiftr u 8 mod 256) 8) = u.
Proof.
  intros H.
  change 255 with (Z.ones 8). rewrite Z.land_ones by lia.
  change (2 ^ 8) with 256. rewrite Z.mod_mod by lia.
  rewrite Z.shiftr_div_pow2 by lia. change (2 ^ 8) with 256.
  rewrite (Z.mod_small (u / 256) 256)
    by (split; [apply Z.div_pos; lia|apply Z.div_lt_upper_bound; lia]).
  apply Z.bits_inj'. intros n Hn.
  rewrite Z.lor_spec.
  destruct (Z.ltb_spec n 8) as [Hlt|Hge].
  - change 256 with (2 ^ 8). rewrite Z.mod_pow2_bits_low by lia.
    rewrite Z.shiftl_spec_low by lia. apply orb_false_r.
  - change 256 with (2 ^ 8). rewrite Z.mod_pow2_bits_high by lia.
    rewrite Z.shiftl_spec by lia.
    rewrite <- Z.shiftr_div_pow2 by lia.
    rewrite Z.shiftr_spec by lia.
    replace (n - 8 + 8) with n by lia. reflexivity.
Qed.

Lemma unpack_pack_H (v : Z) (lo hi : byte) :
  Struct.pack_H v = Py.Ok [lo; hi] -> Struct.unpack_H lo hi = v.
Proof.
  unfold Struct.pack_H.
  destruct ((0 <=? v) && (v <=? 65535)) eqn:R; [|discriminate].
  apply andb_true_iff in R. destruct R as [R1 R2].
  apply Z.leb_le in R1, R2.
  intros [= <- <-]. unfold Struct.unpack_H.
  rewrite !Z_of_byte_of_Z. apply lor_bytes. lia.
Qed.

Lemma unpack_pack_h (v : Z) (lo hi : byte) :
  Struct.pack_h v = Py.Ok [lo; hi] -> Struct.unpack_h lo hi = v.
Proof.
  unfold Struct.pack_h.
  destruct ((-32768 <=? v) && (v <=? 32767)) eqn:R; [|discriminate].
  apply andb_true_iff in R. destruct R as [R1 R2].
  apply Z.leb_le in R1, R2.
  intros [= <- <-]. unfold Struct.unpack_h, Struct.unpack_H.
  rewrite !Z_of_byte_of_Z.
  pose proof (Z.mod_pos_bound v 65536 ltac:(lia)) as Hu.
  rewrite lor_bytes by lia.
  destruct (Z.le_gt_cases 0 v) as [Hp|Hn].
  - rewrite Z.mod_small by lia.
    destruct (Z.ltb_spec v 32768); lia.
  - assert (E : v mod 65536 = v + 65536).
    { symmetry. apply (Z.mod_unique_pos v 65536 (-1)); lia. }
    rewrite E. destruct (Z.ltb_spec (v + 65536) 32768); lia.
Qed.

Lemma unpack_pack_B (v : Z) (b : byte) :
  Struct.pack_B v = Py.Ok [b] -> Struct.Z_of_byte b = v.
Proof.
  unfold Struct.pack_B.
  destruct ((0 <=? v) && (v <=? 255)) eqn:R; [|discriminate].
  apply andb_true_iff in R. destruct R as [R1 R2].
  apply Z.leb_le in R1, R2.
  intros [= <-]. apply Z_of_byte_of_Z_small. lia.
Qed.

Lemma pack_HHhB_ok_iff (a b c d : Z) :
  (exists bs, Struct.pack_HHhB a b c d = Py.Ok bs) <-> fields_in_range a b c d.
Proof.
  unfold Struct.pack_HHhB, Struct.pack_H, Struct.pack_h, Struct.pack_B,
    fields_in_range.
  destruct (Z.leb_spec 0 a), (Z.leb_spec a 65535), (Z.leb_spec 0 b),
    (Z.leb_spec b 65535), (Z.leb_spec (-32768) c), (Z.leb_spec c 32767),
    (Z.leb_spec 0 d), (Z.leb_spec d 255); cbn;
    (split; [intros [bs E]; try discriminate; lia
            |intros R; try lia; eauto]).
Qed.

(** [unpack_from] reads back what [pack] wrote, wherever the 7 bytes sit. *)
Lemma unpack_from_pack (a b c d : Z) (bs pre post : list byte) :
  Struct.pack_HHhB a b c d = Py.Ok bs ->
  length bs = 7%nat /\
  Struct.unpack_from_HHhB (pre ++ bs ++ post) (length pre)
  = Py.Ok (a, b, c, d).
Proof.
  unfold Struct.pack_HHhB.
  destruct (Struct.pack_H a) as [ba|] eqn:Ea; [|discriminate].
  destruct (Struct.pack_H b) as [bb|] eqn:Eb; [|discriminate].
  destruct (Struct.pack_h c) as [bc|] eqn:Ec; [|discriminate].
  destruct (Struct.pack_B d) as [bd|] eqn:Ed; [|discriminate].
  cbn. intros [= <-].
  assert (exists a0 a1, ba = [a0; a1]) as (a0 & a1 & ->).
  { unfold Struct.pack_H in Ea. destruct (_ && _); [|discriminate].
    injection Ea as <-. eauto. }
  assert (exists b0 b1, bb = [b0; b1]) as (b0 & b1 & ->).
  { unfold Struct.pack_H in Eb. destruct (_ && _); [|discriminate].
    injection Eb as <-. eauto. }
  assert (exists c0 c1, bc = [c0; c1]) as (c0 & c1 & ->).
  { unfold Struct.pack_h in Ec. destruct (_ && _); [|discriminate].
    injection Ec as <-. eauto. }
  assert (exists d0, bd = [d0]) as (d0 & ->).
  { unfold Struct.pack_B in Ed. destruct (_ && _); [|discriminate].
    injection Ed as <-. eauto. }
  split; [reflexivity|].
  unfold Struct.unpack_from_HHhB.
  rewrite drop_app_length. cbn.
  rewrite (unpack_pack_H _ _ _ Ea), (unpack_pack_H _ _ _ Eb),
    (unpack_pack_h _ _ _ Ec), (unpack_pack_B _ _ Ed).
  reflexivity.
Qed.

(** The running XOR of bytes is a byte. *)
Lemma lxor_byte_range (a b : Z) :
  0 <= a < 256 -> 0 <= b < 256 -> 0 <= Z.lxor a b < 256.
Proof.
  intros Ha Hb.
  assert (N : 0 <= Z.lxor a b) by (apply Z.lxor_nonneg; lia).
  split; [exact N|].
  assert (E : Z.lxor a b mod 2 ^ 8 = Z.lxor a b).
  { apply Z.bits_inj'. intros n Hn.
    destruct (Z.ltb_spec n 8) as [Hlt|Hge].
    - apply Z.mod_pow2_bits_low. lia.
    - rewrite Z.mod_pow2_bits_high by lia.
      rewrite Z.lxor_spec.
      rewrite <- (Z.mod_small a (2 ^ 8)), <- (Z.mod_small b (2 ^ 8))
        by (change (2 ^ 8) with 256; lia).
      rewrite !Z.mod_pow2_bits_high by lia. reflexivity. }
  rewrite <- E. apply Z.mod_pos_bound. lia.
Qed.

Lemma xor_fold_range (bs : list byte) :
  forall acc, 0 <= acc < 256 ->
    0 <= fold_left (fun c b => Z.lxor c (Struct.Z_of_byte b)) bs acc < 256.
Proof.
  induction bs as [|b bs IH]; intros acc H; simpl; [exact H|].
  apply IH, lxor_byte_range; [exact H|apply Z_of_byte_range].
Qed.

Lemma xor_bytes_range (bs : list byte) : 0 <= Sim.xor_bytes bs < 256.
Proof. apply xor_fold_range. lia. Qed.

End WireFormat.

(** ** The encoder *)

Section Encoder.
Import TestCases Sim.

Lemma pack_channel_fields (ch : ChannelState) (bs : list byte) :
  pack_channel ch = Py.Ok bs ->
  exists mv ma td,
    wire_fields ch = Py.Ok (mv, ma, td, status ch) /\
    fields_in_range mv ma td (status ch) /\
    Struct.pack_HHhB mv ma td (status ch) = Py.Ok bs.
Proof.
  unfold pack_channel, wire_fields.
  destruct (Py.int_of_float (voltage ch * 1000)%float) as [mv|];
    [|discriminate].
  destruct (Py.int_of_float (current ch * 1000)%float) as [ma|];
    [|discriminate].
  destruct (Py.int_of_float (temp ch * 10)%float) as [td|];
    [|discriminate].
  cbn. intros E. exists mv, ma, td. repeat split; try exact E;
    apply (proj1 (pack_HHhB_ok_iff mv ma td (status ch))); eauto.
Qed.

Lemma pack_channel_ok_iff (ch : ChannelState) :
  (exists bs, pack_channel ch = Py.Ok bs) <-> encodable ch.
Proof.
  split.
  - intros [bs E]. destruct (pack_channel_fields ch bs E)
      as (mv & ma & td & F & R & _). exists mv, ma, td. auto.
  - intros (mv & ma & td & F & R).
    apply pack_HHhB_ok_iff in R. destruct R as [bs E]. exists bs.
    unfold pack_channel. unfold wire_fields in F.
    destruct (Py.int_of_float (voltage ch * 1000)%float) as [mv'|];
      [|discriminate].
    destruct (Py.int_of_float (current ch * 1000)%float) as [ma'|];
      [|discriminate].
    destruct (Py.int_of_float (temp ch * 10)%float) as [td'|];
      [|discriminate].
    cbn in *. injection F as -> -> ->. exact E.
Qed.

Lemma wire_fields_truncations (ch : ChannelState) (mv ma td st : Z) :
  wire_fields ch = Py.Ok (mv, ma, td, st) -> scaled_truncations ch mv ma td.
Proof.
  unfold wire_fields, scaled_truncations.
  destruct (Py.int_of_float (voltage ch * 1000)%float) as [mv'|] eqn:Ev;
    [|discriminate].
  destruct (Py.int_of_float (current ch * 1000)%float) as [ma'|] eqn:Ec;
    [|discriminate].
  destruct (Py.int_of_float (temp ch * 10)%float) as [td'|] eqn:Et;
    [|discriminate].
  cbn. intros [= <- <- <- _].
  repeat split; apply int_of_float_truncates; assumption.
Qed.

(** [pack_channels] appends one block per channel, in order. *)
Lemma pack_channels_blocks (chs : list ChannelState) :
  forall pre out,
    pack_channels pre chs = Py.Ok out ->
    exists blocks,
      Forall2 (fun ch bs => pack_channel ch = Py.Ok bs) chs blocks /\
      out = pre ++ concat blocks.
Proof.
  induction chs as [|ch chs IH]; intros pre out; simpl.
  - intros [= <-]. exists []. split; [constructor|].
    simpl. now rewrite app_nil_r.
  - destruct (pack_channel ch) as [bs|] eqn:E; [|discriminate]. cbn.
    intros H. destruct (IH _ _ H) as (blocks & F & ->).
    exists (bs :: blocks). split; [constructor; assumption|].
    simpl. now rewrite app_assoc.
Qed.

Lemma pack_channels_total (chs : list ChannelState) :
  Forall encodable chs ->
  forall pre, exists out, pack_channels pre chs = Py.Ok out.
Proof.
  induction 1 as [|ch chs Hch _ IH]; intros pre; simpl; [eauto|].
  apply pack_channel_ok_iff in Hch. destruct Hch as [bs ->]. cbn.
  apply IH.
Qed.

Lemma block_length (ch : ChannelState) (bs : list byte) :
  pack_channel ch = Py.Ok bs -> length bs = 7%nat.
Proof.
  intros E. destruct (pack_channel_fields ch bs E)
    as (mv & ma & td & _ & _ & P).
  exact (proj1 (unpack_from_pack mv ma td (status ch) bs [] [] P)).
Qed.

Lemma blocks_length (chs : list ChannelState) (blocks : list (list byte)) :
  Forall2 (fun ch bs => pack_channel ch = Py.Ok bs) chs blocks ->
  length (concat blocks) = (7 * length chs)%nat.
Proof.
  induction 1 as [|ch bs chs blocks E _ IH]; simpl; [reflexivity|].
  rewrite length_app, IH, (block_length ch bs E). lia.
Qed.

(** The shape of every frame [_make_packet] returns. *)
Lemma make_packet_shape (self : STM32Simulator) (pkt : list byte) :
  _make_packet self = Py.Ok pkt ->
  exists blocks,
    Forall2 (fun ch bs => pack_channel ch = Py.Ok bs)
      (channels_state self) blocks /\
    pkt = (xaa :: concat blocks)
          ++ [Struct.byte_of_Z (xor_bytes (xaa :: concat blocks))].
Proof.
  unfold _make_packet.
  destruct (pack_channels [xaa] (channels_state self)) as [body|] eqn:E;
    [|discriminate].
  cbn. intros [= <-].
  destruct (pack_channels_blocks _ _ _ E) as (blocks & F & ->).
  exists blocks. split; [exact F|reflexivity].
Qed.

(** Channel [i] occupies the 7 bytes from offset [1 + 7 i]. *)
Lemma make_packet_block (self : STM32Simulator) (pkt : list byte)
    (i : nat) (ch : ChannelState) :
  _make_packet self = Py.Ok pkt ->
  channels_state self !! i = Some ch ->
  exists mv ma td bs,
    wire_fields ch = Py.Ok (mv, ma, td, status ch) /\
    fields_in_range mv ma td (status ch) /\
    Struct.pack_HHhB mv ma td (status ch) = Py.Ok bs /\
    take 7 (drop (1 + 7 * i) pkt) = bs /\
    Struct.unpack_from_HHhB pkt (1 + 7 * i) = Py.Ok (mv, ma, td, status ch).
Proof.
  intros E Hi. destruct (make_packet_shape self pkt E) as (blocks & F & ->).
  destruct (Forall2_lookup_l _ _ _ _ _ F Hi) as (bs & Hb & Hp).
  destruct (pack_channel_fields ch bs Hp) as (mv & ma & td & W & R & P).
  exists mv, ma, td, bs.
  split; [exact W|]. split; [exact R|]. split; [exact P|].
  pose proof (take_drop_middle _ _ _ Hb) as M.
  assert (L : length (xaa :: concat (take i blocks)) = (1 + 7 * i)%nat).
  { simpl. f_equal.
    rewrite (blocks_length (take i (channels_state self)))
      by (apply Forall2_take, F).
    rewrite length_take. apply lookup_lt_Some in Hi. lia. }
  assert (S : (xaa :: concat blocks)
              ++ [Struct.byte_of_Z (xor_bytes (xaa :: concat blocks))]
              = (xaa :: concat (take i blocks)) ++ bs
                ++ (concat (drop (S i) blocks)
                    ++ [Struct.byte_of_Z
                          (xor_bytes (xaa :: concat blocks))])).
  { rewrite <- M at 1. rewrite concat_app. simpl.
    rewrite <- !app_assoc. reflexivity. }
  rewrite S, <- L. split.
  - rewrite drop_app_length.
    rewrite <- (proj1 (unpack_from_pack mv ma td (status ch) bs [] [] P)).
    apply take_app_length.
  - apply (unpack_from_pack mv ma td (status ch) bs _ _ P).
Qed.

Lemma make_packet_length (self : STM32Simulator) (pkt : list byte) :
  _make_packet self = Py.Ok pkt ->
  length pkt = (2 + 7 * length (channels_state self))%nat.
Proof.
  intros E. destruct (make_packet_shape self pkt E) as (blocks & F & ->).
  rewrite length_app. simpl. rewrite (blocks_length _ _ F). lia.
Qed.

(** Not every list of 8 samples is encoded: with the starter at 150 A the
    scaled current 150000 does not fit the unsigned 16-bit field and
    [struct.pack] raises; nothing is clamped or wrapped. *)
Lemma make_packet_raises_out_of_range : ~ encode_is_total.
Proof.
  intros H. destruct (H cranking_sim eq_refl) as (pkt & E & _).
  vm_compute in E. discriminate.
Qed.

(** When the encoder is defined.  [_make_packet] returns a frame exactly
    when every channel is encodable: the three scaled values, truncated toward zero, fit their
    16-bit fields and the status fits a byte; otherwise it raises.  A frame
    of 8 channels has 58 bytes, and the 7 bytes of channel [i] from offset
    [1 + 7 i] are the four integers packed little-endian; each of the three
    integers is less than 1 away from the scaled value it truncates. *)
Theorem make_packet_defined_iff_encodable (self : STM32Simulator) :
  length (channels_state self) = 8%nat ->
  ((exists pkt, _make_packet self = Py.Ok pkt)
   <-> Forall encodable (channels_state self)) /\
  (forall pkt, _make_packet self = Py.Ok pkt ->
     length pkt = 58%nat /\
     forall i ch, channels_state self !! i = Some ch ->
       exists mv ma td bs,
         wire_fields ch = Py.Ok (mv, ma, td, status ch) /\
         scaled_truncations ch mv ma td /\
         fields_in_range mv ma td (status ch) /\
         Struct.pack_HHhB mv ma td (status ch) = Py.Ok bs /\
         take 7 (drop (1 + 7 * i) pkt) = bs).
Proof.
  intros L. split; [split|].
  - intros [pkt E]. destruct (make_packet_shape self pkt E) as (blocks & F & _).
    apply Forall_forall. intros ch Hin.
    apply list_elem_of_lookup in Hin. destruct Hin as [i Hi].
    destruct (Forall2_lookup_l _ _ _ _ _ F Hi) as (bs & _ & Hp).
    apply pack_channel_ok_iff. eauto.
  - intros Hall. unfold _make_packet.
    destruct (pack_channels_total _ Hall [xaa]) as [body ->]. cbn. eauto.
  - intros pkt E. split.
    + rewrite (make_packet_length self pkt E), L. reflexivity.
    + intros i ch Hi.
      destruct (make_packet_block self pkt i ch E Hi)
        as (mv & ma & td & bs & W & R & P & T & _).
      exists mv, ma, td, bs.
      split; [exact W|]. split; [exact (wire_fields_truncations _ _ _ _ _ W)|].
      auto.
Qed.

Lemma init_encodable : Forall encodable (channels_state init).
Proof.
  repeat constructor; eexists _, _, _; (split; [vm_compute; reflexivity|]);
    unfold fields_in_range; simpl; lia.
Qed.

Lemma make_packet_defined_iff_encodable_witness :
  (exists pkt, _make_packet init = Py.Ok pkt) /\
  length nominal_frame = 58%nat /\
  take 7 (drop 1 nominal_frame)
  = ["232"; "5"; "P"; "020"; "194"; "001"; "001"]%byte.
Proof.
  destruct (make_packet_defined_iff_encodable init eq_refl) as [T S].
  split; [apply (proj2 T), init_encodable|].
  destruct (S nominal_frame nominal_frame_made) as [L B].
  split; [exact L|].
  destruct (B 0%nat (mkState 13.8 5.2 45.0 1) eq_refl)
    as (mv & ma & td & bs & W & _ & _ & P & <-).
  reflexivity.
Defined.

(** [int()] truncates toward zero: 13.7999 V is sent as 13799 mV, 0.9 mA
    as 0 mA and -0.09 degrees as 0 decidegrees. *)
Example wire_fields_truncate :
  wire_fields (mkState 13.7999 0.0009 (-0.09) 0) = Py.Ok (13799, 0, 0, 0).
Proof. vm_compute. reflexivity. Qed.

End Encoder.

(** ** Encoder and decoder together *)

Section RoundTrip.
Import TestCases.

Lemma make_packet_valid_frame (self : Sim.STM32Simulator) (pkt : list byte) :
  length (Sim.channels_state self) = 8%nat ->
  Sim._make_packet self = Py.Ok pkt ->
  valid_frame pkt.
Proof.
  intros L E.
  pose proof (make_packet_length self pkt E) as Lp. rewrite L in Lp.
  destruct (make_packet_shape self pkt E) as (blocks & F & ->).
  assert (H0 : ((xaa :: concat blocks)
                ++ [Struct.byte_of_Z (Sim.xor_bytes (xaa :: concat blocks))])
               !! 0%nat = Some xaa) by reflexivity.
  remember (xaa :: concat blocks) as body eqn:Hbody.
  assert (Lb : length body = 57%nat).
  { rewrite length_app in Lp. change (length [_]) with 1%nat in Lp. lia. }
  split; [exact Lp|]. split; [exact H0|].
  exists (Struct.byte_of_Z (Sim.xor_bytes body)). split.
  - rewrite lookup_app_r by lia. rewrite Lb. reflexivity.
  - rewrite <- Lb, take_app_length.
    rewrite Z_of_byte_of_Z_small by apply xor_bytes_range. reflexivity.
Qed.

Lemma bit_set_testbit (st : Z) (k : Z) :
  0 <= k -> Reader.bit_set st (2 ^ k) = Z.testbit st k.
Proof.
  intros Hk. unfold Reader.bit_set.
  destruct (Z.testbit st k) eqn:T.
  - destruct (Z.eqb_spec (Z.land st (2 ^ k)) 0) as [E|]; [|reflexivity].
    apply (f_equal (fun z => Z.testbit z k)) in E.
    rewrite Z.land_spec, T, Z.pow2_bits_true, Z.bits_0 in E by lia.
    discriminate.
  - destruct (Z.eqb_spec (Z.land st (2 ^ k)) 0) as [|N]; [reflexivity|].
    exfalso. apply N. apply Z.bits_inj'. intros n Hn.
    rewrite Z.land_spec, Z.bits_0.
    destruct (Z.eq_dec n k) as [->|Hne].
    + rewrite T. reflexivity.
    + rewrite Z.pow2_bits_false by lia. apply andb_false_r.
Qed.

Lemma decode_record_stored (mv ma td st : Z) (enabled : bool)
    (old : Reader.Channel) :
  stored_after_roundtrip mv ma td st enabled old
    (decode_record (mv, ma, td, st) enabled old).
Proof.
  unfold stored_after_roundtrip, decode_record.
  rewrite <- (bit_set_testbit st 0), <- (bit_set_testbit st 1),
    <- (bit_set_testbit st 2), <- (bit_set_testbit st 3) by lia.
  destruct enabled; cbn; repeat split; reflexivity.
Qed.

Lemma all_from_spec (f : Z -> bool) (n : nat) :
  forall lo, all_from f lo n = true ->
    forall z, lo <= z < lo + Z.of_nat n -> f z = true.
Proof.
  induction n as [|n IH]; intros lo H z Hz; [lia|].
  simpl in H. apply andb_true_iff in H. destruct H as [H0 H1].
  destruct (Z.eq_dec z lo) as [->|Hne]; [exact H0|].
  apply (IH (lo + 1) H1). lia.
Qed.

(** Every 16-bit count of thousandths is stored within half a hundredth of
    its value: the store keeps 10 mV and 10 mA steps. *)
Lemma decoded_thousandths_resolution (n : Z) :
  0 <= n <= 65535 ->
  close_to (decoded_thousandths n) (n # 1000) half_step = true.
Proof.
  intros H.
  apply (all_from_spec
           (fun n => close_to (decoded_thousandths n) (n # 1000) half_step)
           (Z.to_nat 65536) 0).
  - vm_compute. reflexivity.
  - rewrite Z2Nat.id; lia.
Qed.

(** Every signed 16-bit count of tenths is stored within a millionth of
    its value. *)
Lemma decoded_tenths_resolution (n : Z) :
  -32768 <= n <= 32767 ->
  close_to (decoded_tenths n) (n # 10) last_digit = true.
Proof.
  intros H.
  apply (all_from_spec
           (fun n => close_to (decoded_tenths n) (n # 10) last_digit)
           (Z.to_nat 65536) (-32768)).
  - vm_compute. reflexivity.
  - rewrite Z2Nat.id; lia.
Qed.

(** C2, amended.  Every encodable list of 8 samples survives the trip
    through [_make_packet] and [parse_packet]: the frame is accepted, and
    each stored channel is computed from the truncated wire integers of its
    sample -- voltage [round(mv / 1000, 2)], current [round(ma / 1000, 2)]
    or [0.0] when the channel is disabled, temperature [round(td / 10, 1)],
    and of the status byte the four low bits as flags, the "on" flag gated
    by the enable mask.  Each wire integer is less than 1 away from the
    scaled value it truncates; the stored voltage and current are within
    half of 10 mV and 10 mA of the wire integer, the stored temperature is
    the wire integer in tenths of a degree. *)
Theorem decode_encode_roundtrip
    (self : Sim.STM32Simulator) (pkt : list byte) (now : string)
    (w : Reader.World) :
  length (Sim.channels_state self) = 8%nat ->
  wf w ->
  Sim._make_packet self = Py.Ok pkt ->
  fst (Reader.parse_packet pkt now w) = Py.Ok true /\
  forall i sample enabled old,
    Sim.channels_state self !! i = Some sample ->
    Reader.channel_enabled w !! i = Some enabled ->
    Reader.channels (Reader.pdm_data w) !! i = Some old ->
    exists mv ma td d,
      wire_fields sample = Py.Ok (mv, ma, td, status sample) /\
      scaled_truncations sample mv ma td /\
      Reader.channels (Reader.pdm_data (snd (Reader.parse_packet pkt now w)))
        !! i = Some d /\
      stored_after_roundtrip mv ma td (status sample) enabled old d /\
      stored_resolution mv ma td enabled d.
Proof.
  intros L Hw E.
  pose proof (make_packet_valid_frame self pkt L E) as Hv.
  destruct (parse_packet_paths pkt now w) as (_ & _ & _ & P4).
  rewrite (P4 Hv).
  destruct (store_channels_ok pkt now w (proj1 Hv) Hw)
    as (total & chs' & ch0 & -> & _ & _ & Hspec).
  split; [reflexivity|].
  intros i sample enabled old Hi Hen Hold.
  destruct (make_packet_block self pkt i sample E Hi)
    as (mv & ma & td & bs & W & R & _ & _ & U).
  exists mv, ma, td, (decode_record (mv, ma, td, status sample) enabled old).
  split; [exact W|].
  split; [exact (wire_fields_truncations _ _ _ _ _ W)|]. split; [|split].
  - cbn [snd Reader.pdm_data Reader.channels].
    rewrite Hspec by (apply lookup_lt_Some in Hi; lia).
    unfold expected_channel. rewrite U, Hen, Hold. reflexivity.
  - apply decode_record_stored.
  - destruct R as (Rv & Rc & Rt & _).
    destruct (decode_record_stored mv ma td (status sample) enabled old)
      as (_ & _ & Ev & Ec & Et & _).
    unfold stored_resolution. rewrite Ev, Ec, Et.
    split; [apply decoded_thousandths_resolution, Rv|].
    split; [|apply decoded_tenths_resolution, Rt].
    intros ->. apply decoded_thousandths_resolution, Rc.
Qed.

Lemma decode_encode_roundtrip_witness :
  fst (Reader.parse_packet nominal_frame "2026-01-01T00:00:00" Reader.init)
  = Py.Ok true /\
  Reader.channels
    (Reader.pdm_data
       (snd (Reader.parse_packet nominal_frame "2026-01-01T00:00:00"
               Reader.init))) !! 0%nat
  = Some (Reader.mkChannel 0 "ECU" 13.8 5.2 45.0
            (Reader.mkFlags true false false false)).
Proof.
  destruct (decode_encode_roundtrip Sim.init nominal_frame
              "2026-01-01T00:00:00" Reader.init eq_refl wf_init
              nominal_frame_made) as [A B].
  split; [exact A|].
  destruct (B 0%nat (mkState 13.8 5.2 45.0 1) true
              (Reader.mkChannel 0 "ECU" 0.0 0.0 0.0
                 (Reader.mkFlags false false false false))
              eq_refl eq_refl eq_refl)
    as (mv & ma & td & d & W & _ & -> & S & _).
  vm_compute in W. injection W as <- <- <-.
  destruct d as [di dn dv dc dt [d1 d2 d3 d4]].
  destruct S as (E1 & E2 & E3 & E4 & E5 & E6 & E7 & E8 & E9).
  cbn in *. subst. vm_compute. reflexivity.
Defined.

Lemma offgrid_frame_made :
  Sim._make_packet offgrid_sim = Py.Ok offgrid_frame.
Proof. vm_compute. reflexivity. Qed.

Lemma offgrid_stored :
  Reader.channels
    (Reader.pdm_data
       (snd (Reader.parse_packet offgrid_frame "2026-01-01T00:00:00"
               Reader.init))) !! 0%nat
  = Some (Reader.mkChannel 0 "ECU" 13.51 5.21 45.0
            (Reader.mkFlags true false false false)).
Proof. vm_compute. reflexivity. Qed.

(** C2, counterexample.  From 13.5078125 V the store ends with 13.51 V, and
    from 5.2078125 A with 5.21 A: both are 2.1875 thousandths off, beyond
    1 mV and 1 mA, because [parse_packet] rounds to two decimals.  Status
    [0x11] comes back as the flags of [0x01]: bit 4 has no flag. *)
Lemma roundtrip_exceeds_resolution :
  (~ voltage_within_1mV /\ ~ current_within_1mA /\ ~ status_identical) /\
  ~ roundtrip_within_resolution.
Proof.
  assert (V : ~ voltage_within_1mV).
  { intros H.
    pose proof (H offgrid_sim offgrid_frame "2026-01-01T00:00:00"%string
                  Reader.init eq_refl wf_init offgrid_frame_made 0%nat _ _
                  eq_refl offgrid_stored) as K.
    vm_compute in K. apply K. reflexivity. }
  assert (C : ~ current_within_1mA).
  { intros H.
    pose proof (H offgrid_sim offgrid_frame "2026-01-01T00:00:00"%string
                  Reader.init eq_refl wf_init offgrid_frame_made 0%nat _ _
                  eq_refl offgrid_stored) as K.
    vm_compute in K. apply K. reflexivity. }
  assert (S : ~ status_identical).
  { intros H.
    pose proof (H offgrid_sim offgrid_frame "2026-01-01T00:00:00"%string
                  Reader.init eq_refl wf_init offgrid_frame_made 0%nat _ _
                  eq_refl offgrid_stored) as K.
    vm_compute in K. discriminate. }
  split; [auto|]. intros (H & _). exact (V H).
Qed.

End RoundTrip.

(** ** The scenario lifecycle of the producer *)

Section Lifecycle.
Import TestCases Sim.

Lemma registered_states (id : Z) (sc : TestScenario) (e : float) :
  get_scenario id = Some sc ->
  exists states, get_channel_states sc e = Py.Ok states /\
                 length states = 8%nat.
Proof.
  intros H. destruct (get_scenario_cases _ _ H) as [-> | ->];
    eexists; (split; [reflexivity|]).
  - unfold cooling_fan_states.
    destruct (Py.ge e 2), (e <? 2.5)%float, (e <? 3)%float, (Py.ge e 3);
      reflexivity.
  - unfold engine_start_states.
    destruct ((1 <=? e)%float && (e <? 3)%float), (Py.ge e 3); reflexivity.
Qed.

Lemma apply_channel_controls_frame (self : STM32Simulator) (f : ctrl_file) :
  active_scenario (_apply_channel_controls self f) = active_scenario self /\
  scenario_started_at (_apply_channel_controls self f)
  = scenario_started_at self /\
  scenario_info (_apply_channel_controls self f) = scenario_info self /\
  sim_voltage (_apply_channel_controls self f) = sim_voltage self /\
  length (channels_state (_apply_channel_controls self f))
  = length (channels_state self).
Proof.
  unfold _apply_channel_controls.
  destruct f as [| |[]]; try (repeat split; reflexivity).
  destruct (dict_get kv "channels"); try (repeat split; reflexivity).
  destruct (length l =? 8)%nat; repeat split; try reflexivity.
  cbn. apply apply_mask_length.
Qed.

Lemma sensor_step_shape v rand states k i ch states' k' :
  sensor_step v rand states k i ch = Py.Ok (states', k') ->
  exists ch', states' = <[i := ch']> states.
Proof.
  unfold sensor_step.
  destruct (is_on ch).
  - destruct (i =? 7)%nat.
    + cbn. destruct (i =? 3)%nat; intros [= <- <-];
        [rewrite list_insert_insert_eq|]; eauto.
    + destruct (Py.getitem _ i) as [base|]; [|discriminate]. cbn.
      destruct (i =? 3)%nat; intros [= <- <-];
        [rewrite list_insert_insert_eq|]; eauto.
  - cbn. destruct (i =? 3)%nat; intros [= <- <-];
      [rewrite list_insert_insert_eq|]; eauto.
Qed.

Lemma sensor_loop_length v rand (idx : list nat) :
  forall states k states',
    sensor_loop v rand states k idx = Py.Ok states' ->
    length states' = length states.
Proof.
  induction idx as [|i idx IH]; intros states k states'; simpl.
  - now intros [= <-].
  - destruct (states !! i) as [ch|]; [|now intros [= <-]].
    destruct (sensor_step v rand states k i ch) as [[st1 k1]|] eqn:E;
      [|discriminate].
    cbn. intros H. rewrite (IH _ _ _ H).
    destruct (sensor_step_shape _ _ _ _ _ _ _ _ E) as [ch' ->].
    apply length_insert.
Qed.

Lemma update_sensors_frame (self self' : STM32Simulator) rand :
  _update_sensors self rand = Py.Ok self' ->
  active_scenario self' = active_scenario self /\
  scenario_started_at self' = scenario_started_at self /\
  scenario_info self' = scenario_info self /\
  length (channels_state self') = length (channels_state self).
Proof.
  unfold _update_sensors.
  destruct (active_scenario self) as [sc|] eqn:A.
  - intros [= <-]. rewrite A. repeat split.
  - destruct (sensor_loop _ rand (channels_state self) 1 _) as [st|] eqn:E;
      [|discriminate].
    cbn. intros [= <-]. cbn. repeat split.
    apply (sensor_loop_length _ _ _ _ _ _ E).
Qed.

(** An iteration that completes leaves the scenario fields as [advance]
    set them and publishes the file built from them. *)
Lemma tick_scenario_fields (self self' : STM32Simulator) (inp : tick_input)
    (pkt : list byte) (msg : option StatusMessage) :
  tick self inp = Py.Ok (self', pkt, msg) ->
  active_scenario self' = active_scenario (advance self inp) /\
  scenario_started_at self' = scenario_started_at (advance self inp) /\
  scenario_info self' = scenario_info (advance self inp) /\
  length (channels_state self')
  = length (channels_state (advance self inp)) /\
  msg = _write_status_file self'.
Proof.
  unfold tick. fold (advance self inp).
  destruct (apply_channel_controls_frame (advance self inp) (ctrl inp))
    as (A & B & C & _ & D).
  destruct (_update_sensors _ (rand inp)) as [s4|] eqn:E; [|discriminate].
  destruct (update_sensors_frame _ _ _ E) as (A' & B' & C' & D').
  cbn. destruct (_make_packet s4) as [p|]; [|discriminate].
  cbn. intros [= <- <- <-].
  repeat split; congruence.
Qed.

Lemma published_status (self : STM32Simulator) :
  channels_state self <> [] ->
  msg_status <$> _write_status_file self
  = Some (info_status (scenario_info self)).
Proof.
  unfold _write_status_file. intros H.
  destruct (channels_state self) as [|ch0 chs]; [contradiction|].
  reflexivity.
Qed.

Lemma tick_published (self self' : STM32Simulator) (inp : tick_input)
    (pkt : list byte) (msg : option StatusMessage) :
  tick self inp = Py.Ok (self', pkt, msg) ->
  (0 < length (channels_state (advance self inp)))%nat ->
  published (pkt, msg)
  = Some (info_status (scenario_info (advance self inp))).
Proof.
  intros E Hlen.
  destruct (tick_scenario_fields _ _ _ _ _ E) as (_ & _ & I & L & ->).
  unfold published. cbn [snd]. rewrite published_status, I; [reflexivity|].
  intros N. rewrite <- L, N in Hlen. simpl in Hlen. lia.
Qed.

(** [advance] without a trigger and without a scenario: idle. *)
Lemma advance_idle (self : STM32Simulator) (inp : tick_input) :
  trigger inp = None ->
  active_scenario self = None ->
  active_scenario (advance self inp) = None /\
  info_status (scenario_info (advance self inp)) = "idle"%string /\
  channels_state (advance self inp) = channels_state self.
Proof.
  intros T A. unfold advance, _maybe_start_scenario. rewrite T.
  unfold _update_scenario_state. rewrite A. repeat split. exact A.
Qed.

(** [advance] without a trigger on a running scenario. *)
Lemma advance_running (self : STM32Simulator) (inp : tick_input)
    (id : Z) (sc : TestScenario) :
  trigger inp = None ->
  get_scenario id = Some sc ->
  active_scenario self = Some sc ->
  (Py.ge (elapsed_at (scenario_started_at self) inp) (duration sc) = false ->
   active_scenario (advance self inp) = Some sc /\
   scenario_started_at (advance self inp) = scenario_started_at self /\
   info_status (scenario_info (advance self inp)) = "active"%string /\
   length (channels_state (advance self inp)) = 8%nat) /\
  (Py.ge (elapsed_at (scenario_started_at self) inp) (duration sc) = true ->
   active_scenario (advance self inp) = None /\
   info_status (scenario_info (advance self inp)) = "complete"%string /\
   channels_state (advance self inp) = channels_state self).
Proof.
  intros T R A. unfold advance, _maybe_start_scenario. rewrite T.
  unfold _update_scenario_state, elapsed_at. rewrite A. split; intros ->.
  - destruct (registered_states id sc
                (t_update inp - scenario_started_at self)%float R)
      as (states & -> & L).
    repeat split. exact L.
  - repeat split.
Qed.

(** [advance] on a valid trigger: the scenario starts at [t_start]. *)
Lemma advance_triggered (self : STM32Simulator) (inp : tick_input)
    (id : Z) (sc : TestScenario) :
  trigger inp = Some id ->
  get_scenario id = Some sc ->
  Py.ge (elapsed_at (t_start inp) inp) (duration sc) = false ->
  active_scenario (advance self inp) = Some sc /\
  scenario_started_at (advance self inp) = t_start inp /\
  info_status (scenario_info (advance self inp)) = "active"%string /\
  length (channels_state (advance self inp)) = 8%nat.
Proof.
  intros T R G. unfold advance, _maybe_start_scenario. rewrite T, R.
  unfold _update_scenario_state, elapsed_at in *.
  cbn [active_scenario scenario_started_at]. rewrite G.
  destruct (registered_states id sc (t_update inp - t_start inp)%float R)
    as (states & -> & L).
  repeat split. exact L.
Qed.

Lemma statuses_cons (self : STM32Simulator) (inp : tick_input)
    (inputs : list tick_input) :
  statuses self (inp :: inputs)
  = match tick self inp with
    | Py.Ok (self', pkt, msg) => published (pkt, msg) :: statuses self' inputs
    | Py.Raise _ => []
    end.
Proof.
  unfold statuses. simpl.
  destruct (tick self inp) as [[[self' pkt] msg]|]; reflexivity.
Qed.

(** After completion, trigger-free iterations publish "idle". *)
Lemma statuses_idle (post : list tick_input) :
  forall self,
    active_scenario self = None ->
    (0 < length (channels_state self))%nat ->
    Forall trigger_free post ->
    statuses self post `prefix_of` repeat (Some "idle"%string) (length post).
Proof.
  induction post as [|inp post IH]; intros self A L F.
  - apply prefix_nil.
  - rewrite statuses_cons. inversion F as [|? ? T F']; subst.
    destruct (tick self inp) as [[[self' pkt] msg]|] eqn:E;
      [|apply prefix_nil].
    destruct (advance_idle self inp T A) as (A1 & S1 & C1).
    destruct (tick_scenario_fields _ _ _ _ _ E) as (A2 & _ & _ & L2 & _).
    rewrite (tick_published _ _ _ _ _ E), S1 by (rewrite C1; exact L).
    simpl. apply prefix_cons, IH; [congruence| |exact F'].
    rewrite L2, C1. exact L.
Qed.

(** A running scenario publishes "active" while the elapsed time is below
    the duration, "complete" at the first iteration at or past it, and
    "idle" from then on. *)
Lemma statuses_running (id : Z) (sc : TestScenario) (t0 : float)
    (ic : tick_input) (post : list tick_input) (pre : list tick_input) :
  get_scenario id = Some sc ->
  forall self,
    active_scenario self = Some sc ->
    scenario_started_at self = t0 ->
    (0 < length (channels_state self))%nat ->
    Forall trigger_free (pre ++ ic :: post) ->
    Forall (fun inp => Py.ge (elapsed_at t0 inp) (duration sc) = false) pre ->
    Py.ge (elapsed_at t0 ic) (duration sc) = true ->
    statuses self (pre ++ ic :: post)
    `prefix_of` repeat (Some "active"%string) (length pre)
                ++ Some "complete"%string
                   :: repeat (Some "idle"%string) (length post).
Proof.
  intros R. induction pre as [|inp pre IH]; intros self A S0 L F B C.
  - simpl in *. rewrite statuses_cons. inversion F as [|? ? T F']; subst.
    destruct (tick self ic) as [[[self' pkt] msg]|] eqn:E;
      [|apply prefix_nil].
    destruct (proj2 (advance_running self ic id sc T R A) C)
      as (A1 & S1 & C1).
    destruct (tick_scenario_fields _ _ _ _ _ E) as (A2 & _ & _ & L2 & _).
    rewrite (tick_published _ _ _ _ _ E), S1 by (rewrite C1; exact L).
    apply prefix_cons, statuses_idle; [congruence| |exact F'].
    rewrite L2, C1. exact L.
  - simpl in F |- *. rewrite statuses_cons.
    inversion F as [|? ? T F']; subst.
    inversion B as [|? ? B0 B']; subst.
    destruct (tick self inp) as [[[self' pkt] msg]|] eqn:E;
      [|apply prefix_nil].
    destruct (proj1 (advance_running self inp id sc T R A) B0)
      as (A1 & S1 & I1 & L1).
    destruct (tick_scenario_fields _ _ _ _ _ E) as (A2 & S2 & _ & L2 & _).
    rewrite (tick_published _ _ _ _ _ E), I1 by lia.
    apply prefix_cons, IH; try assumption; try congruence. lia.
Qed.

(** The lifecycle on the iterations the loop reaches.  A valid trigger
    starts the scenario at the time of the trigger.  From then on, with no further trigger, every iteration whose elapsed
    time lies in [[0, D)] publishes "active", the first iteration with
    elapsed time [>= D] publishes "complete", once, and every later one
    publishes "idle".  The published statuses are this sequence up to the
    iteration at which [run] stops, and all of it when no iteration
    raises. *)
Theorem scenario_lifecycle (id : Z) (sc : TestScenario)
    (self : STM32Simulator) (i0 ic : tick_input)
    (pre post : list tick_input) :
  get_scenario id = Some sc ->
  trigger i0 = Some id ->
  Forall trigger_free (pre ++ ic :: post) ->
  Forall (before_end (duration sc) (t_start i0)) (i0 :: pre) ->
  at_end (duration sc) (t_start i0) ic ->
  statuses self (i0 :: pre ++ ic :: post)
  `prefix_of` lifecycle (length pre) (length post) /\
  (length (run self (i0 :: pre ++ ic :: post))
   = length (i0 :: pre ++ ic :: post) ->
   statuses self (i0 :: pre ++ ic :: post)
   = lifecycle (length pre) (length post)).
Proof.
  intros R T F B C.
  assert (B' : Forall (fun inp => Py.ge (elapsed_at (t_start i0) inp)
                                    (duration sc) = false) (i0 :: pre)).
  { eapply Forall_impl; [exact B|]. intros inp [_ H].
    apply ltb_not_ge, H. }
  assert (P : statuses self (i0 :: pre ++ ic :: post)
              `prefix_of` lifecycle (length pre) (length post)).
  { rewrite statuses_cons. inversion B' as [|? ? B0 B1]; subst.
    destruct (tick self i0) as [[[self' pkt] msg]|] eqn:E;
      [|apply prefix_nil].
    destruct (advance_triggered self i0 id sc T R B0) as (A1 & S1 & I1 & L1).
    destruct (tick_scenario_fields _ _ _ _ _ E) as (A2 & S2 & _ & L2 & _).
    rewrite (tick_published _ _ _ _ _ E), I1 by lia.
    unfold lifecycle. cbn [repeat app].
    apply prefix_cons.
    apply (statuses_running id sc (t_start i0) ic post pre R);
      try assumption; try congruence. lia. }
  split; [exact P|].
  intros Hlen. apply prefix_length_eq; [exact P|].
  unfold statuses, lifecycle. rewrite length_map, Hlen.
  rewrite length_app. cbn [length].
  rewrite !repeat_length, length_app. cbn [length]. lia.
Qed.

Lemma scenario_lifecycle_witness :
  statuses init
    (quiet_tick (Some 1) 100.0
     :: [quiet_tick None 102.5] ++ quiet_tick None 105.5
     :: [quiet_tick None 105.6])
  = [Some "active"; Some "active"; Some "complete"; Some "idle"]%string.
Proof.
  refine (proj2 (scenario_lifecycle 1 CoolingFanFailure init
                   (quiet_tick (Some 1) 100.0) (quiet_tick None 105.5)
                   [quiet_tick None 102.5] [quiet_tick None 105.6]
                   eq_refl eq_refl _ _ _) _).
  - repeat constructor.
  - repeat constructor; vm_compute; reflexivity.
  - vm_compute. reflexivity.
  - vm_compute. reflexivity.
Defined.

(** The engine-start scenario stops the producer: the iteration 1.5 s
    after the trigger raises in [_make_packet] (the starter's 155 A do not
    fit the current field), so [run] ends after the two frames before it. *)
Example engine_start_stops_the_loop :
  length (run init [quiet_tick (Some 2) 100.0; quiet_tick None 100.5;
                    quiet_tick None 101.5; quiet_tick None 101.6]) = 2%nat.
Proof. vm_compute. reflexivity. Qed.

(** C5.  The encoder raises on a sample the code itself produces.  The
    engine-start scenario sets the starter to 150.0 A at 1.0 s; on these
    eight samples [_make_packet] raises [struct.error] (150000 does not fit
    the unsigned 16-bit field: nothing is clamped or wrapped), and in the
    running loop the iteration 1.0 s after the trigger raises it out of
    [run]. *)
Theorem make_packet_raises_on_engine_start :
  get_channel_states EngineStartSequence 1.0
  = Py.Ok (channels_state cranking_sim) /\
  length (channels_state cranking_sim) = 8%nat /\
  (current <$> channels_state cranking_sim !! 7%nat) = Some 150.0%float /\
  _make_packet cranking_sim = Py.Raise Py.StructError /\
  match state_after init [quiet_tick (Some 2) 100.0] with
  | Some self => tick self (quiet_tick None 101.0) = Py.Raise Py.StructError
  | None => False
  end.
Proof.
  split; [reflexivity|]. split; [reflexivity|]. split; [reflexivity|].
  split; vm_compute; reflexivity.
Qed.

(** C6.  The lifecycle is cut short by the engine-start scenario.  The
    scenario is registered, it is triggered once at 100.0 s, the next three
    iterations have elapsed times in [[0, D)], the one after has elapsed
    time [>= D] and the last one follows it, none with a trigger: the
    statuses to publish are four times "active", then "complete", then
    "idle".  The loop publishes "active" twice and stops: the iteration
    1.5 s after the trigger raises in [_make_packet], so neither
    "complete" nor "idle" is ever published. *)
Theorem engine_start_never_completes :
  let i0 := quiet_tick (Some 2) 100.0 in
  let pre := [quiet_tick None 100.5; quiet_tick None 101.5;
              quiet_tick None 103.5] in
  let ic := quiet_tick None 105.0 in
  let post := [quiet_tick None 105.1] in
  get_scenario 2 = Some EngineStartSequence /\
  trigger i0 = Some 2 /\
  Forall trigger_free (pre ++ ic :: post) /\
  Forall (before_end (duration EngineStartSequence) (t_start i0))
    (i0 :: pre) /\
  at_end (duration EngineStartSequence) (t_start i0) ic /\
  lifecycle (length pre) (length post)
  = [Some "active"; Some "active"; Some "active"; Some "active";
     Some "complete"; Some "idle"]%string /\
  statuses init (i0 :: pre ++ ic :: post)
  = [Some "active"; Some "active"]%string.
Proof.
  cbv zeta.
  split; [reflexivity|]. split; [reflexivity|].
  split; [repeat constructor|].
  split; [repeat constructor; vm_compute; reflexivity|].
  split; [vm_compute; reflexivity|].
  split; [reflexivity|]. vm_compute. reflexivity.
Qed.

End Lifecycle.

(** ** Enable-mask enforcement *)

Section MaskEnforcement.
Import TestCases.

Lemma round_zero (n : nat) : Py.round 0.0 n = 0.0%float.
Proof. reflexivity. Qed.

(** The consumer: a disabled channel is stored with current [0.0] and the
    "on" flag off. *)
Lemma consumer_masks_disabled (pkt : list byte) (now : string)
    (w : Reader.World) (i : nat) (ch : Reader.Channel) :
  wf w ->
  fst (Reader.parse_packet pkt now w) = Py.Ok true ->
  Reader.channel_enabled w !! i = Some false ->
  Reader.channels (Reader.pdm_data (snd (Reader.parse_packet pkt now w))) !! i
  = Some ch ->
  Reader.current ch = 0.0%float /\ Reader.on (Reader.status ch) = false.
Proof.
  intros Hw Hok Hen Hch.
  destruct (valid_frame_dec pkt) as [Hv|Hn].
  2:{ destruct (invalid_frame_rejected pkt now w Hn) as [l E].
      rewrite E in Hok. discriminate. }
  destruct (parse_packet_paths pkt now w) as (_ & _ & _ & P4).
  rewrite (P4 Hv) in Hch.
  destruct (store_channels_ok pkt now w (proj1 Hv) Hw)
    as (total & chs' & ch0 & E & _ & _ & Hspec).
  rewrite E in Hch. cbn [snd Reader.pdm_data Reader.channels] in Hch.
  assert (Hi : (i < 8)%nat).
  { apply lookup_lt_Some in Hen. destruct Hw as [He _]. lia. }
  rewrite (Hspec i Hi) in Hch. unfold expected_channel in Hch.
  rewrite Hen in Hch.
  destruct (Struct.unpack_from_HHhB pkt (1 + 7 * i)) as [[[[v c] t] st]|];
    [|discriminate].
  destruct (Reader.channels (Reader.pdm_data w) !! i) as [old|];
    [|discriminate].
  injection Hch as <-. cbn. split; reflexivity.
Qed.







End MaskEnforcement.

(** ** The registered scenarios *)

Section ScenarioStates.
Import TestCases.
Local Open Scope float_scope.

Local Ltac channel_fact :=
  split;
  [ unfold off_draws_nothing; cbn;
    let K := fresh in intros K; first [discriminate K | reflexivity]
  | cbn; auto ].

Local Ltac channel_facts :=
  cbn;
  repeat match goal with
         | |- Forall _ (_ :: _) => constructor; [channel_fact|]
         end;
  constructor.

(** X1.  Whatever the elapsed time (NaN included), a registered scenario
    returns eight channel states, each with status 0, 1 or 2, and each
    with current exactly 0.0 when its "on" bit is clear. *)
Theorem registered_states_well_formed (id : Z) (sc : TestScenario)
    (t : float) :
  get_scenario id = Some sc ->
  exists states,
    get_channel_states sc t = Py.Ok states /\
    length states = 8%nat /\
    Forall (fun ch => off_draws_nothing ch /\
                      (status ch = 0 \/ status ch = 1 \/ status ch = 2)%Z)
      states.
Proof.
  intros H. destruct (get_scenario_cases _ _ H) as [-> | ->];
    eexists; (split; [reflexivity|]).
  - unfold cooling_fan_states.
    destruct (Py.ge t 2), (t <? 2.5), (t <? 3), (Py.ge t 3);
      (split; [reflexivity|channel_facts]).
  - unfold engine_start_states.
    destruct ((1 <=? t) && (t <? 3)), (Py.ge t 3);
      (split; [reflexivity|channel_facts]).
Qed.

Lemma registered_states_well_formed_witness :
  exists states,
    get_channel_states EngineStartSequence 2.0 = Py.Ok states /\
    length states = 8%nat /\
    Forall (fun ch => off_draws_nothing ch /\
                      (status ch = 0 \/ status ch = 1 \/ status ch = 2)%Z)
      states.
Proof.
  exact (registered_states_well_formed 2 EngineStartSequence 2.0 eq_refl).
Defined.

Lemma cranking_not_started (t : float) :
  cranking t = true -> Py.ge t 3.0 = false.
Proof.
  unfold cranking. intros H. apply andb_true_iff in H.
  apply ltb_not_ge, H.
Qed.

(** X2.  The phases of the engine start exclude each other.  At every
    elapsed time all eight channels report one voltage, 13.8 - 2.5 while
    cranking and 13.8 otherwise; the starter is on exactly while cranking,
    drawing [150 + (t - 1) * 10], and draws 0.0 otherwise; ECU, fuel pump
    and ignition are on exactly from 3.0 s on. *)
Theorem engine_start_phases (t : float) :
  let states := engine_start_states t in
  Forall (fun ch => voltage ch = if cranking t then 13.8 - 2.5 else 13.8)
    states /\
  (status <$> states !! 7%nat) = Some (if cranking t then 1 else 0)%Z /\
  (current <$> states !! 7%nat)
  = Some (if cranking t then 150.0 + (t - 1.0) * 10.0 else 0.0) /\
  (forall i, (i < 3)%nat ->
     (Sim.is_on <$> states !! i) = Some (Py.ge t 3.0)).
Proof.
  cbv zeta. unfold engine_start_states. fold (cranking t).
  destruct (cranking t) eqn:C.
  - rewrite (cranking_not_started t C). cbn.
    split; [repeat constructor|]. split; [reflexivity|].
    split; [reflexivity|].
    intros [|[|[|i]]] Hi; try reflexivity; lia.
  - destruct (Py.ge t 3) eqn:G; cbn;
      (split; [repeat constructor|]); (split; [reflexivity|]);
      (split; [reflexivity|]);
      intros [|[|[|i]]] Hi; try reflexivity; lia.
Qed.

(** X3.  Until 2.0 s the fan-failure scenario reports exactly the channel
    table the simulator starts with: triggering it changes no channel
    value before the fan disconnects. *)
Theorem cooling_fan_starts_nominal (t : float) :
  Py.ge t 2.0 = false ->
  cooling_fan_states t = Sim.channels_state Sim.init.
Proof.
  intros H. unfold cooling_fan_states. rewrite H.
  destruct (Py.ge t 3) eqn:G; [|reflexivity].
  rewrite (ge_trans t 3 2 G) in H by reflexivity. discriminate.
Qed.

Lemma cooling_fan_starts_nominal_witness :
  cooling_fan_states 1.5 = Sim.channels_state Sim.init.
Proof. exact (cooling_fan_starts_nominal 1.5 eq_refl). Defined.

Lemma get_scenario_unknown (id : Z) :
  id <> 1%Z -> id <> 2%Z -> get_scenario id = None.
Proof.
  intros H1 H2. unfold get_scenario, SCENARIOS. cbn [find fst].
  destruct (Z.eqb_spec 1 id); [congruence|].
  destruct (Z.eqb_spec 2 id); [congruence|]. reflexivity.
Qed.

(** X4.  A trigger naming a scenario id other than 1 and 2 is ignored: the
    iteration does exactly what it does with no trigger pending. *)
Theorem unknown_trigger_ignored (self : Sim.STM32Simulator)
    (inp : Sim.tick_input) (id : Z) :
  id <> 1%Z -> id <> 2%Z ->
  Sim.tick self (with_trigger inp (Some id))
  = Sim.tick self (with_trigger inp None).
Proof.
  intros H1 H2. unfold Sim.tick, with_trigger.
  cbn [Sim.trigger Sim.t_start Sim.t_update Sim.ctrl Sim.rand].
  unfold Sim._maybe_start_scenario.
  rewrite (get_scenario_unknown id H1 H2). reflexivity.
Qed.

Lemma unknown_trigger_ignored_witness :
  Sim.tick Sim.init (with_trigger (quiet_tick None 100.0) (Some 7%Z))
  = Sim.tick Sim.init (with_trigger (quiet_tick None 100.0) None).
Proof.
  apply (unknown_trigger_ignored Sim.init (quiet_tick None 100.0) 7);
    discriminate.
Defined.

End ScenarioStates.

(** ** Clamping with [max] and [min] *)

Section FloatClamp.
Local Open Scope float_scope.

Lemma SFltb_SFleb (a b : spec_float) :
  SFltb a b = true -> SFleb a b = true.
Proof.
  unfold SFltb, SFleb.
  destruct (SFcompare a b) as [[]|]; congruence.
Qed.

Lemma ltb_leb (x y : float) : (x <? y) = true -> (x <=? y) = true.
Proof. rewrite ltb_spec, leb_spec. apply SFltb_SFleb. Qed.

(** [max(lo, x)] is at least [lo], whatever [x] is (NaN included). *)
Lemma max_lower (lo x : float) :
  (lo <=? lo) = true -> (lo <=? Py.max lo x) = true.
Proof.
  intros R. unfold Py.max. destruct (lo <? x) eqn:E; [|exact R].
  apply ltb_leb, E.
Qed.

(** [max(lo, min(hi, x))] lies in [[lo, hi]], whatever [x] is. *)
Lemma clamp_range (lo hi x : float) :
  (lo <=? lo) = true -> (lo <=? hi) = true -> (hi <=? hi) = true ->
  within_range lo hi (Py.max lo (Py.min hi x)).
Proof.
  intros Rlo Hle Rhi. split; [apply max_lower, Rlo|].
  unfold Py.max, Py.min.
  destruct (x <? hi) eqn:E.
  - destruct (lo <? x); [apply ltb_leb, E|exact Hle].
  - destruct (lo <? hi); [exact Rhi|exact Hle].
Qed.

End FloatClamp.

(** ** Invariants of the simulator loop *)

Section ProducerInvariant.
Import TestCases Sim.

Lemma maybe_start_inv (self : STM32Simulator) (trig : option Z)
    (now : float) :
  sim_inv self -> sim_inv (_maybe_start_scenario self trig now).
Proof.
  intros [L R]. unfold _maybe_start_scenario.
  destruct trig as [id|]; [|split; assumption].
  destruct (get_scenario id) as [sc|] eqn:G; [|split; assumption].
  split; [exact L|]. exact (ex_intro _ id G).
Qed.

Lemma update_scenario_inv (self : STM32Simulator) (now : float) :
  sim_inv self -> sim_inv (_update_scenario_state self now).
Proof.
  intros [L R]. unfold _update_scenario_state. unfold registered in R.
  destruct (active_scenario self) as [sc|] eqn:A.
  - destruct R as [id G]. destruct (Py.ge _ _).
    + split; [exact L|exact I].
    + destruct (registered_states id sc
                  (now - scenario_started_at self)%float G)
        as (st & -> & Ls).
      split; [exact Ls|]. exact (ex_intro _ id G).
  - split; [exact L|]. unfold registered, set_info. cbn. rewrite A.
    exact I.
Qed.

Lemma advance_inv (self : STM32Simulator) (inp : tick_input) :
  sim_inv self -> sim_inv (advance self inp).
Proof.
  intros H. unfold advance. apply update_scenario_inv, maybe_start_inv, H.
Qed.

(** The parts of an iteration that completed. *)
Lemma tick_steps (self self' : STM32Simulator) (inp : tick_input)
    (pkt : list byte) (msg : option StatusMessage) :
  tick self inp = Py.Ok (self', pkt, msg) ->
  _update_sensors (_apply_channel_controls (advance self inp) (ctrl inp))
    (rand inp) = Py.Ok self' /\
  _make_packet self' = Py.Ok pkt /\
  msg = _write_status_file self'.
Proof.
  unfold tick. fold (advance self inp).
  destruct (_update_sensors _ (rand inp)) as [s4|]; [|discriminate].
  cbn. destruct (_make_packet s4) as [p|] eqn:M; [|discriminate].
  cbn. intros [= <- <- <-]. repeat split. exact M.
Qed.

Lemma tick_inv (self self' : STM32Simulator) (inp : tick_input)
    (pkt : list byte) (msg : option StatusMessage) :
  sim_inv self ->
  tick self inp = Py.Ok (self', pkt, msg) ->
  sim_inv self' /\ well_formed_output (pkt, msg).
Proof.
  intros Hinv E. destruct (advance_inv self inp Hinv) as [L R].
  destruct (tick_steps _ _ _ _ _ E) as (U & M & ->).
  destruct (apply_channel_controls_frame (advance self inp) (ctrl inp))
    as (A & _ & _ & _ & D).
  destruct (update_sensors_frame _ _ _ U) as (A' & _ & _ & D').
  assert (L' : length (channels_state self') = 8%nat) by congruence.
  split; [split; [exact L'|]|split].
  - unfold registered in *. rewrite A', A. exact R.
  - exact (make_packet_valid_frame self' pkt L' M).
  - cbn [snd]. unfold _write_status_file.
    destruct (channels_state self') as [|ch0 chs]; [discriminate|].
    cbn. eauto.
Qed.

Lemma sim_inv_init : sim_inv init.
Proof. split; [reflexivity|exact I]. Qed.

(** X5.  From a state with eight channels whose active scenario (if any)
    is a registered one, every iteration that completes emits a 58-byte
    frame with the sync byte and a matching XOR trailer, and publishes a
    status document; so does every iteration of a run, up to the first
    exception. *)
Theorem run_emits_valid_frames (inputs : list tick_input) :
  forall self : STM32Simulator,
    sim_inv self -> Forall well_formed_output (run self inputs).
Proof.
  induction inputs as [|inp inputs IH]; intros self Hinv; cbn [run].
  - constructor.
  - destruct (tick self inp) as [[[self' pkt] msg]|e] eqn:E;
      [|constructor].
    destruct (tick_inv _ _ _ _ _ Hinv E) as [Hinv' Hout].
    constructor; [exact Hout|apply IH, Hinv'].
Qed.

Lemma run_emits_valid_frames_witness :
  Forall well_formed_output
    (run init [quiet_tick (Some 1%Z) 100.0; quiet_tick None 103.5]).
Proof.
  exact (run_emits_valid_frames
           [quiet_tick (Some 1%Z) 100.0; quiet_tick None 103.5]
           init sim_inv_init).
Defined.

Lemma advance_status (self : STM32Simulator) (inp : tick_input) :
  let s := advance self inp in
  (info_status (scenario_info s) = "active"%string
   <-> is_Some (active_scenario s)) /\
  known_status (info_status (scenario_info s)).
Proof.
  cbv zeta. unfold advance, known_status.
  set (s1 := _maybe_start_scenario _ _ _). unfold _update_scenario_state.
  destruct (active_scenario s1) as [sc|] eqn:A.
  - destruct (Py.ge _ _); [|destruct (get_channel_states sc _)];
      cbn [scenario_info info_status active_scenario];
      (split; [split; [try discriminate; eauto
                      |try (intros [? [=]]); reflexivity]
              |auto]).
  - unfold set_info. cbn [scenario_info info_status active_scenario].
    rewrite A. split; [split; [discriminate|intros [? [=]]]|auto].
Qed.

(** X6.  After every iteration that completes, the status string is one
    of "idle", "active" and "complete", and it is "active" exactly when a
    scenario is still attached to the simulator. *)
Theorem status_tracks_active_scenario (self self' : STM32Simulator)
    (inp : tick_input) (pkt : list byte) (msg : option StatusMessage) :
  tick self inp = Py.Ok (self', pkt, msg) ->
  (info_status (scenario_info self') = "active"%string
   <-> is_Some (active_scenario self')) /\
  known_status (info_status (scenario_info self')).
Proof.
  intros E.
  destruct (tick_scenario_fields _ _ _ _ _ E) as (A & _ & I & _ & _).
  rewrite A, I. apply advance_status.
Qed.

Lemma status_tracks_active_scenario_witness :
  exists self' pkt msg,
    tick init (quiet_tick (Some 1%Z) 100.0) = Py.Ok (self', pkt, msg) /\
    (info_status (scenario_info self') = "active"%string
     <-> is_Some (active_scenario self')) /\
    known_status (info_status (scenario_info self')).
Proof.
  destruct (tick init (quiet_tick (Some 1%Z) 100.0))
    as [[[self' pkt] msg]|e] eqn:E.
  - exists self', pkt, msg. split; [reflexivity|].
    exact (status_tracks_active_scenario _ _ _ _ _ E).
  - vm_compute in E. discriminate E.
Defined.

Lemma malformed_not_usable :
  ~ usable_controls
      (CtrlJson (JDict [("channels"%string, JList [JBool false])])).
Proof.
  intros (kv & mask & [= <-] & G & L). vm_compute in G.
  injection G as <-. discriminate L.
Qed.

(** X7.  A control file that is absent, unreadable, not a JSON object, or
    whose ["channels"] entry is not a list of exactly 8 leaves the
    simulator as it was. *)
Theorem malformed_controls_ignored (self : STM32Simulator)
    (f : ctrl_file) :
  ~ usable_controls f -> _apply_channel_controls self f = self.
Proof.
  intros H. unfold _apply_channel_controls.
  destruct f as [| |[]]; try reflexivity.
  destruct (dict_get kv "channels") as [| | | | |mask|] eqn:G;
    try reflexivity.
  destruct (Nat.eqb_spec (length mask) 8) as [L|L]; [|reflexivity].
  exfalso. apply H. exists kv, mask. auto.
Qed.

Lemma malformed_controls_ignored_witness :
  _apply_channel_controls init
    (CtrlJson (JDict [("channels"%string, JList [JBool false])]))
  = init.
Proof.
  exact (malformed_controls_ignored init _ malformed_not_usable).
Defined.

End ProducerInvariant.

(** ** The ambient sensor loop *)

Section SensorLoop.
Import TestCases Sim.

Variable R : nat -> ChannelState -> ChannelState -> Prop.
Variable v : float.
Variable rand : nat -> float.

Hypothesis step_R :
  forall states k i ch states' k',
    sensor_step v rand states k i ch = Py.Ok (states', k') ->
    exists ch', states' = <[i := ch']> states /\ R i ch ch'.

(** Over distinct valid indices the loop leaves the channels outside the
    indices alone and relates each channel at one of them to the record it
    held before. *)
Lemma sensor_loop_relates (idx : list nat) :
  forall states k states',
    sensor_loop v rand states k idx = Py.Ok states' ->
    NoDup idx ->
    Forall (fun j => (j < length states)%nat) idx ->
    forall i,
      (i ∉ idx -> states' !! i = states !! i) /\
      (i ∈ idx -> forall c, states !! i = Some c ->
         exists c', states' !! i = Some c' /\ R i c c').
Proof.
  induction idx as [|j idx IH]; intros states k states' E ND F i.
  - simpl in E. injection E as <-. split; [reflexivity|].
    intros Hin. inversion Hin.
  - simpl in E. inversion ND as [|? ? Hj ND']; subst.
    inversion F as [|? ? Lj F']; subst.
    destruct (lookup_lt_is_Some_2 states j Lj) as [chj Ej].
    rewrite Ej in E.
    destruct (sensor_step v rand states k j chj) as [[st1 k1]|] eqn:S1;
      [|discriminate].
    cbn in E.
    destruct (step_R _ _ _ _ _ _ S1) as (chs & -> & Rj).
    assert (F1 : Forall (fun j0 => (j0 < length (<[j:=chs]> states))%nat) idx).
    { eapply Forall_impl; [exact F'|]. intros x Hx.
      rewrite length_insert. exact Hx. }
    destruct (IH _ _ _ E ND' F1 i) as [Hout Hin].
    split.
    + intros Hni. apply not_elem_of_cons in Hni. destruct Hni as [Hne Hni].
      rewrite (Hout Hni). apply list_lookup_insert_ne. congruence.
    + intros Hi c Hc. apply elem_of_cons in Hi.
      destruct Hi as [->|Hi].
      * rewrite Ej in Hc. injection Hc as ->.
        destruct (IH _ _ _ E ND' F1 j) as [Hout' _].
        rewrite (Hout' Hj), list_lookup_insert_eq by exact Lj.
        eauto.
      * assert (i <> j) by (intros ->; contradiction).
        apply Hin; [exact Hi|].
        rewrite list_lookup_insert_ne by congruence. exact Hc.
Qed.

End SensorLoop.

Section Ambient.
Import TestCases Sim.
Local Open Scope float_scope.

Lemma sensor_step_sensed v rand states k i ch states' k' :
  sensor_step v rand states k i ch = Py.Ok (states', k') ->
  exists ch', states' = <[i := ch']> states /\ sensed i ch ch'.
Proof.
  unfold sensor_step. destruct (is_on ch) eqn:On.
  - destruct (Nat.eqb_spec i 7) as [I7|I7].
    + cbn. destruct (Nat.eqb_spec i 3) as [I3|I3]; [lia|].
      intros [= <- <-]. eexists. split; [reflexivity|].
      split; [apply clamp_range; reflexivity|].
      split; [congruence|]. split; [intros _ N; contradiction|].
      reflexivity.
    + destruct (Py.getitem _ i) as [base|]; [|discriminate]. cbn.
      destruct (Nat.eqb_spec i 3) as [I3|I3]; intros [= <- <-].
      * rewrite list_insert_insert_eq. eexists. split; [reflexivity|].
        repeat match goal with
          | |- context [if ?b then _ else _] =>
              match b with
              | andb _ _ => destruct b
              end
          end;
          (split; [apply clamp_range; reflexivity|]);
          (split; [congruence|]);
          (split; [intros _ _; apply max_lower; reflexivity|]);
          intros N; contradiction.
      * eexists. split; [reflexivity|].
        split; [apply clamp_range; reflexivity|].
        split; [congruence|].
        split; [intros _ _; apply max_lower; reflexivity|]. reflexivity.
  - cbn. destruct (Nat.eqb_spec i 3) as [I3|I3]; intros [= <- <-].
    + rewrite list_insert_insert_eq. eexists. split; [reflexivity|].
      repeat match goal with
        | |- context [if ?b then _ else _] =>
            match b with
            | andb _ _ => destruct b
            end
        end;
        (split; [apply clamp_range; reflexivity|]);
        (split; [reflexivity|]);
        (split; [congruence|]);
        intros N; contradiction.
    + eexists. split; [reflexivity|].
      split; [apply clamp_range; reflexivity|].
      split; [reflexivity|]. split; [congruence|]. reflexivity.
Qed.

(** What the ambient branch of [_update_sensors] leaves behind. *)
Lemma update_sensors_ambient (self self' : STM32Simulator) rand :
  _update_sensors self rand = Py.Ok self' ->
  active_scenario self = None ->
  within_range 12.5 14.5 (sim_voltage self') /\
  forall i ch', channels_state self' !! i = Some ch' ->
    exists ch, channels_state self !! i = Some ch /\ sensed i ch ch'.
Proof.
  unfold _update_sensors. intros E A. rewrite A in E.
  destruct (sensor_loop _ rand (channels_state self) 1 _) as [st|] eqn:L;
    [|discriminate].
  cbn in E. injection E as <-. cbn [sim_voltage channels_state].
  split; [apply clamp_range; reflexivity|].
  intros i ch' Hi.
  pose proof (sensor_loop_length _ _ _ _ _ _ L) as Len.
  assert (Hlt : (i < length (channels_state self))%nat).
  { rewrite <- Len. apply lookup_lt_Some in Hi. exact Hi. }
  destruct (lookup_lt_is_Some_2 (channels_state self) i Hlt) as [c Hc].
  destruct (sensor_loop_relates sensed _ rand
              (sensor_step_sensed _ rand) _ _ _ _ L
              (NoDup_seq 0 _)) with (i := i) as [_ Hin].
  { apply Forall_forall. intros j Hj. apply elem_of_seq in Hj. lia. }
  destruct (Hin ltac:(apply elem_of_seq; lia) c Hc) as (c' & Ec' & S).
  exists c. split; [exact Hc|]. congruence.
Qed.

(** An iteration that ends without a scenario ran the ambient loop on the
    state the control file left. *)
Lemma ambient_tick (self self' : STM32Simulator) (inp : tick_input)
    (pkt : list byte) (msg : option StatusMessage) :
  tick self inp = Py.Ok (self', pkt, msg) ->
  active_scenario self' = None ->
  within_range 12.5 14.5 (sim_voltage self') /\
  forall i ch', channels_state self' !! i = Some ch' ->
    exists ch, sensed i ch ch'.
Proof.
  intros E A. destruct (tick_steps _ _ _ _ _ E) as (U & _ & _).
  destruct (update_sensors_frame _ _ _ U) as (A' & _).
  rewrite A in A'. symmetry in A'.
  destruct (update_sensors_ambient _ _ _ U A') as [V C].
  split; [exact V|]. intros i ch' Hi.
  destruct (C i ch' Hi) as (ch & _ & S). eauto.
Qed.

(** X8.  After an iteration that ends without an active scenario, the
    system voltage lies in [12.5, 14.5] and every channel temperature in
    [20.0, 100.0], whatever the random draws and the values before were
    (NaN and infinities included). *)
Theorem ambient_values_clamped (self self' : STM32Simulator)
    (inp : tick_input) (pkt : list byte) (msg : option StatusMessage) :
  tick self inp = Py.Ok (self', pkt, msg) ->
  active_scenario self' = None ->
  within_range 12.5 14.5 (sim_voltage self') /\
  Forall (fun ch => within_range 20.0 100.0 (temp ch))
    (channels_state self').
Proof.
  intros E A. destruct (ambient_tick _ _ _ _ _ E A) as [V C].
  split; [exact V|]. apply Forall_lookup. intros i ch' Hi.
  destruct (C i ch' Hi) as (ch & S & _). exact S.
Qed.

Lemma ambient_values_clamped_witness :
  exists self' pkt msg,
    tick init (quiet_tick None 100.0) = Py.Ok (self', pkt, msg) /\
    within_range 12.5 14.5 (sim_voltage self') /\
    Forall (fun ch => within_range 20.0 100.0 (temp ch))
      (channels_state self').
Proof.
  destruct (tick init (quiet_tick None 100.0))
    as [[[self' pkt] msg]|e] eqn:E.
  - exists self', pkt, msg. split; [reflexivity|].
    apply (ambient_values_clamped _ _ _ _ _ E).
    rewrite (proj1 (tick_scenario_fields _ _ _ _ _ E)). reflexivity.
  - vm_compute in E. discriminate E.
Defined.

(** X9.  After an iteration that ends without an active scenario, every
    channel other than the fan draws exactly 0.0 A when its "on" bit is
    clear, and at least 0.5 A when the bit is set and the channel is not
    the starter. *)
Theorem ambient_current_follows_switch (self self' : STM32Simulator)
    (inp : tick_input) (pkt : list byte) (msg : option StatusMessage)
    (i : nat) (ch : ChannelState) :
  tick self inp = Py.Ok (self', pkt, msg) ->
  active_scenario self' = None ->
  channels_state self' !! i = Some ch ->
  i <> 3%nat ->
  (is_on ch = false -> current ch = 0.0) /\
  (is_on ch = true -> i <> 7%nat -> (0.5 <=? current ch) = true).
Proof.
  intros E A Hi I3. destruct (ambient_tick _ _ _ _ _ E A) as [_ C].
  destruct (C i ch Hi) as (c & _ & Off & On & St).
  assert (Eon : is_on ch = is_on c).
  { unfold is_on. rewrite (St I3). reflexivity. }
  rewrite Eon. split; assumption.
Qed.

Lemma ambient_current_follows_switch_witness :
  exists self' pkt msg ch,
    tick init (quiet_tick None 100.0) = Py.Ok (self', pkt, msg) /\
    channels_state self' !! 7%nat = Some ch /\
    (is_on ch = false -> current ch = 0.0) /\
    (is_on ch = true -> 7%nat <> 7%nat -> (0.5 <=? current ch) = true).
Proof.
  destruct (tick init (quiet_tick None 100.0))
    as [[[self' pkt] msg]|e] eqn:E.
  - pose proof (tick_scenario_fields _ _ _ _ _ E) as (A & _ & _ & L & _).
    destruct (lookup_lt_is_Some_2 (channels_state self') 7) as [ch Hch].
    { rewrite L. vm_compute. lia. }
    exists self', pkt, msg, ch. split; [reflexivity|].
    split; [exact Hch|].
    apply (ambient_current_follows_switch _ _ _ _ _ 7 ch E);
      [rewrite A; reflexivity|exact Hch|discriminate].
  - vm_compute in E. discriminate E.
Defined.

End Ambient.

(** ** The checksum under corruption *)

Section Corruption.
Import Reader.

Lemma xor_fold_acc (l : list byte) :
  forall acc,
    fold_left (fun c b => Z.lxor c (Struct.Z_of_byte b)) l acc
    = Z.lxor acc (xor_bytes l).
Proof.
  unfold xor_bytes. induction l as [|a l IH]; intros acc; cbn [fold_left].
  - rewrite Z.lxor_0_r. reflexivity.
  - rewrite (IH (Z.lxor acc _)), (IH (Z.lxor 0 _)), Z.lxor_0_l,
      Z.lxor_assoc. reflexivity.
Qed.

Lemma xor_bytes_middle (l1 l2 : list byte) (x : byte) :
  xor_bytes (l1 ++ x :: l2)
  = Z.lxor (xor_bytes l1) (Z.lxor (Struct.Z_of_byte x) (xor_bytes l2)).
Proof.
  unfold xor_bytes at 1. rewrite fold_left_app. cbn [fold_left].
  rewrite xor_fold_acc. fold (xor_bytes l1). rewrite Z.lxor_assoc.
  reflexivity.
Qed.

(** Replacing one byte by a different one changes the running XOR. *)
Lemma xor_bytes_insert_neq (l : list byte) (i : nat) (x y : byte) :
  l !! i = Some y -> x <> y -> xor_bytes (<[i := x]> l) <> xor_bytes l.
Proof.
  intros Hy Hne E.
  rewrite insert_take_drop in E by (apply lookup_lt_Some in Hy; exact Hy).
  rewrite <- (take_drop_middle l i y Hy) in E at 3.
  rewrite !xor_bytes_middle in E.
  set (A := xor_bytes (take i l)) in *.
  set (B := xor_bytes (drop (S i) l)) in *.
  apply Hne, Z_of_byte_inj.
  assert (C : forall v, Z.lxor A (Z.lxor (Z.lxor A (Z.lxor v B)) B) = v).
  { intros v. apply Z.bits_inj'. intros n _. rewrite !Z.lxor_spec.
    destruct (Z.testbit A n), (Z.testbit B n), (Z.testbit v n);
      reflexivity. }
  rewrite <- (C (Struct.Z_of_byte x)), E. apply C.
Qed.

Lemma corrupted_not_valid (b : list byte) (i : nat) (x y : byte) :
  valid_frame b -> b !! i = Some y -> x <> y ->
  ~ valid_frame (<[i := x]> b).
Proof.
  intros (L & H0 & t & Ht & Hx) Hy Hne (_ & H0' & t' & Ht' & Hx').
  assert (Hi : (i < 58)%nat) by (apply lookup_lt_Some in Hy; lia).
  destruct (decide (i = 0%nat)) as [->|N0].
  { rewrite list_lookup_insert_eq in H0' by lia. congruence. }
  destruct (decide (i = 57%nat)) as [->|N57].
  - rewrite list_lookup_insert_eq in Ht' by lia. injection Ht' as <-.
    rewrite take_insert_ge in Hx' by lia.
    apply Hne, Z_of_byte_inj. congruence.
  - rewrite list_lookup_insert_ne in Ht' by congruence.
    rewrite take_insert_lt in Hx' by lia.
    assert (t' = t) by congruence. subst t'.
    apply (xor_bytes_insert_neq (take 57 b) i x y); [|exact Hne|congruence].
    rewrite lookup_take_lt by lia. exact Hy.
Qed.

(** X10.  Changing any single byte of a frame that passes the three tests
    gives a frame [parse_packet] rejects: it returns [False] and leaves
    the store and the enable mask as they were. *)
Theorem single_byte_corruption_rejected (b : list byte) (i : nat)
    (x y : byte) (now : string) (w : World) :
  valid_frame b -> b !! i = Some y -> x <> y ->
  fst (parse_packet (<[i := x]> b) now w) = Py.Ok false /\
  pdm_data (snd (parse_packet (<[i := x]> b) now w)) = pdm_data w /\
  channel_enabled (snd (parse_packet (<[i := x]> b) now w))
  = channel_enabled w.
Proof.
  intros Hv Hy Hne.
  destruct (invalid_frame_rejected _ now w
              (corrupted_not_valid b i x y Hv Hy Hne)) as [lines ->].
  repeat split.
Qed.

Lemma single_byte_corruption_rejected_witness :
  fst (parse_packet (<[20%nat := "255"%byte]> nominal_frame) "t" init)
  = Py.Ok false /\
  pdm_data (snd (parse_packet (<[20%nat := "255"%byte]> nominal_frame)
                   "t" init))
  = pdm_data init /\
  channel_enabled (snd (parse_packet
                          (<[20%nat := "255"%byte]> nominal_frame) "t" init))
  = channel_enabled init.
Proof.
  refine (single_byte_corruption_rejected nominal_frame 20 "255"%byte
            "001"%byte "t" init nominal_frame_valid _ _).
  - vm_compute. reflexivity.
  - discriminate.
Defined.

End Corruption.

(** ** Invariants of the store *)

Section ConsumerInvariant.
Import Reader.

Lemma valid_frameb_spec (b : list byte) :
  valid_frameb b = true <-> valid_frame b.
Proof.
  unfold valid_frameb, valid_frame. split.
  - intros H. apply andb_true_iff in H. destruct H as [L H].
    apply Nat.eqb_eq in L.
    destruct (b !! 0%nat) as [h|]; [|discriminate].
    destruct (b !! 57%nat) as [t|]; [|discriminate].
    apply andb_true_iff in H. destruct H as [S X].
    apply sync_test in S. apply Z.eqb_eq in X. subst h. eauto.
  - intros (L & -> & t & -> & X). apply andb_true_iff.
    split; [apply Nat.eqb_eq, L|]. apply andb_true_iff.
    split; [apply sync_test; reflexivity|apply Z.eqb_eq, X].
Qed.

Lemma same_identity_refl (w : World) : same_identity w w.
Proof.
  split; [reflexivity|]. apply Forall_Forall2_diag, Forall_forall. auto.
Qed.

Lemma same_identity_sym (w1 w2 : World) :
  same_identity w1 w2 -> same_identity w2 w1.
Proof.
  intros [E F]. split; [congruence|].
  apply Forall2_flip. eapply Forall2_impl; [exact F|].
  cbn. intros a b []. split; congruence.
Qed.

Lemma decode_record_identity (fields : Z * Z * Z * Z) (enabled : bool)
    (a b : Channel) :
  id a = id b -> name a = name b ->
  decode_record fields enabled a = decode_record fields enabled b.
Proof.
  intros Hi Hn. unfold decode_record. destruct fields as [[[v c] t] st].
  destruct (negb enabled); rewrite Hi, Hn; reflexivity.
Qed.

Lemma decode_record_keeps (fields : Z * Z * Z * Z) (enabled : bool)
    (a : Channel) :
  id (decode_record fields enabled a) = id a /\
  name (decode_record fields enabled a) = name a.
Proof.
  unfold decode_record. destruct fields as [[[v c] t] st].
  destruct (negb enabled); split; reflexivity.
Qed.

(** On globals of the shape the module gives them [parse_packet] never
    raises, and it keeps that shape, the enable mask and every channel's
    [id] and [name]. *)
Lemma parse_packet_keeps_shape (b : list byte) (now : string) (w : World) :
  wf w ->
  (exists r, fst (parse_packet b now w) = Py.Ok r) /\
  wf (snd (parse_packet b now w)) /\
  same_identity w (snd (parse_packet b now w)).
Proof.
  intros Hw. destruct (valid_frame_dec b) as [Hv|Hn].
  - destruct (parse_packet_paths b now w) as (_ & _ & _ & P4).
    rewrite (P4 Hv).
    destruct (store_channels_ok b now w (proj1 Hv) Hw)
      as (total & chs' & ch0 & -> & L & _ & Hspec).
    cbn [fst snd]. destruct Hw as [He Hc].
    split; [eauto|]. split; [split; assumption|].
    split; [reflexivity|]. cbn [pdm_data channels].
    apply Forall2_same_length_lookup_2; [congruence|].
    intros i x y Hx Hy.
    assert (Hi : (i < 8)%nat) by (apply lookup_lt_Some in Hx; lia).
    rewrite (Hspec i Hi) in Hy. unfold expected_channel in Hy.
    rewrite Hx in Hy.
    destruct (Struct.unpack_from_HHhB b (1 + 7 * i)) as [fields|];
      [|discriminate].
    destruct (channel_enabled w !! i) as [en|]; [|discriminate].
    injection Hy as <-.
    destruct (decode_record_keeps fields en x). split; congruence.
  - destruct (invalid_frame_rejected b now w Hn) as [lines ->].
    cbn [fst snd]. split; [eauto|]. split; [exact Hw|].
    split; [reflexivity|]. cbn [pdm_data].
    apply Forall_Forall2_diag, Forall_forall. auto.
Qed.

(** X11.  On globals holding 8 enable flags and 8 channel records
    [parse_packet] never raises, whatever the bytes, and it keeps those
    two lengths, the enable mask, and the [id] and [name] of every
    channel. *)
Theorem parse_packet_total_and_shape_preserving (b : list byte)
    (now : string) (w : World) :
  wf w ->
  (exists r, fst (parse_packet b now w) = Py.Ok r) /\
  wf (snd (parse_packet b now w)) /\
  channel_enabled (snd (parse_packet b now w)) = channel_enabled w /\
  Forall2 (fun a a' => id a' = id a /\ name a' = name a)
    (channels (pdm_data w))
    (channels (pdm_data (snd (parse_packet b now w)))).
Proof.
  intros Hw.
  destruct (parse_packet_keeps_shape b now w Hw) as (R & W & E & F).
  split; [exact R|]. split; [exact W|]. split; [congruence|].
  eapply Forall2_impl; [exact F|]. cbn. intros a a' []. split; congruence.
Qed.

Lemma parse_packet_total_and_shape_preserving_witness :
  (exists r, fst (parse_packet corrupt_frame "t" init) = Py.Ok r) /\
  wf (snd (parse_packet corrupt_frame "t" init)) /\
  channel_enabled (snd (parse_packet corrupt_frame "t" init))
  = channel_enabled init /\
  Forall2 (fun a a' => id a' = id a /\ name a' = name a)
    (channels (pdm_data init))
    (channels (pdm_data (snd (parse_packet corrupt_frame "t" init)))).
Proof.
  exact (parse_packet_total_and_shape_preserving corrupt_frame "t" init
           wf_init).
Defined.

Lemma parse_channel_total (packet : list byte) (i offset : nat)
    (total : float) (w1 w2 : World) o1 t1 w1' o2 t2 w2' :
  channel_enabled w1 = channel_enabled w2 ->
  parse_channel packet i offset total w1 = (Py.Ok (o1, t1), w1') ->
  parse_channel packet i offset total w2 = (Py.Ok (o2, t2), w2') ->
  o1 = o2 /\ t1 = t2 /\ channel_enabled w1' = channel_enabled w2'.
Proof.
  intros He. unfold parse_channel. rewrite He.
  destruct (Struct.unpack_from_HHhB packet offset) as [[[[v c] t] st]|];
    [|discriminate].
  destruct (Py.getitem (channel_enabled w2) i) as [en|]; [|discriminate].
  destruct (negb en);
    destruct (Py.getitem (channels (pdm_data w1)) i); try discriminate;
    destruct (Py.getitem (channels (pdm_data w2)) i);
    try (intros _; discriminate);
    intros [= <- <- <-] [= <- <- <-]; auto.
Qed.

(** The current total the loop accumulates depends on the frame and the
    enable mask only. *)
Lemma parse_channels_total (packet : list byte) (idx : list nat) :
  forall offset total w1 w2 t1 t2 w1' w2',
    channel_enabled w1 = channel_enabled w2 ->
    parse_channels packet idx offset total w1 = (Py.Ok t1, w1') ->
    parse_channels packet idx offset total w2 = (Py.Ok t2, w2') ->
    t1 = t2.
Proof.
  induction idx as [|i idx IH]; intros offset total w1 w2 t1 t2 w1' w2' He;
    cbn [parse_channels].
  - intros [= <- _] [= <- _]. reflexivity.
  - destruct (parse_channel packet i offset total w1)
      as [[[o1 s1]|e1] u1] eqn:P1; [|discriminate].
    destruct (parse_channel packet i offset total w2)
      as [[[o2 s2]|e2] u2] eqn:P2; [|intros _; discriminate].
    destruct (parse_channel_total _ _ _ _ _ _ _ _ _ _ _ _ He P1 P2)
      as (-> & -> & He').
    apply IH, He'.
Qed.

(** The store a valid frame leaves depends on the frame, the time of the
    call, the enable mask and the channels' [id] and [name] only. *)
Lemma store_determined_by_frame (b : list byte) (now : string)
    (w1 w2 : World) :
  wf w1 -> wf w2 -> same_identity w1 w2 -> valid_frame b ->
  pdm_data (snd (parse_packet b now w1))
  = pdm_data (snd (parse_packet b now w2)).
Proof.
  intros Hw1 Hw2 [He Hid] Hv.
  destruct (parse_packet_paths b now w1) as (_ & _ & _ & P1).
  destruct (parse_packet_paths b now w2) as (_ & _ & _ & P2).
  rewrite (P1 Hv), (P2 Hv). unfold store_channels.
  destruct (parse_channels_spec b (proj1 Hv) 8 0 0.0%float w1)
    as (t1 & chs1 & E1 & L1 & S1); [lia|exact Hw1|].
  destruct (parse_channels_spec b (proj1 Hv) 8 0 0.0%float w2)
    as (t2 & chs2 & E2 & L2 & S2); [lia|exact Hw2|].
  change (1 + 7 * 0)%nat with 1%nat in E1, E2.
  pose proof (parse_channels_total _ _ _ _ _ _ _ _ _ _ He E1 E2) as ->.
  rewrite E1, E2. cbn [with_channels pdm_data channels].
  assert (C : chs1 = chs2).
  { apply list_eq. intros i. rewrite S1, S2.
    destruct ((0 <=? i) && (i <? 0 + 8))%nat eqn:B.
    - unfold expected_channel. rewrite He.
      destruct (Struct.unpack_from_HHhB b (1 + 7 * i)) as [fields|];
        [|reflexivity].
      destruct (channel_enabled w2 !! i) as [en|]; [|reflexivity].
      destruct (channels (pdm_data w1) !! i) as [a1|] eqn:A1.
      + destruct (Forall2_lookup_l _ _ _ _ _ Hid A1) as (a2 & -> & I & N).
        f_equal. apply decode_record_identity; assumption.
      + destruct (channels (pdm_data w2) !! i) as [a2|] eqn:A2;
          [|reflexivity].
        destruct (Forall2_lookup_r _ _ _ _ _ Hid A2) as (a1 & A1' & _).
        congruence.
    - apply andb_false_iff in B. destruct B as [B|B];
        [apply Nat.leb_gt in B; lia|apply Nat.ltb_ge in B].
      destruct Hw1 as [_ C1], Hw2 as [_ C2].
      rewrite !lookup_ge_None_2 by lia. reflexivity. }
  subst chs2. unfold Py.getitem.
  destruct (lookup_lt_is_Some_2 chs1 0) as [c0 ->]; [lia|]. reflexivity.
Qed.

(** X12.  The last valid frame wins: the store a valid frame leaves is the
    same whether or not another frame, valid or not, was parsed before
    it. *)
Theorem last_frame_wins (b1 b2 : list byte) (now1 now2 : string)
    (w : World) :
  wf w -> valid_frame b2 ->
  pdm_data (snd (parse_packet b2 now2 (snd (parse_packet b1 now1 w))))
  = pdm_data (snd (parse_packet b2 now2 w)).
Proof.
  intros Hw Hv.
  destruct (parse_packet_keeps_shape b1 now1 w Hw) as (_ & W & I).
  apply store_determined_by_frame;
    [exact W|exact Hw|apply same_identity_sym, I|exact Hv].
Qed.

Lemma last_frame_wins_witness :
  pdm_data (snd (parse_packet nominal_frame "t2"
                   (snd (parse_packet offgrid_frame "t1" init))))
  = pdm_data (snd (parse_packet nominal_frame "t2" init)).
Proof.
  exact (last_frame_wins offgrid_frame nominal_frame "t1" "t2" init
           wf_init nominal_frame_valid).
Defined.

End ConsumerInvariant.

(** ** The read loop *)

Section ReadLoop.
Import Reader.

Lemma accepted_iff_valid (b : list byte) (now : string) (w : World) :
  wf w ->
  fst (parse_packet b now w) = Py.Ok (valid_frameb b) /\
  (valid_frameb b = false ->
   pdm_data (snd (parse_packet b now w)) = pdm_data w).
Proof.
  intros Hw. destruct (valid_frameb b) eqn:V.
  - apply valid_frameb_spec in V.
    destruct (parse_packet_paths b now w) as (_ & _ & _ & P4).
    rewrite (P4 V).
    destruct (store_channels_ok b now w (proj1 V) Hw)
      as (total & chs' & ch0 & -> & _).
    split; [reflexivity|discriminate].
  - assert (Hn : ~ valid_frame b).
    { intros Hv. apply valid_frameb_spec in Hv. congruence. }
    destruct (invalid_frame_rejected b now w Hn) as [lines ->].
    split; reflexivity.
Qed.

(** One iteration of the loop on well-shaped globals. *)
Lemma read_iteration_spec (b : list byte) (now : string) (c : Z)
    (w : World) :
  wf w ->
  exists w1,
    Server.read_iteration b now c w
    = (Py.Ok (if valid_frameb b then c + 1 else c), w1) /\
    wf w1 /\ same_identity w w1 /\
    pdm_data w1 = if valid_frameb b
                  then pdm_data (snd (parse_packet b now w))
                  else pdm_data w.
Proof.
  intros Hw. unfold Server.read_iteration.
  destruct (Nat.eqb_spec (length b) 58) as [L|L].
  - destruct (parse_packet_keeps_shape b now w Hw) as (_ & W & I).
    destruct (accepted_iff_valid b now w Hw) as [A P].
    destruct (parse_packet b now w) as [r w1]. cbn [fst snd] in *.
    subst r. destruct (valid_frameb b).
    + destruct (_ =? 0); eexists; (split; [reflexivity|]);
        (split; [exact W|]); (split; [exact I|]); reflexivity.
    + eexists. split; [reflexivity|]. split; [exact W|].
      split; [exact I|]. exact (P eq_refl).
  - assert (V : valid_frameb b = false).
    { unfold valid_frameb. apply Nat.eqb_neq in L. rewrite L.
      reflexivity. }
    rewrite V. exists w. split; [reflexivity|]. split; [exact Hw|].
    split; [apply same_identity_refl|reflexivity].
Qed.

Lemma last_valid_read (reads : list (list byte * string)) (b : list byte)
    (now : string) :
  last (valid_reads reads) = Some (b, now) -> valid_frame b.
Proof.
  intros H. apply last_Some in H. destruct H as [l' E].
  assert (I : In (b, now) (valid_reads reads)).
  { rewrite E. apply in_or_app. right. left. reflexivity. }
  apply filter_In in I. apply valid_frameb_spec, I.
Qed.

(** What the reads leave in the store does not depend on what the store
    held, among globals of the same shape, mask and channel names. *)
Lemma store_after_reads_indep (reads : list (list byte * string))
    (w1 w2 : World) :
  wf w1 -> wf w2 -> same_identity w1 w2 ->
  (last (valid_reads reads) = None -> pdm_data w1 = pdm_data w2) ->
  store_after_reads reads w1 = store_after_reads reads w2.
Proof.
  intros W1 W2 I N. unfold store_after_reads.
  destruct (last (valid_reads reads)) as [[b now]|] eqn:E; [|auto].
  apply store_determined_by_frame; try assumption.
  exact (last_valid_read reads b now E).
Qed.

Lemma read_frames_spec (reads : list (list byte * string)) :
  forall (c : Z) (w : World),
    wf w ->
    exists w',
      Server.read_frames reads c w
      = (Py.Ok (c + Z.of_nat (length (valid_reads reads))), w') /\
      wf w' /\ same_identity w w' /\
      pdm_data w' = store_after_reads reads w.
Proof.
  induction reads as [|[b now] reads IH]; intros c w Hw.
  - exists w. cbn. rewrite Z.add_0_r.
    split; [reflexivity|]. split; [exact Hw|].
    split; [apply same_identity_refl|reflexivity].
  - destruct (read_iteration_spec b now c w Hw)
      as (w1 & E1 & W1 & I1 & P1).
    destruct (IH (if valid_frameb b then c + 1 else c) w1 W1)
      as (w' & E' & W' & I' & P').
    assert (I : same_identity w w').
    { destruct I1 as [M1 F1], I' as [M' F']. split; [congruence|].
      apply Forall2_same_length_lookup_2.
      - rewrite (Forall2_length _ _ _ F1). exact (Forall2_length _ _ _ F').
      - intros i x z Hx Hz.
        destruct (Forall2_lookup_l _ _ _ _ _ F1 Hx) as (y & Hy & []).
        destruct (Forall2_lookup_lr _ _ _ _ _ _ F' Hy Hz).
        split; congruence. }
    cbn [Server.read_frames]. rewrite E1, E'. exists w'.
    destruct (valid_frameb b) eqn:V.
    + assert (VR : valid_reads ((b, now) :: reads)
                   = (b, now) :: valid_reads reads).
      { unfold valid_reads. cbn [List.filter fst]. rewrite V.
        reflexivity. }
      split; [rewrite VR; cbn [length]; f_equal; f_equal; lia|].
      split; [exact W'|]. split; [exact I|].
      rewrite P'. unfold store_after_reads. rewrite VR, last_cons.
      destruct (last (valid_reads reads)) as [[b' now']|] eqn:E.
      * apply store_determined_by_frame;
          [exact W1|exact Hw|apply same_identity_sym, I1|].
        exact (last_valid_read reads b' now' E).
      * exact P1.
    + assert (VR : valid_reads ((b, now) :: reads) = valid_reads reads).
      { unfold valid_reads. cbn [List.filter fst]. rewrite V.
        reflexivity. }
      split; [rewrite VR; reflexivity|].
      split; [exact W'|]. split; [exact I|].
      rewrite P'.
      transitivity (store_after_reads reads w).
      * apply store_after_reads_indep;
          [exact W1|exact Hw|apply same_identity_sym, I1|].
        intros _. exact P1.
      * unfold store_after_reads. rewrite VR. reflexivity.
Qed.

(** X13.  On globals holding 8 enable flags and 8 channel records the read
    loop never raises, whatever the port delivers; its packet count is the
    number of reads that carry a valid frame (short reads and rejected
    frames do not count); the enable mask is untouched; and the store is
    what one call of [parse_packet] on the last valid frame leaves, or
    the store as it was when no read carried one. *)
Theorem read_loop_counts_valid_frames (reads : list (list byte * string))
    (w : World) :
  wf w ->
  exists w',
    Server.read_loop reads w
    = (Py.Ok (Z.of_nat (length (valid_reads reads))), w') /\
    channel_enabled w' = channel_enabled w /\
    pdm_data w' = store_after_reads reads w.
Proof.
  intros Hw. unfold Server.read_loop.
  destruct (read_frames_spec reads 0 w Hw) as (w' & E & _ & [M _] & P).
  exists w'. rewrite E. split; [reflexivity|]. split; [congruence|exact P].
Qed.

Lemma read_loop_counts_valid_frames_witness :
  exists w',
    Server.read_loop
      [(nominal_frame, "t1"%string); (corrupt_frame, "t2"%string);
       ([], "t3"%string)] init
    = (Py.Ok (Z.of_nat
                (length (valid_reads
                           [(nominal_frame, "t1"%string);
                            (corrupt_frame, "t2"%string);
                            ([], "t3"%string)]))), w') /\
    channel_enabled w' = channel_enabled init /\
    pdm_data w'
    = store_after_reads
        [(nominal_frame, "t1"%string); (corrupt_frame, "t2"%string);
         ([], "t3"%string)] init.
Proof.
  exact (read_loop_counts_valid_frames
           [(nominal_frame, "t1"%string); (corrupt_frame, "t2"%string);
            ([], "t3"%string)] init wf_init).
Defined.

End ReadLoop.

(** ** The REST handlers *)

Section Handlers.
Import Reader.

Variable int_of_str : string -> option Z.

(** What a [set_channel] call with a valid id and a JSON object does. *)
Lemma set_channel_effect (mock : bool) (cid : Z)
    (kv : list (string * Sim.json)) (now : string) (s : Server.State) :
  wf (Server.globals s) -> 0 <= cid < 8 ->
  let i := Z.to_nat cid in
  let enabled := Sim.truthy (Sim.dict_get kv "enabled") in
  let w := Server.globals s in
  let mask := <[i := enabled]> (channel_enabled w) in
  exists ch,
    channels (pdm_data w) !! i = Some ch /\
    Server.set_channel mock cid (Some (Sim.JDict kv)) now s
    = (Server.SetJson cid enabled (enabled && (0 <? current ch)%float),
       Server.mkServer
         (mkWorld
            (mkPdm (timestamp (pdm_data w)) (system_voltage (pdm_data w))
               (total_current (pdm_data w))
               (<[i := switched enabled ch]> (channels (pdm_data w))))
            mask (stdout w))
         (Server.mock_current_scenario s)
         (Server.mock_scenario_started_at s)
         (Server.mock_scenario_status s)
         (if mock then Server.CTRL_FILE s
          else Sim.CtrlJson (Server.control_document now mask))
         (Server.TRIGGER_FILE s)).
Proof.
  intros [He Hc] Hr. cbv zeta. unfold Server.set_channel.
  replace ((0 <=? cid) && (cid <? 8)) with true
    by (symmetry; apply andb_true_iff; split;
        [apply Z.leb_le|apply Z.ltb_lt]; lia).
  cbn [negb].
  destruct (lookup_lt_is_Some_2 (channels (pdm_data (Server.globals s)))
              (Z.to_nat cid)) as [ch Hch]; [lia|].
  exists ch. split; [exact Hch|]. rewrite Hch.
  replace (Z.to_nat cid <? length (channel_enabled (Server.globals s)))%nat
    with true by (symmetry; apply Nat.ltb_lt; lia).
  unfold switched, Server.set_globals.
  destruct (Sim.truthy (Sim.dict_get kv "enabled")), mock; reflexivity.
Qed.

(** On well-shaped globals a [set_channel] call either leaves the state
    alone or is one of the calls above. *)
Lemma set_channel_cases (mock : bool) (cid : Z) (body : option Sim.json)
    (now : string) (s : Server.State) :
  wf (Server.globals s) ->
  snd (Server.set_channel mock cid body now s) = s \/
  exists kv, body = Some (Sim.JDict kv) /\ 0 <= cid < 8.
Proof.
  intros Hw. unfold Server.set_channel.
  destruct (Z.leb_spec 0 cid), (Z.ltb_spec cid 8); cbn [andb negb];
    try (left; reflexivity).
  destruct body as [[]|]; try (left; reflexivity).
  right. eexists. split; [reflexivity|lia].
Qed.

Lemma trigger_scenario_globals (mock : bool) (body : option Sim.json)
    (t : float) (now : string) (s : Server.State) :
  Server.globals (snd (Server.trigger_scenario int_of_str mock body t now s))
  = Server.globals s.
Proof.
  unfold Server.trigger_scenario.
  destruct body as [[]|]; try reflexivity.
  destruct (negb _); [reflexivity|].
  destruct mock; [|reflexivity].
  destruct (SimFiles.int_of_json _ _) as [n|]; [|reflexivity].
  destruct (TestCases.get_scenario n); reflexivity.
Qed.

Lemma channel_ids_ok_init : channel_ids_ok init.
Proof.
  intros i ch H.
  do 8 (destruct i as [|i];
        [vm_compute in H; injection H as <-; split; reflexivity|]).
  vm_compute in H. discriminate H.
Qed.

Lemma mask_respected_init : mask_respected init.
Proof.
  intros i ch H _.
  do 8 (destruct i as [|i]; [discriminate H|]). discriminate H.
Qed.

Lemma parse_packet_ids (b : list byte) (now : string) (w : World) :
  wf w -> channel_ids_ok w ->
  channel_ids_ok (snd (parse_packet b now w)).
Proof.
  intros Hw Hid i ch' H.
  destruct (parse_packet_keeps_shape b now w Hw) as (_ & _ & _ & F).
  destruct (Forall2_lookup_r _ _ _ _ _ F H) as (ch & Hch & I & N).
  destruct (Hid i ch Hch). split; congruence.
Qed.

Lemma parse_packet_mask (b : list byte) (now : string) (w : World) :
  wf w -> mask_respected w ->
  mask_respected (snd (parse_packet b now w)).
Proof.
  intros Hw Hm i ch He Hc.
  destruct (parse_packet_keeps_shape b now w Hw) as (_ & _ & M & _).
  rewrite <- M in He.
  destruct (accepted_iff_valid b now w Hw) as [A P].
  destruct (valid_frameb b) eqn:V.
  - destruct (consumer_masks_disabled b now w i ch Hw A He Hc). auto.
  - rewrite (P eq_refl) in Hc. exact (Hm i ch He Hc).
Qed.

(** The shape, the channel names and the mask discipline hold for the
    freshly loaded module and survive every call. *)
Lemma serve_inv (events : list event) :
  forall s : Server.State,
    wf (Server.globals s) -> channel_ids_ok (Server.globals s) ->
    mask_respected (Server.globals s) ->
    let s' := fold_left (handle int_of_str) events s in
    wf (Server.globals s') /\ channel_ids_ok (Server.globals s') /\
    mask_respected (Server.globals s').
Proof.
  induction events as [|e events IH]; intros s Hw Hid Hm; cbn [fold_left].
  { auto. }
  apply IH; destruct e as [b now|mock cid body now|mock body t now];
    cbn [handle Server.set_globals Server.globals];
    try (rewrite trigger_scenario_globals; assumption).
  - apply parse_packet_keeps_shape, Hw.
  - destruct (set_channel_cases mock cid body now s Hw)
      as [->|(kv & -> & Hr)]; [exact Hw|].
    destruct (set_channel_effect mock cid kv now s Hw Hr) as (ch & _ & ->).
    destruct Hw as [He Hc]. split; cbn; rewrite length_insert; assumption.
  - apply parse_packet_ids; assumption.
  - destruct (set_channel_cases mock cid body now s Hw)
      as [->|(kv & -> & Hr)]; [exact Hid|].
    destruct (set_channel_effect mock cid kv now s Hw Hr)
      as (ch & Hch & ->).
    intros j c. cbn [snd Server.globals pdm_data channels].
    destruct (decide (j = Z.to_nat cid)) as [->|Hne].
    + rewrite list_lookup_insert_eq
        by (apply lookup_lt_Some in Hch; exact Hch).
      intros [= <-]. exact (Hid _ _ Hch).
    + rewrite list_lookup_insert_ne by congruence. apply Hid.
  - apply parse_packet_mask; assumption.
  - destruct (set_channel_cases mock cid body now s Hw)
      as [->|(kv & -> & Hr)]; [exact Hm|].
    destruct (set_channel_effect mock cid kv now s Hw Hr)
      as (ch & Hch & ->).
    intros j c.
    cbn [snd Server.globals pdm_data channels channel_enabled].
    destruct (decide (j = Z.to_nat cid)) as [->|Hne].
    + rewrite !list_lookup_insert_eq
        by (first [apply lookup_lt_Some in Hch; exact Hch
                  |destruct Hw as [He _]; lia]).
      intros [= ->] [= <-]. split; reflexivity.
    + rewrite !list_lookup_insert_ne by congruence. apply Hm.
Qed.

Lemma serve_reachable (events : list event) :
  let s := serve int_of_str events in
  wf (Server.globals s) /\ channel_ids_ok (Server.globals s) /\
  mask_respected (Server.globals s).
Proof.
  apply serve_inv;
    [exact wf_init|exact channel_ids_ok_init|exact mask_respected_init].
Qed.

(** X14.  After any sequence of complete calls of [parse_packet],
    [set_channel] and [trigger_scenario] on the freshly loaded module,
    [get_channel] with an id from 0 to 7 does not raise and answers with
    the record that carries this id and the name the module gives it. *)
Theorem get_channel_serves_requested_channel (events : list event)
    (cid : Z) :
  0 <= cid < 8 ->
  let s := serve int_of_str events in
  exists ch,
    Server.get_channel cid s
    = Py.Ok (Server.ChannelJson
               (timestamp (pdm_data (Server.globals s))) ch) /\
    id ch = cid /\
    CHANNEL_NAMES !! Z.to_nat cid = Some (name ch).
Proof.
  intros Hr. cbv zeta.
  destruct (serve_reachable events) as ([_ Hc] & Hid & _).
  unfold Server.get_channel.
  replace ((0 <=? cid) && (cid <? 8)) with true
    by (symmetry; apply andb_true_iff; split;
        [apply Z.leb_le|apply Z.ltb_lt]; lia).
  destruct (lookup_lt_is_Some_2
              (channels (pdm_data (Server.globals (serve int_of_str events))))
              (Z.to_nat cid)) as [ch Hch]; [lia|].
  exists ch. unfold Py.getitem. rewrite Hch.
  split; [reflexivity|]. destruct (Hid _ _ Hch) as [I N].
  split; [lia|exact N].
Qed.

(** X15.  After any sequence of complete calls of [parse_packet],
    [set_channel] and [trigger_scenario] on the freshly loaded module, a
    channel whose enable flag is off is stored with its "on" flag off and
    a current of exactly 0.0. *)
Theorem disabled_channel_stored_off (events : list event) (i : nat)
    (ch : Channel) :
  let s := serve int_of_str events in
  channel_enabled (Server.globals s) !! i = Some false ->
  channels (pdm_data (Server.globals s)) !! i = Some ch ->
  on (status ch) = false /\ current ch = 0.0%float.
Proof.
  cbv zeta. destruct (serve_reachable events) as (_ & _ & Hm). apply Hm.
Qed.

End Handlers.

Section HandlerWitnesses.
Import Reader.

Lemma get_channel_serves_requested_channel_witness :
  let s := serve (fun _ => None)
             [SetChannel false 3
                (Some (Sim.JDict [("enabled"%string, Sim.JBool false)]))
                "t1";
              Parse nominal_frame "t2"] in
  exists ch,
    Server.get_channel 3 s
    = Py.Ok (Server.ChannelJson
               (timestamp (pdm_data (Server.globals s))) ch) /\
    id ch = 3 /\
    CHANNEL_NAMES !! Z.to_nat 3 = Some (name ch).
Proof.
  apply (get_channel_serves_requested_channel (fun _ => None)
           [SetChannel false 3
              (Some (Sim.JDict [("enabled"%string, Sim.JBool false)]))
              "t1";
            Parse nominal_frame "t2"] 3).
  lia.
Defined.

Lemma disabled_channel_stored_off_witness :
  let s := serve (fun _ => None)
             [SetChannel false 3
                (Some (Sim.JDict [("enabled"%string, Sim.JBool false)]))
                "t1";
              Parse nominal_frame "t2"] in
  exists ch,
    channels (pdm_data (Server.globals s)) !! 3%nat = Some ch /\
    on (status ch) = false /\ current ch = 0.0%float.
Proof.
  cbv zeta.
  destruct (channels (pdm_data (Server.globals
              (serve (fun _ => None)
                 [SetChannel false 3
                    (Some (Sim.JDict [("enabled"%string, Sim.JBool false)]))
                    "t1";
                  Parse nominal_frame "t2"]))) !! 3%nat) as [ch|] eqn:H.
  - exists ch. split; [reflexivity|].
    apply (disabled_channel_stored_off (fun _ => None)
             [SetChannel false 3
                (Some (Sim.JDict [("enabled"%string, Sim.JBool false)]))
                "t1";
              Parse nominal_frame "t2"] 3 ch);
      [vm_compute; reflexivity|exact H].
  - vm_compute in H. discriminate H.
Defined.

End HandlerWitnesses.

(** ** From the REST handlers to the simulator *)

Section HandlersToSimulator.
Import Reader.

Lemma control_document_channels (now : string) (mask : list bool) :
  Sim.dict_get
    [("timestamp"%string, Sim.JStr now);
     ("channels"%string, Sim.JList (map Sim.JBool mask))] "channels"
  = Sim.JList (map Sim.JBool mask).
Proof. reflexivity. Qed.

(** X16.  Outside mock mode a [set_channel] call with a valid id reaches
    the simulator: applying the control file it wrote forces the status
    byte of every channel to 0x01 or 0x00 as the handler's enable mask
    says, and the mask entry of the addressed channel is the truth value
    of the request's ["enabled"]. *)
Theorem set_channel_reaches_simulator (cid : Z)
    (kv : list (string * Sim.json)) (now : string) (s : Server.State)
    (self : Sim.STM32Simulator) (j : nat) (e : bool)
    (ch : TestCases.ChannelState) :
  wf (Server.globals s) -> 0 <= cid < 8 ->
  let s' := snd (Server.set_channel false cid (Some (Sim.JDict kv)) now s) in
  channel_enabled (Server.globals s') !! j = Some e ->
  Sim.channels_state self !! j = Some ch ->
  Sim.channels_state (Sim._apply_channel_controls self (Server.CTRL_FILE s'))
    !! j
  = Some (TestCases.set_status (if e then 1 else 0) ch) /\
  channel_enabled (Server.globals s') !! Z.to_nat cid
  = Some (Sim.truthy (Sim.dict_get kv "enabled")).
Proof.
  intros Hw Hr. cbv zeta.
  destruct (set_channel_effect false cid kv now s Hw Hr) as (c & _ & ->).
  cbn [snd Server.globals Server.CTRL_FILE channel_enabled].
  set (mask := <[Z.to_nat cid := _]> _).
  assert (L : length mask = 8%nat).
  { unfold mask. rewrite length_insert. exact (proj1 Hw). }
  intros He Hs. split.
  - unfold Sim._apply_channel_controls, Server.control_document.
    rewrite control_document_channels, length_map, L. cbn [Nat.eqb].
    cbn [Sim.channels_state].
    pose proof (apply_mask_at (map Sim.JBool mask) (Sim.channels_state self)
                  0 j (Sim.JBool e) ch) as K.
    cbn [Nat.add] in K. rewrite K; [destruct e; reflexivity| |exact Hs].
    rewrite list_lookup_fmap, He. reflexivity.
  - unfold mask. apply list_lookup_insert_eq. destruct Hw as [He' _]. lia.
Qed.

Lemma set_channel_reaches_simulator_witness :
  let s' := snd (Server.set_channel false 3
                   (Some (Sim.JDict [("enabled"%string, Sim.JBool false)]))
                   "t" Server.init) in
  Sim.channels_state (Sim._apply_channel_controls Sim.init
                        (Server.CTRL_FILE s')) !! 3%nat
  = Some (TestCases.set_status 0
            (TestCases.mkState 13.7 8.0 35.0 1)) /\
  channel_enabled (Server.globals s') !! Z.to_nat 3 = Some false.
Proof.
  refine (set_channel_reaches_simulator 3
            [("enabled"%string, Sim.JBool false)] "t" Server.init Sim.init
            3 false (TestCases.mkState 13.7 8.0 35.0 1) wf_init _ _ _).
  - lia.
  - vm_compute. reflexivity.
  - vm_compute. reflexivity.
Defined.

(** A JSON number equal to 1 or 2 converts to that integer. *)
Lemma float_eq_finite (f c : float) (s : bool) (m : positive) (e : Z) :
  Prim2SF c = S754_finite s m e ->
  (f =? c)%float = true ->
  Prim2SF f = S754_finite s m e.
Proof.
  intros Hc. rewrite FloatAxioms.eqb_spec, Hc. unfold SFeqb, SFcompare.
  destruct (Prim2SF f) as [s'|s'| |s' m' e']; try discriminate.
  - destruct s; discriminate.
  - destruct s', s; try discriminate.
  - destruct s', s; try discriminate;
      destruct (Z.compare_spec e' e); try discriminate; subst;
      change (Pos.compare_cont Eq ?x ?y) with (Pos.compare x y);
      destruct (Pos.compare_spec m' m); try discriminate; subst;
      reflexivity.
Qed.

Lemma eq_int_value (int_of_str : string -> option Z) (v : Sim.json)
    (n : Z) :
  n = 1 \/ n = 2 ->
  Server.eq_int v n = true ->
  SimFiles.int_of_json int_of_str v = Some n.
Proof.
  intros Hn. destruct v as [|b|z|f|str|l|kv]; cbn; try discriminate.
  - intros H. apply Z.eqb_eq in H. congruence.
  - intros H. apply Z.eqb_eq in H. congruence.
  - intros H. unfold Py.int_of_float.
    destruct Hn as [-> | ->].
    + assert (C : Prim2SF (Py.float_of_int 1)
                  = S754_finite false 4503599627370496 (-52))
        by (vm_compute; reflexivity).
      rewrite (float_eq_finite f _ _ _ _ C H). reflexivity.
    + assert (C : Prim2SF (Py.float_of_int 2)
                  = S754_finite false 4503599627370496 (-51))
        by (vm_compute; reflexivity).
      rewrite (float_eq_finite f _ _ _ _ C H). reflexivity.
Qed.

Lemma accepted_id (int_of_str : string -> option Z) (v : Sim.json) :
  Server.eq_int v 1 || Server.eq_int v 2 = true ->
  exists n sc,
    SimFiles.int_of_json int_of_str v = Some n /\
    Server.eq_int v n = true /\
    TestCases.get_scenario n = Some sc.
Proof.
  intros H. apply orb_true_iff in H. destruct H as [H|H].
  - exists 1, TestCases.CoolingFanFailure.
    split; [apply eq_int_value; auto|]. split; [exact H|reflexivity].
  - exists 2, TestCases.EngineStartSequence.
    split; [apply eq_int_value; auto|]. split; [exact H|reflexivity].
Qed.

(** X17.  Outside mock mode a [trigger_scenario] call whose
    ["scenario_id"] equals 1 or 2 (as an int, a float or a boolean)
    reaches the simulator: [_load_trigger] reads that integer back from
    the file the handler wrote and removes the file, and
    [_maybe_start_scenario] then attaches the registered scenario of that
    id with status "active". *)
Theorem trigger_reaches_simulator (int_of_str : string -> option Z)
    (kv : list (string * Sim.json)) (t : float) (now : string)
    (s : Server.State) (self : Sim.STM32Simulator) (t0 : float) :
  let v := Sim.dict_get kv "scenario_id" in
  let r := Server.trigger_scenario int_of_str false (Some (Sim.JDict kv))
             t now s in
  Server.eq_int v 1 || Server.eq_int v 2 = true ->
  exists n sc,
    fst r = Server.TriggeredJson v /\
    SimFiles._load_trigger int_of_str (Server.TRIGGER_FILE (snd r))
    = (Some n, Sim.CtrlAbsent) /\
    Server.eq_int v n = true /\
    TestCases.get_scenario n = Some sc /\
    Sim.active_scenario (Sim._maybe_start_scenario self (Some n) t0)
    = Some sc /\
    Sim.info_status
      (Sim.scenario_info (Sim._maybe_start_scenario self (Some n) t0))
    = "active"%string.
Proof.
  cbv zeta. intros H.
  destruct (accepted_id int_of_str _ H) as (n & sc & Hn & He & Hs).
  exists n, sc. unfold Server.trigger_scenario. rewrite H. cbn [negb].
  cbn [fst snd Server.TRIGGER_FILE].
  split; [reflexivity|]. split.
  { unfold SimFiles._load_trigger, Server.trigger_document.
    change (Sim.dict_get _ "scenario_id")
      with (Sim.dict_get kv "scenario_id") at 1.
    rewrite Hn. reflexivity. }
  split; [exact He|]. split; [exact Hs|].
  unfold Sim._maybe_start_scenario. rewrite Hs. split; reflexivity.
Qed.

Lemma trigger_reaches_simulator_witness :
  exists n sc,
    fst (Server.trigger_scenario (fun _ => None) false
           (Some (Sim.JDict [("scenario_id"%string, Sim.JFloat 2.0)]))
           100.0 "t" Server.init)
    = Server.TriggeredJson (Sim.JFloat 2.0) /\
    SimFiles._load_trigger (fun _ => None)
      (Server.TRIGGER_FILE
         (snd (Server.trigger_scenario (fun _ => None) false
                 (Some (Sim.JDict [("scenario_id"%string, Sim.JFloat 2.0)]))
                 100.0 "t" Server.init)))
    = (Some n, Sim.CtrlAbsent) /\
    Server.eq_int (Sim.JFloat 2.0) n = true /\
    TestCases.get_scenario n = Some sc /\
    Sim.active_scenario (Sim._maybe_start_scenario Sim.init (Some n) 100.5)
    = Some sc /\
    Sim.info_status
      (Sim.scenario_info (Sim._maybe_start_scenario Sim.init (Some n) 100.5))
    = "active"%string.
Proof.
  apply (trigger_reaches_simulator (fun _ => None)
           [("scenario_id"%string, Sim.JFloat 2.0)] 100.0 "t" Server.init
           Sim.init 100.5).
  vm_compute. reflexivity.
Defined.

(** X18.  In mock mode [trigger_scenario] never answers 404 and never
    fails on converting the id: every id that passes the membership test
    names a registered scenario, which the handler then installs with
    status "active". *)
Theorem mock_trigger_never_404 (int_of_str : string -> option Z)
    (kv : list (string * Sim.json)) (t : float) (now : string)
    (s : Server.State) :
  let v := Sim.dict_get kv "scenario_id" in
  let r := Server.trigger_scenario int_of_str true (Some (Sim.JDict kv))
             t now s in
  (fst r = Server.ErrorJson 400 "Invalid scenario ID. Must be 1 or 2" /\
   snd r = s) \/
  (fst r = Server.TriggeredJson v /\
   (exists n, Server.eq_int v n = true /\
              Server.mock_current_scenario (snd r)
              = TestCases.get_scenario n) /\
   is_Some (Server.mock_current_scenario (snd r)) /\
   Server.mock_status (Server.mock_scenario_status (snd r))
   = "active"%string).
Proof.
  cbv zeta. unfold Server.trigger_scenario.
  destruct (Server.eq_int _ 1 || Server.eq_int _ 2) eqn:H; cbn [negb];
    [right|left; split; reflexivity].
  destruct (accepted_id int_of_str _ H) as (n & sc & -> & He & Hs).
  rewrite Hs. cbn. split; [reflexivity|]. split; [eauto|].
  split; [eauto|reflexivity].
Qed.

End HandlersToSimulator.

(** ** The scenario registry and the system summary *)

Section Registry.
Import TestCases.

(** X19.  [list_scenarios] and [get_scenario] agree: an id is listed with
    a name and a description exactly when [get_scenario] resolves it to a
    scenario carrying them. *)
Theorem list_scenarios_matches_registry (id : Z) (n d : string) :
  In (id, n, d) list_scenarios <->
  exists sc, get_scenario id = Some sc /\ name sc = n /\
             description sc = d.
Proof.
  unfold list_scenarios, get_scenario, SCENARIOS.
  cbn [map find fst snd]. split.
  - intros [H|[H|[]]]; injection H as <- <- <-; eexists;
      (split; [reflexivity|split; reflexivity]).
  - intros (sc & G & <- & <-).
    destruct (Z.eqb_spec 1 id) as [<-|N1].
    { cbn in G. injection G as <-. left. reflexivity. }
    destruct (Z.eqb_spec 2 id) as [<-|N2].
    { cbn in G. injection G as <-. right. left. reflexivity. }
    discriminate G.
Qed.

End Registry.

Section Summary.
Import Reader.

Lemma active_le_enabled (chs : list Channel) :
  forall mask : list bool,
    length chs = length mask ->
    (forall i ch, mask !! i = Some false -> chs !! i = Some ch ->
                  on (status ch) = false) ->
    (length (filter (fun ch => on (status ch) = true) chs)
     <= length (filter (fun b => b = true) mask))%nat.
Proof.
  induction chs as [|a chs IH]; intros [|b mask] L H; try discriminate L.
  - cbn. lia.
  - injection L as L.
    assert (IH' := IH mask L (fun i ch => H (S i) ch)).
    rewrite !filter_cons.
    destruct (decide (on (status a) = true)) as [A|A],
      (decide (b = true)) as [B|B]; cbn [length]; try lia.
    destruct b; [congruence|].
    rewrite (H 0%nat a eq_refl eq_refl) in A. discriminate A.
Qed.

(** X20.  After any sequence of complete calls of [parse_packet],
    [set_channel] and [trigger_scenario] on the freshly loaded module,
    the number of active channels [get_system] reports is at most the
    number of channels enabled in the mask, hence at most 8. *)
Theorem active_channels_bounded_by_mask
    (int_of_str : string -> option Z) (events : list event) :
  let s := serve int_of_str events in
  exists ts v c n,
    Server.get_system s = Server.SystemJson ts v c n /\
    0 <= n <= enabled_count (Server.globals s) /\
    enabled_count (Server.globals s) <= 8.
Proof.
  cbv zeta.
  destruct (serve_reachable int_of_str events) as ([He Hc] & _ & Hm).
  unfold Server.get_system. do 4 eexists. split; [reflexivity|].
  unfold Server.active_channels, enabled_count.
  pose proof (active_le_enabled _ _ (eq_trans Hc (eq_sym He))
                (fun i ch E C => proj1 (Hm i ch E C))) as B.
  pose proof (length_filter (fun b => b = true)
                (channel_enabled
                   (Server.globals (serve int_of_str events)))) as F.
  lia.
Qed.

End Summary.
